(** * gpu-manager: a shallow embedding of share/hybrid/gpu-manager.c

    The program detects the graphics adapters of a machine, compares them
    with the inventory saved at the previous boot and enables or disables
    NVIDIA PRIME accordingly.  This file embeds the inventory data model,
    the persistence code, the connectivity prober, the module handling and
    the policy code of [main], and verifies the properties the specification
    states about them.

    Modelling conventions.
    - C integers are [Z]; an [unsigned int] field holds a value in
      [0, 2^32) and an [int] a value in [-2^31, 2^31).
    - C strings are [string]s (no embedded NUL).
    - [struct gpus] is an array of ten nullable pointers and a counter: a
      list of [option device] and a [Z].  A null dereference or a store
      outside the array is undefined behaviour in C; the model reports it
      as [Fault] (or [None] in pure code).
    - The operating system is split into oracles that the program cannot
      change ([OS]: directories, symbolic links, the result of external
      commands, of [malloc], of DRM and PCI queries, and of [sscanf] on
      the formats that the model of the C library does not cover) and the
      state it does change ([State]: regular files, counters, the trace
      of actions).
    - What the program prints to its log is diagnostic only and is not
      modelled.  The trace records the actions on the outside world and
      the entry of the functions the specification speaks about. *)

From Stdlib Require Import ZArith String Ascii Lia List Bool.
From stdpp Require Import base option list gmap strings.

Local Open Scope string_scope.
Local Open Scope list_scope.
Local Open Scope Z_scope.

(** ** Machine integers *)

Definition UINT_MOD : Z := 2 ^ 32.
Definition to_uint (z : Z) : Z := z mod UINT_MOD.
Definition to_int (z : Z) : Z := (z + 2 ^ 31) mod UINT_MOD - 2 ^ 31.

Definition is_uint (z : Z) : Prop := 0 <= z < UINT_MOD.
Definition is_int (z : Z) : Prop := - 2 ^ 31 <= z < 2 ^ 31.

Definition bool_to_int (b : bool) : Z := if b then 1 else 0.

(** ** Data model *)

Definition AMD : Z := 0x1002.
Definition INTEL : Z := 0x8086.
Definition NVIDIA : Z := 0x10DE.

Inductive prime_mode_settings := ON | OFF | ONDEMAND.

Inductive amdgpu_pro_px_action := MODE_POWERSAVING | MODE_PERFORMANCE | RESET | ISPX.

Record device := mkDevice {
  boot_vga : Z;
  vendor_id : Z;
  device_id : Z;
  domain : Z;
  bus : Z;
  dev : Z;
  func : Z;
  has_connected_outputs : Z
}.

Definition MAX_NR_CARDS : Z := 10.

Record gpus := mkGpus {
  cards : list (option device);
  nr_cards : Z
}.

(** The result of a computation that may run into undefined behaviour
    ([Fault]); [OutOfFuel] is the result of a loop that was given too few
    steps. *)
Inductive res (A : Type) :=
| Ok (a : A)
| Fault
| OutOfFuel.
Arguments Ok {A} a.
Arguments Fault {A}.
Arguments OutOfFuel {A}.

(** [struct gpus x = {0}]: ten null pointers and no card. *)
Definition gpus_zero : gpus := mkGpus (replicate 10 None) 0.

(** [gpus->cards[i]] read as a pointer: [None] when [i] is outside the
    array. *)
Definition card_ptr (g : gpus) (i : Z) : option (option device) :=
  if (0 <=? i) && (i <? MAX_NR_CARDS) then cards g !! Z.to_nat i else None.

(** [*gpus->cards[i]]: [None] when the index is outside the array or the
    pointer is null. *)
Definition card (g : gpus) (i : Z) : option device :=
  match card_ptr g i with
  | Some (Some d) => Some d
  | _ => None
  end.

(** [gpus->cards[gpus->nr_cards] = p]: a fault outside the array. *)
Definition store_card (g : gpus) (p : option device) : res gpus :=
  if (0 <=? nr_cards g) && (nr_cards g <? MAX_NR_CARDS)
  then Ok (mkGpus (<[Z.to_nat (nr_cards g) := p]> (cards g)) (nr_cards g))
  else Fault.

(** [gpus->nr_cards += 1]. *)
Definition incr_cards (g : gpus) : gpus := mkGpus (cards g) (nr_cards g + 1).

(** The invariant of an inventory. *)
Definition gpus_wf (g : gpus) : Prop :=
  length (cards g) = 10%nat /\
  0 <= nr_cards g <= MAX_NR_CARDS /\
  forall i, 0 <= i < nr_cards g -> exists d, card g i = Some d.

(** The fields that [has_system_changed] compares and that the state
    file stores. *)
Definition same_id (p c : device) : Prop :=
  boot_vga p = boot_vga c /\ vendor_id p = vendor_id c /\
  device_id p = device_id c /\ domain p = domain c /\ bus p = bus c /\
  dev p = dev c /\ func p = func c.

(** The condition of the [if] in the loop of [has_system_changed]. *)
Definition differs (p c : device) : bool :=
  negb (boot_vga p =? boot_vga c) ||
  negb (vendor_id p =? vendor_id c) ||
  negb (device_id p =? device_id c) ||
  negb (domain p =? domain c) ||
  negb (bus p =? bus c) ||
  negb (dev p =? dev c) ||
  negb (func p =? func c).

(** The [for] loop of [has_system_changed], from index [i] with [k]
    iterations left. *)
Fixpoint has_system_changed_loop (prev current : gpus) (i : Z) (k : nat)
  : res bool :=
  match k with
  | O => Ok false
  | S k' =>
      match card prev i, card current i with
      | Some p, Some c =>
          if differs p c then Ok true
          else has_system_changed_loop prev current (i + 1) k'
      | _, _ => Fault
      end
  end.

Definition has_system_changed (prev current : gpus) : res bool :=
  if negb (nr_cards prev =? nr_cards current) then Ok true
  else has_system_changed_loop prev current 0 (Z.to_nat (nr_cards prev)).

(** [get_boot_vga]: the first card with the boot flag, if any. *)
Fixpoint get_boot_vga_loop (g : gpus) (i : Z) (k : nat)
  : res (option device) :=
  match k with
  | O => Ok None
  | S k' =>
      match card g i with
      | Some d =>
          if negb (boot_vga d =? 0) then Ok (Some d)
          else get_boot_vga_loop g (i + 1) k'
      | None => Fault
      end
  end.

Definition get_boot_vga (g : gpus) : res (option device) :=
  get_boot_vga_loop g 0 (Z.to_nat (nr_cards g)).

(** [get_first_discrete]: the first card without the boot flag. *)
Fixpoint get_first_discrete_loop (g : gpus) (i : Z) (k : nat)
  : res (option device) :=
  match k with
  | O => Ok None
  | S k' =>
      match card g i with
      | Some d =>
          if boot_vga d =? 0 then Ok (Some d)
          else get_first_discrete_loop g (i + 1) k'
      | None => Fault
      end
  end.

Definition get_first_discrete (g : gpus) : res (option device) :=
  get_first_discrete_loop g 0 (Z.to_nat (nr_cards g)).

(** [requires_offloading]. *)
Definition requires_offloading (g : gpus) : res bool :=
  match get_boot_vga g with
  | Ok (Some d) =>
      Ok ((has_connected_outputs d =? 1) && (vendor_id d =? INTEL))
  | Ok None => Ok false
  | _ => Fault
  end.

(** [free_devices]. *)
Definition free_devices (g : gpus) : gpus :=
  mkGpus (replicate (length (cards g)) None) 0.

(** ** The C library: characters and strings *)

Definition LF : ascii := ascii_of_nat 10.
Definition TAB : ascii := ascii_of_nat 9.
Definition DQ : ascii := ascii_of_nat 34.
Definition nl : string := String LF "".
Definition dq : string := String DQ "".

Definition in_range (lo hi : nat) (c : ascii) : bool :=
  ((lo <=? nat_of_ascii c) && (nat_of_ascii c <=? hi))%nat.

Definition isdigit (c : ascii) : bool := in_range 48 57 c.
Definition isxdigit (c : ascii) : bool :=
  isdigit c || in_range 97 102 c || in_range 65 70 c.
Definition isspace (c : ascii) : bool :=
  in_range 9 13 c || Ascii.eqb c " ".
Definition toupper (c : ascii) : ascii :=
  if in_range 97 122 c then ascii_of_nat (nat_of_ascii c - 32) else c.

(** The value of a digit in base 10 or 16. *)
Definition digit_value (c : ascii) : Z :=
  let n := Z.of_nat (nat_of_ascii c) in
  if isdigit c then n - 48
  else if in_range 97 102 c then n - 87
  else n - 55.

(** The digit of a value below 16, as [printf] writes it. *)
Definition digit_char (v : Z) : ascii :=
  if v <? 10 then ascii_of_nat (Z.to_nat (v + 48))
  else ascii_of_nat (Z.to_nat (v + 87)).

(** [starts_with(string, prefix)]. *)
Definition starts_with (str pre : string) : bool :=
  if (String.length str <? String.length pre)%nat then false
  else String.prefix pre str.

(** [strstr(haystack, needle) != NULL], and the place found. *)
Fixpoint strstr (hay needle : string) : option string :=
  if String.prefix needle hay then Some hay
  else match hay with
       | "" => None
       | String _ hay' => strstr hay' needle
       end.

(** The inner [for] loop of [istrstr] followed by the test [!*chr2]:
    all of [str2] was matched at the start of [str1]. *)
Fixpoint istrstr_here (str1 str2 : string) {struct str2} : bool :=
  match str2 with
  | "" => true
  | String c2 r2 =>
      match str1 with
      | "" => false
      | String c1 r1 =>
          if Ascii.eqb (toupper c1) (toupper c2) then istrstr_here r1 r2
          else false
      end
  end.

(** The outer [for] loop of [istrstr]. *)
Fixpoint istrstr_scan (str1 : string) (c2 : ascii) (str2 : string)
  : option string :=
  match str1 with
  | "" => None
  | String c1 r1 =>
      if Ascii.eqb (toupper c1) (toupper c2) && istrstr_here str1 str2
      then Some str1
      else istrstr_scan r1 c2 str2
  end.

(** Case insensitive equivalent of [strstr]. *)
Definition istrstr (str1 str2 : string) : option string :=
  match str2 with
  | "" => Some str1
  | String c2 _ => istrstr_scan str1 c2 str2
  end.

Fixpoint skip_while (p : ascii -> bool) (s : string) : string :=
  match s with
  | String c r => if p c then skip_while p r else s
  | "" => ""
  end.

Fixpoint take_until (p : ascii -> bool) (s : string) : string :=
  match s with
  | String c r => if p c then "" else String c (take_until p r)
  | "" => ""
  end.

Fixpoint drop_until (p : ascii -> bool) (s : string) : string :=
  match s with
  | String c r => if p c then s else drop_until p r
  | "" => ""
  end.

Definition is_blank (c : ascii) : bool := Ascii.eqb c " " || Ascii.eqb c TAB.

(** [strtok(line, " \t")], first call: the first token, or [None] for
    the null pointer returned when the line holds only delimiters. *)
Definition strtok_blank (line : string) : option string :=
  match skip_while is_blank line with
  | "" => None
  | s => Some (take_until is_blank s)
  end.

(** [strsep(&str, delim)] with a one-character delimiter: the token and
    what is left ([None] when the delimiter was not found). *)
Definition strsep (str : string) (delim : ascii) : string * option string :=
  let tok := take_until (Ascii.eqb delim) str in
  match drop_until (Ascii.eqb delim) str with
  | String _ r => (tok, Some r)
  | "" => (tok, None)
  end.

(** All the tokens that repeated calls of [strsep] return. *)
Fixpoint strsep_all (str : string) (delim : ascii) : list string :=
  match str with
  | "" => [""]
  | String c r =>
      if Ascii.eqb delim c then "" :: strsep_all r delim
      else match strsep_all r delim with
           | t :: ts => String c t :: ts
           | [] => [String c ""]
           end
  end.

(** ** The C library: numbers in text *)

Fixpoint digits_value (base : Z) (acc : Z) (s : string) : Z :=
  match s with
  | "" => acc
  | String c r => digits_value base (acc * base + digit_value c) r
  end.

(** The digits of a non-negative value, most significant first; [fuel]
    bounds their number. *)
Fixpoint digits_of (base : Z) (fuel : nat) (v : Z) (acc : string) : string :=
  match fuel with
  | O => acc
  | S f =>
      let acc' := String (digit_char (v mod base)) acc in
      if v / base =? 0 then acc' else digits_of base f (v / base) acc'
  end.

Fixpoint zeros (n : nat) : string :=
  match n with
  | O => ""
  | S n' => String "0" (zeros n')
  end.

Definition pad0 (w : nat) (s : string) : string :=
  zeros (w - String.length s) +:+ s.

(** [printf("%0<w>x", v)] for an [unsigned int]. *)
Definition fmt_x (w : nat) (v : Z) : string :=
  pad0 w (digits_of 16 8 (to_uint v) "").

(** [printf("%d", v)] for an [int]. *)
Definition fmt_d (v : Z) : string :=
  let i := to_int v in
  if i <? 0 then "-" +:+ digits_of 10 10 (- i) "" else digits_of 10 10 i "".

(** [printf("%ld", v)] for a [long] of 64 bits. *)
Definition fmt_ld (v : Z) : string :=
  if v <? 0 then "-" +:+ digits_of 10 20 (- v) "" else digits_of 10 20 v "".

Definition LONG_MAX : Z := 2 ^ 63 - 1.
Definition LONG_MIN : Z := - 2 ^ 63.
Definition ULONG_MAX : Z := 2 ^ 64 - 1.

(** What [strtol] makes of a sign and the value of the digits. *)
Definition strtol_value (neg : bool) (v : Z) : Z :=
  if neg then (if LONG_MAX + 1 <? v then LONG_MIN else - v)
  else (if LONG_MAX <? v then LONG_MAX else v).

(** What [strtoul] makes of them. *)
Definition strtoul_value (neg : bool) (v : Z) : Z :=
  if ULONG_MAX <? v then ULONG_MAX
  else if neg then (- v) mod (ULONG_MAX + 1) else v.

(** At most [w] leading characters that satisfy [p]. *)
Fixpoint span_digits (p : ascii -> bool) (w : nat) (s : string)
  : string * string :=
  match w, s with
  | S w', String c r =>
      if p c then let (d, rest) := span_digits p w' r in (String c d, rest)
      else ("", s)
  | _, _ => ("", s)
  end.

(** [strtol(s, NULL, 10)]: leading white space, an optional sign, then
    decimal digits; 0 when there is no digit. *)
Definition strtol10 (s : string) : Z :=
  let s0 := skip_while isspace s in
  let '(neg, s1) :=
    match s0 with
    | String "-" r => (true, r)
    | String "+" r => (false, r)
    | _ => (false, s0)
    end in
  let (ds, _) := span_digits isdigit (String.length s1) s1 in
  strtol_value neg (digits_value 10 0 ds).

(** ** The C library: [sscanf]

    The directives that occur in the program: white space, an ordinary
    character, [%<w>x] and [%<w>d] (a width of 0 stands for no width);
    and, since the program puts the name of a directory in a format,
    [%%] and the usual conversions with the assignment suppressed:
    [%*<w>x], [%*<w>d], [%*<w>u], [%*<w>s] and [%*<w>c] ([%X] is
    [%x]).  The matching of numbers follows the GNU C library: an
    optional sign, for [%x] an optional [0x], then digits, all within
    the field width; the digits are converted as [strtoul] and [strtol]
    do.  A format with any other conversion is outside this model
    ([parse_format] gives [None]); what [sscanf] does with it is left to
    the machine, see [os_sscanf]. *)

Inductive directive :=
| DSpace
| DChar (c : ascii)
| DHex (w : nat)
| DDec (w : nat)
| DPercent
| DSkipHex (w : nat)
| DSkipDec (w : nat)
| DSkipStr (w : nat)
| DSkipChars (w : nat).

Fixpoint parse_format (fmt : string) : option (list directive) :=
  match fmt with
  | "" => Some []
  | String c r =>
      if isspace c then cons DSpace <$> parse_format r
      else if Ascii.eqb c "%" then
        match r with
        | String c' r' =>
            if Ascii.eqb c' "%" then cons DPercent <$> parse_format r'
            else if Ascii.eqb c' "*" then parse_conversion true 0 r'
            else parse_conversion false 0 r
        | "" => None
        end
      else cons (DChar c) <$> parse_format r
  end
with parse_conversion (skip : bool) (w : nat) (fmt : string)
  : option (list directive) :=
  match fmt with
  | "" => None
  | String c r =>
      if isdigit c
      then parse_conversion skip (10 * w + Z.to_nat (digit_value c)) r
      else if Ascii.eqb c "x" || Ascii.eqb c "X"
      then cons (if skip then DSkipHex w else DHex w) <$> parse_format r
      else if Ascii.eqb c "d"
      then cons (if skip then DSkipDec w else DDec w) <$> parse_format r
      else if skip && Ascii.eqb c "u"
      then cons (DSkipDec w) <$> parse_format r
      else if skip && Ascii.eqb c "s"
      then cons (DSkipStr w) <$> parse_format r
      else if skip && Ascii.eqb c "c"
      then cons (DSkipChars w) <$> parse_format r
      else None
  end.

(** The optional sign of a number: whether it is negative, the width
    and the input left. *)
Definition scan_sign (w : nat) (s : string) : bool * nat * string :=
  match s with
  | String c r =>
      if Ascii.eqb c "-" then (true, pred w, r)
      else if Ascii.eqb c "+" then (false, pred w, r)
      else (false, w, s)
  | "" => (false, w, s)
  end.

(** A leading [0], and after it for [%x] an [x]: whether a zero was
    read, the width and the input left. *)
Definition scan_lead (hex : bool) (w : nat) (s : string) : bool * nat * string :=
  match w, s with
  | S w', String c r =>
      if Ascii.eqb c "0" then
        match w', r with
        | S w'', String x r' =>
            if hex && Ascii.eqb (toupper x) "X" then (true, w'', r')
            else (true, w', r)
        | _, _ => (true, w', r)
        end
      else (false, w, s)
  | _, _ => (false, w, s)
  end.

(** One number: the value stored and the input left, or [None] when no
    digit was matched.  The input is not empty and starts after the white
    space. *)
Definition scan_number (hex : bool) (w : nat) (s : string)
  : option (Z * string) :=
  let w0 := if (w =? 0)%nat then String.length s else w in
  let '(neg, w1, s1) := scan_sign w0 s in
  let '(lead, w2, s2) := scan_lead hex w1 s1 in
  let (ds, rest) := span_digits (if hex then isxdigit else isdigit) w2 s2 in
  if negb lead && String.eqb ds "" then None
  else
    let v := digits_value (if hex then 16 else 10) 0 ds in
    Some (if hex then to_uint (strtoul_value neg v)
          else to_int (strtol_value neg v), rest).

(** The outcome of a scan: the values converted, in order, and whether
    the input ended before a directive could be matched. *)
Fixpoint run_scan (ds : list directive) (input : string) (acc : list Z)
  : list Z * bool :=
  match ds with
  | [] => (acc, false)
  | DSpace :: ds' => run_scan ds' (skip_while isspace input) acc
  | DChar c :: ds' =>
      match input with
      | "" => (acc, true)
      | String c' r =>
          if Ascii.eqb c c' then run_scan ds' r acc else (acc, false)
      end
  | DHex w :: ds' =>
      match skip_while isspace input with
      | "" => (acc, true)
      | s => match scan_number true w s with
             | Some (v, r) => run_scan ds' r (acc ++ [v])
             | None => (acc, false)
             end
      end
  | DDec w :: ds' =>
      match skip_while isspace input with
      | "" => (acc, true)
      | s => match scan_number false w s with
             | Some (v, r) => run_scan ds' r (acc ++ [v])
             | None => (acc, false)
             end
      end
  | DPercent :: ds' =>
      match skip_while isspace input with
      | "" => (acc, true)
      | String c' r =>
          if Ascii.eqb c' "%" then run_scan ds' r acc else (acc, false)
      end
  | DSkipHex w :: ds' =>
      match skip_while isspace input with
      | "" => (acc, true)
      | s => match scan_number true w s with
             | Some (_, r) => run_scan ds' r acc
             | None => (acc, false)
             end
      end
  | DSkipDec w :: ds' =>
      match skip_while isspace input with
      | "" => (acc, true)
      | s => match scan_number false w s with
             | Some (_, r) => run_scan ds' r acc
             | None => (acc, false)
             end
      end
  | DSkipStr w :: ds' =>
      match skip_while isspace input with
      | "" => (acc, true)
      | s =>
          let w0 := if (w =? 0)%nat then String.length s else w in
          run_scan ds' (snd (span_digits (fun c => negb (isspace c)) w0 s)) acc
      end
  | DSkipChars w :: ds' =>
      match input with
      | "" => (acc, true)
      | s => run_scan ds' (snd (span_digits (fun _ => true) (Nat.max 1 w) s)) acc
      end
  end.

Definition EOF : Z := -1.

(** The value [sscanf] returns and the values it stored. *)
Definition scan_result (r : list Z * bool) : Z * list Z :=
  let (vals, eof) := r in
  (if eof && (length vals =? 0)%nat then EOF else Z.of_nat (length vals),
   vals).

(** The number of conversions of a format that store a value. *)
Fixpoint conversions (ds : list directive) : nat :=
  match ds with
  | [] => O
  | (DHex _ | DDec _) :: ds' => S (conversions ds')
  | _ :: ds' => conversions ds'
  end.

(** [sscanf(input, fmt, p1, ..., pn)] with [nargs] pointers, for a
    format of the model: [None] when the format asks for more values
    than there are pointers (undefined behaviour), or is outside the
    model. *)
Definition sscanf (input fmt : string) (nargs : nat) : option (Z * list Z) :=
  match parse_format fmt with
  | Some ds =>
      if (conversions ds <=? nargs)%nat
      then Some (scan_result (run_scan ds input []))
      else None
  | None => None
  end.

(** ** The C library: reading lines *)

(** At most [n] characters, stopping after a newline. *)
Fixpoint fgets_take (n : nat) (s : string) : string * string :=
  match n, s with
  | S n', String c r =>
      if Ascii.eqb c LF then (String c "", r)
      else let (l, r') := fgets_take n' r in (String c l, r')
  | _, _ => ("", s)
  end.

(** [fgets(line, size, file)] on what is left of a file: the line read
    and the rest, [None] at the end of the file. *)
Definition fgets (size : nat) (s : string) : option (string * string) :=
  match s with
  | "" => None
  | _ => Some (fgets_take (size - 1) s)
  end.

(** The lines that successive calls of [fgets] return. *)
Fixpoint fgets_all (fuel : nat) (size : nat) (s : string) : list string :=
  match fuel with
  | O => []
  | S f =>
      match fgets size s with
      | Some (l, r) => l :: fgets_all f size r
      | None => []
      end
  end.

Definition file_lines (size : nat) (s : string) : list string :=
  fgets_all (String.length s) size s.

(** The lines that successive calls of [getline] return. *)
Definition getlines (s : string) : list string :=
  file_lines (S (S (String.length s))) s.

(** [snprintf(buf, size, ...)]: the text is cut to [size - 1] characters. *)
Definition snprintf (size : nat) (s : string) : string :=
  String.substring 0 (size - 1) s.

Definition PATH_MAX : nat := 4096.

(** ** The operating system *)

(** A device as [libpciaccess] reports it. *)
Record pci_device := mkPci {
  pci_domain : Z;
  pci_bus : Z;
  pci_dev : Z;
  pci_func : Z;
  pci_vendor_id : Z;
  pci_device_id : Z;
  pci_device_class : Z;
  pci_is_boot_vga : Z
}.

(** The actions on the outside world and the calls that a run records. *)
Inductive event :=
| EvSystem (command : string)                 (* [system(command)] ran *)
| EvUnlink (path : string)                    (* [unlink(path)] was called *)
| EvWriteData (filename : string) (g : gpus)  (* [write_data_to_file] entered *)
| EvFindDisabled (dir : string) (g : gpus)    (* [find_disabled_cards] entered *)
| EvUnloadNvidia                              (* [unload_nvidia] entered *)
| EvKillSession                               (* [kill_main_display_session] entered *)
| EvPower (d : device) (enabled : bool)       (* [manage_power_management] entered *)
| EvRemoveXorg (name : string).               (* [remove_xorg_d_custom_file] entered *)

(** What the program cannot change. *)
Record OS := mkOS {
  (* directories, with their entries in the order [readdir] gives them *)
  os_dirs : gmap string (list string);
  (* symbolic links and their targets *)
  os_links : gmap string string;
  (* paths that can neither be opened for writing nor removed *)
  os_readonly : gset string;
  (* [system(command)] after [n] earlier commands: the status and what
     the command does to the files *)
  os_system : nat -> string -> Z * (gmap string string -> gmap string string);
  (* the output of the command run by [popen] after [n] commands of
     [system], [None] when [popen] fails *)
  os_popen : nat -> string -> option string;
  (* the [n]-th call of [malloc]: [None] for a null pointer, else the
     indeterminate contents of the block *)
  os_malloc : nat -> option device;
  (* [open(path, O_RDWR)] on a DRM node and [drmGetVersion(fd)->name] *)
  os_open : string -> Z;
  os_drm_version : Z -> option string;
  (* [pci_system_init()], whether [pci_slot_match_iterator_create] gives
     an iterator, and the devices it enumerates *)
  os_pci_init : Z;
  os_pci_iter : bool;
  os_pci_devices : list pci_device;
  (* [uname(&u)]: [u.release], [None] on failure *)
  os_uname : option string;
  (* the version that [kmod] reports for a module *)
  os_kmod_version : string -> option string;
  (* [sscanf(input, format, ...)] with [n] pointers of the C library of
     the machine, for the formats that hold a conversion outside the
     model of [sscanf] above: the value returned and the values stored,
     [None] where its behaviour is undefined *)
  os_sscanf : string -> string -> nat -> option (Z * list Z)
}.

(** What the program changes: the regular files, the number of commands
    run and of blocks allocated so far. *)
Record State := mkState {
  files : gmap string string;
  nexec : nat;
  nalloc : nat
}.

(** The command line, as [parse_cmd_line] leaves it in the global
    variables. *)
Record config := mkConfig {
  last_boot_file : string;
  new_boot_file : string;
  fake_lspci_file : option string;
  fake_modules_path : option string;
  gpu_detection_path : string;
  amdgpu_pro_px_file : string;
  modprobe_d_path : string;
  xorg_conf_d_path : string;
  prime_settings : string;
  dry_run : bool;
  fake_offloading : bool;
  fake_module_available : bool;
  fake_module_versioned : bool
}.

Definition LAST_BOOT := "/var/lib/ubuntu-drivers-common/last_gfx_boot".
Definition OFFLOADING_CONF := "/var/lib/ubuntu-drivers-common/requires_offloading".
Definition AMDGPU_PRO_PX := "/opt/amdgpu-pro/bin/amdgpu-pro-px".

Definition ENOENT : Z := 2.
Definition ENOMEM : Z := 12.
Definition EACCES : Z := 13.

(** ** Computations

    A computation takes a state and gives a result or a fault, the new
    state and the events it recorded. *)
Definition M (A : Type) : Type := State -> res A * State * list event.

Definition ret {A} (a : A) : M A := fun st => (Ok a, st, []).

Definition bind {A B} (m : M A) (k : A -> M B) : M B :=
  fun st =>
    match m st with
    | (Ok a, st1, t1) =>
        match k a st1 with
        | (r, st2, t2) => (r, st2, t1 ++ t2)
        end
    | (Fault, st1, t1) => (Fault, st1, t1)
    | (OutOfFuel, st1, t1) => (OutOfFuel, st1, t1)
    end.

Notation "x <- m ;; k" := (bind m (fun x => k))
  (at level 100, m at next level, right associativity).
Notation "m ;;; k" := (bind m (fun _ => k))
  (at level 100, right associativity).

Definition fault {A} : M A := fun st => (Fault, st, []).
Definition out_of_fuel {A} : M A := fun st => (OutOfFuel, st, []).
Definition emit (e : event) : M unit := fun st => (Ok tt, st, [e]).
Definition get : M State := fun st => (Ok st, st, []).
Definition lift {A} (r : res A) : M A := fun st => (r, st, []).

(** The three components of a run. *)
Definition result {A} (x : res A * State * list event) : res A := fst (fst x).
Definition final {A} (x : res A * State * list event) : State := snd (fst x).
Definition events {A} (x : res A * State * list event) : list event := snd x.

Section Program.

Variable cfg : config.
Variable os : OS.

(** *** Primitives *)

(** [fopen(path, "r")]: the contents, [None] when the file is absent. *)
Definition fopen_r (path : string) (st : State) : option string :=
  files st !! path.

(** [fopen(path, "w")]: the file is created or emptied. *)
Definition fopen_w (path : string) : M bool := fun st =>
  if decide (path ∈ os_readonly os) then (Ok false, st, [])
  else (Ok true, mkState (<[path := ""]> (files st)) (nexec st) (nalloc st), []).

(** [fprintf(file, ...)] and [fputs] on a file opened for writing. *)
Definition fwrite (path text : string) : M unit := fun st =>
  (Ok tt,
   mkState (<[path := default "" (files st !! path) +:+ text]> (files st))
           (nexec st) (nalloc st),
   []).

(** [stat(path, &st)]: the size of a regular file. *)
Definition stat_size (path : string) (st : State) : option nat :=
  String.length <$> files st !! path.

(** [unlink(path)]: 0, or -1 with [errno]. *)
Definition unlink (path : string) : M (Z * Z) := fun st =>
  match files st !! path with
  | None => (Ok (-1, ENOENT), st, [EvUnlink path])
  | Some _ =>
      if decide (path ∈ os_readonly os)
      then (Ok (-1, EACCES), st, [EvUnlink path])
      else (Ok (0, 0), mkState (delete path (files st)) (nexec st) (nalloc st),
            [EvUnlink path])
  end.

(** [system(command)]. *)
Definition system (command : string) : M Z := fun st =>
  let r := os_system os (nexec st) command in
  (Ok (fst r), mkState (snd r (files st)) (S (nexec st)) (nalloc st),
   [EvSystem command]).

(** [popen(command, "r")]: what the command prints. *)
Definition popen (command : string) (st : State) : option string :=
  os_popen os (nexec st) command.

(** [malloc(sizeof(struct device))]. *)
Definition malloc : M (option device) := fun st =>
  (Ok (os_malloc os (nalloc st)), mkState (files st) (nexec st) (S (nalloc st)), []).

(** [opendir] and the entries that [readdir] returns. *)
Definition opendir (dir : string) : option (list string) := os_dirs os !! dir.

(** *** Files and modules *)

Definition exists_not_empty (file : string) (st : State) : bool :=
  match stat_size file st with
  | None => false
  | Some size => negb (size =? 0)%nat
  end.

Definition act_upon_module_with_params (module : string) (mode : bool)
    (params : option string) : M bool :=
  let tool := if mode then "/sbin/modprobe" else "/sbin/rmmod" in
  let command :=
    match params with
    | Some p => snprintf 300 (tool +:+ " " +:+ module +:+ " " +:+ p)
    | None => snprintf 300 (tool +:+ " " +:+ module)
    end in
  if dry_run cfg then ret true
  else status <- system command ;; ret (status =? 0).

Definition load_module_with_params (module : string) (params : option string)
  : M bool :=
  act_upon_module_with_params module true params.

Definition load_module (module : string) : M bool :=
  load_module_with_params module None.

Definition unload_module (module : string) : M bool :=
  act_upon_module_with_params module false None.

(** The loop of [get_output] over the lines of the output. *)
Fixpoint get_output_loop (lines : list string) (pattern ignore : option string)
  : option string :=
  match lines with
  | [] => None
  | buffer :: rest =>
      match pattern with
      | None => Some buffer
      | Some pat =>
          if match ignore with
             | Some ign => bool_decide (is_Some (strstr buffer ign))
             | None => false
             end
          then get_output_loop rest pattern ignore
          else if bool_decide (is_Some (strstr buffer pat)) then Some buffer
          else get_output_loop rest pattern ignore
      end
  end.

(** [output[len-1] = 0] when the last character is a newline. *)
Fixpoint strip_newline (s : string) : string :=
  match s with
  | "" => ""
  | String c "" => if Ascii.eqb c LF then "" else s
  | String c r => String c (strip_newline r)
  end.

(** Get the first match from the output of a command. *)
Definition get_output (command : string) (pattern ignore : option string)
    (st : State) : option string :=
  match popen command st with
  | None => None
  | Some out =>
      strip_newline <$> get_output_loop (file_lines 1035 out) pattern ignore
  end.

Definition is_module_blacklisted (module : string) (st : State) : bool :=
  let grep (anchor dir : string) :=
    "grep -G " +:+ dq +:+ anchor +:+ "blacklist.*" +:+ module +:+
    "[[:space:]]*$" +:+ dq +:+ " " +:+ dir in
  let matched :=
    if dry_run cfg then
      if exists_not_empty (modprobe_d_path cfg) st
      then get_output (snprintf 100 (grep "" (modprobe_d_path cfg))) None None st
      else None
    else
      match get_output
              (snprintf 100 (grep "^" (modprobe_d_path cfg +:+ "/*.conf")))
              None None st with
      | Some m => Some m
      | None =>
          get_output (snprintf 100 (grep "^" ("/lib/modprobe.d" +:+ "/*.conf")))
                     None None st
      end in
  bool_decide (is_Some matched).

(** The loop of [is_module_loaded]: [strcmp] on a null token is a
    fault. *)
Fixpoint is_module_loaded_loop (lines : list string) (module : string)
  : res bool :=
  match lines with
  | [] => Ok false
  | line :: rest =>
      match strtok_blank line with
      | None => Fault
      | Some tok =>
          if String.eqb tok module then Ok true
          else is_module_loaded_loop rest module
      end
  end.

Definition is_module_loaded (module : string) (st : State) : res bool :=
  let path := default "/proc/modules" (fake_modules_path cfg) in
  match fopen_r path st with
  | None => Ok false
  | Some text => is_module_loaded_loop (file_lines 4096 text) module
  end.

Definition is_file (file : string) (st : State) : bool :=
  bool_decide (is_Some (stat_size file st)).

(** Look for unloaded modules. *)
Definition has_unloaded_module (module : string) (st : State) : res bool :=
  let path := snprintf PATH_MAX
    (gpu_detection_path cfg +:+ "/u-d-c-" +:+ module +:+ "-was-loaded") in
  if is_file path st then
    match is_module_loaded module st with
    | Ok b => Ok (negb b)
    | _ => Fault
    end
  else Ok false.

(** Get prime action, which can be "on", "off", or "on-demand". *)
Definition get_prime_action (path : string) (st : State) : prime_mode_settings :=
  match fopen_r path st with
  | None => OFF
  | Some text =>
      match file_lines 100 text with
      | [] => OFF
      | line :: _ =>
          if bool_decide (is_Some (istrstr line "on-demand")) then ONDEMAND
          else if bool_decide (is_Some (istrstr line "on")) then ON
          else OFF
      end
  end.

(** *** The state file *)

(** One line of the state file:
    ["%04x:%04x;%04x:%02x:%02x:%d;%d\n"]. *)
Definition card_line (d : device) : string :=
  fmt_x 4 (vendor_id d) +:+ ":" +:+ fmt_x 4 (device_id d) +:+ ";" +:+
  fmt_x 4 (domain d) +:+ ":" +:+ fmt_x 2 (bus d) +:+ ":" +:+
  fmt_x 2 (dev d) +:+ ":" +:+ fmt_d (func d) +:+ ";" +:+
  fmt_d (boot_vga d) +:+ nl.

Definition state_line_format : string :=
  "%04x:%04x;%04x:%02x:%02x:%d;%d" +:+ nl.

Definition zero_device : device := mkDevice 0 0 0 0 0 0 0 0.

(** The [for] loop of [write_data_to_file]. *)
Fixpoint write_data_loop (filename : string) (g : gpus) (i : Z) (k : nat)
  : M unit :=
  match k with
  | O => ret tt
  | S k' =>
      match card g i with
      | Some d =>
          fwrite filename (card_line d) ;;;
          write_data_loop filename g (i + 1) k'
      | None => fault
      end
  end.

Definition write_data_to_file (filename : string) (g : gpus) : M bool :=
  emit (EvWriteData filename g) ;;;
  opened <- fopen_w filename ;;
  if opened then
    write_data_loop filename g 0 (Z.to_nat (nr_cards g)) ;;;
    ret true
  else ret false.

(** The [n]-th value that [sscanf] stored, or what the field held
    before. *)
Definition stored (vals : list Z) (n : nat) (before : Z) : Z :=
  default before (vals !! n).

(** [get_vars]: the status of [sscanf] and the inventory with the new
    block, or a null pointer, in the slot after the last card. *)
Definition get_vars (line : string) (g : gpus) (desired_matches : Z)
  : M (Z * gpus) :=
  p <- malloc ;;
  match p with
  | None => ret (- ENOMEM, g)
  | Some blk =>
      match sscanf line state_line_format 7 with
      | None => fault
      | Some (status, vals) =>
          let d := mkDevice
            (stored vals 6 (boot_vga blk))
            (stored vals 0 (vendor_id blk))
            (stored vals 1 (device_id blk))
            (stored vals 2 (domain blk))
            (stored vals 3 (bus blk))
            (stored vals 4 (dev blk))
            (to_uint (stored vals 5 (func blk)))
            (has_connected_outputs blk) in
          let ptr :=
            if (status =? EOF) || negb (status =? desired_matches)
            then None else Some d in
          g' <- lift (store_card g ptr) ;;
          ret (status, g')
      end
  end.

(** The [while] loop of [read_data_from_file] over the lines that
    [fgets] returns. *)
Fixpoint read_data_loop (lines : list string) (g : gpus) (desired_matches : Z)
  : M gpus :=
  match lines with
  | [] => ret g
  | line :: rest =>
      if nr_cards g <? MAX_NR_CARDS then
        if (0 <? String.length line)%nat then
          r <- get_vars line g desired_matches ;;
          read_data_loop rest
            (if fst r =? desired_matches then incr_cards (snd r) else snd r)
            desired_matches
        else read_data_loop rest g desired_matches
      else ret g
  end.

(** Return 0 if it failed, 1 if it succeeded, 2 if it created the file
    for the first time. *)
Definition read_data_from_file (filename : string) (g : gpus) : M (Z * gpus) :=
  let desired_matches := 7 in
  st <- get ;;
  match fopen_r filename st with
  | Some text =>
      g' <- read_data_loop (file_lines 100 text) g desired_matches ;;
      ret (1, g')
  | None =>
      opened <- fopen_w filename ;;
      if opened then
        fwrite filename (card_line zero_device) ;;;
        st' <- get ;;
        match fopen_r filename st' with
        | Some text =>
            g' <- read_data_loop (file_lines 100 text) g desired_matches ;;
            ret (2, g')
        | None => ret (0, g)
        end
      else ret (0, g)
  end.

(** *** Disabled cards *)

Definition marker_pattern : string :=
  "u-d-c-gpu-%04x:%02x:%02x.%d-0x%04x-0x%04x".

(** [sscanf] with a format made at run time: the model of the C library
    where it covers the format, the C library of the machine for a
    format with other conversions. *)
Definition sscanf_any (input fmt : string) (nargs : nat)
  : option (Z * list Z) :=
  match parse_format fmt with
  | Some _ => sscanf input fmt nargs
  | None => os_sscanf os input fmt nargs
  end.

(** [add_gpu_from_file]: the format given to [sscanf] starts with the
    directory name.  [boot_vga] is not set and keeps what the block
    held. *)
Definition add_gpu_from_file (filename dirname : string) (g : gpus) : M gpus :=
  let desired_matches := 6 in
  p <- malloc ;;
  match p with
  | None => ret g
  | Some blk =>
      let path := dirname +:+ "/" +:+ marker_pattern in
      if (PATH_MAX <=? String.length path)%nat then fault
      else
        match sscanf_any filename path 6 with
        | None => fault
        | Some (status, vals) =>
            if (status =? EOF) || negb (status =? desired_matches) then ret g
            else
              let d := mkDevice
                (boot_vga blk)
                (stored vals 4 (vendor_id blk))
                (stored vals 5 (device_id blk))
                (stored vals 0 (domain blk))
                (stored vals 1 (bus blk))
                (stored vals 2 (dev blk))
                (to_uint (stored vals 3 (func blk)))
                (-1) in
              g' <- lift (store_card g (Some d)) ;;
              ret (incr_cards g')
        end
  end.

(** The [while] loop of [find_disabled_cards] over the directory
    entries. *)
Fixpoint find_disabled_loop (entries : list string) (dir : string) (g : gpus)
    (fcn : string -> string -> gpus -> M gpus) : M gpus :=
  match entries with
  | [] => ret g
  | d_name :: rest =>
      if negb (starts_with d_name "u-d-c-gpu-")
      then find_disabled_loop rest dir g fcn
      else if (PATH_MAX <? String.length dir + String.length d_name + 2)%nat
      then find_disabled_loop rest dir g fcn
      else
        g' <- fcn (dir +:+ "/" +:+ d_name) dir g ;;
        find_disabled_loop rest dir g' fcn
  end.

(** Look for clues of disabled cards in the directory. *)
Definition find_disabled_cards (dir : string) (g : gpus)
    (fcn : string -> string -> gpus -> M gpus) : M gpus :=
  emit (EvFindDisabled dir g) ;;;
  match opendir dir with
  | None => ret g
  | Some entries => find_disabled_loop entries dir g fcn
  end.

(** *** Queries on modules and devices *)

(** Check if a kernel module is available for the current kernel. *)
Definition is_module_available (module : string) : bool :=
  match os_uname os with
  | None => false
  | Some release =>
      match opendir ("/lib/modules/" +:+ release +:+ "/updates/dkms") with
      | None => false
      | Some entries => existsb (fun d_name => starts_with d_name module) entries
      end
  end.

Definition is_module_versioned (module_name : string) : bool :=
  if dry_run cfg then false
  else bool_decide (is_Some (os_kmod_version os module_name)).

Fixpoint has_slash (s : string) : bool :=
  match s with
  | "" => false
  | String c r => Ascii.eqb c "/" || has_slash r
  end.

(** What follows the last ['/'] of a path ([strrchr]); the whole path
    when it has none. *)
Fixpoint after_last_slash (s : string) : string :=
  match s with
  | "" => ""
  | String c r =>
      if has_slash r then after_last_slash r
      else if Ascii.eqb c "/" then r
      else s
  end.

(** See if the device is a pci passthrough. *)
Definition is_device_pci_passthrough (info : pci_device) : bool :=
  let sysfs_path :=
    "/sys/bus/pci/devices/" +:+ fmt_x 4 (pci_domain info) +:+ ":" +:+
    fmt_x 2 (pci_bus info) +:+ ":" +:+ fmt_x 2 (pci_dev info) +:+ "." +:+
    fmt_d (pci_func info) +:+ "/driver" in
  if (1024 <=? String.length sysfs_path)%nat then false
  else
    match os_links os !! sysfs_path with
    | Some target =>
        let name := after_last_slash (snprintf 1024 target) in
        String.eqb name "pci-stub" || String.eqb name "pciback"
    | None => false
    end.

(** The loop of [is_connector_connected]: [starts_with] on a null
    token is a fault. *)
Fixpoint is_connector_connected_loop (lines : list string) : res bool :=
  match lines with
  | [] => Ok false
  | line :: rest =>
      match strtok_blank line with
      | None => Fault
      | Some tok =>
          if starts_with tok "connected" then Ok true
          else is_connector_connected_loop rest
      end
  end.

(** Check the drm connector status. *)
Definition is_connector_connected (connector : string) (st : State) : res bool :=
  match fopen_r connector st with
  | None => Ok false
  | Some text => is_connector_connected_loop (file_lines 50 text)
  end.

Definition drm_dir : string := "/sys/class/drm".
Definition dri_dir : string := "/dev/dri".

(** The loop of [count_connected_outputs]. *)
Fixpoint count_connected_loop (entries : list string) (device_name : string)
    (connected_outputs : Z) (st : State) : res Z :=
  match entries with
  | [] => Ok connected_outputs
  | d_name :: rest =>
      if negb (starts_with d_name device_name)
      then count_connected_loop rest device_name connected_outputs st
      else if (PATH_MAX <? String.length drm_dir + String.length d_name + 2)%nat
      then count_connected_loop rest device_name connected_outputs st
      else
        let name := snprintf PATH_MAX
                      (drm_dir +:+ "/" +:+ d_name +:+ "/status") in
        match is_connector_connected name st with
        | Ok true =>
            count_connected_loop rest device_name (connected_outputs + 1) st
        | Ok false =>
            count_connected_loop rest device_name connected_outputs st
        | _ => Fault
        end
  end.

(** Count the number of outputs connected to the card. *)
Definition count_connected_outputs (device_name : string) (st : State) : res Z :=
  match opendir drm_dir with
  | None => Ok 0
  | Some entries => count_connected_loop entries device_name 0 st
  end.

(** [drmGetVersion(fd)->name]: no version on a bad descriptor. *)
Definition drmGetVersion (fd : Z) : option string :=
  if fd <? 0 then None else os_drm_version os fd.

(** The loop of [has_driver_connected_outputs]: the entry of the first
    node whose driver name contains [driver]. *)
Fixpoint find_drm_node (entries : list string) (driver : string)
  : option string :=
  match entries with
  | [] => None
  | d_name :: rest =>
      if negb (starts_with d_name "card") then find_drm_node rest driver
      else
        let path := snprintf PATH_MAX (dri_dir +:+ "/" +:+ d_name) in
        let fd := os_open os path in
        if negb (fd =? 0) then
          match drmGetVersion fd with
          | Some name =>
              if bool_decide (is_Some (strstr name driver)) then Some d_name
              else find_drm_node rest driver
          | None => find_drm_node rest driver
          end
        else find_drm_node rest driver
  end.

(** See if the drm device created by a driver has any connected outputs.
    Return 1 if outputs are connected, 0 if they're not, -1 if unknown. *)
Definition has_driver_connected_outputs (driver : string) : M Z :=
  match opendir dri_dir with
  | None => ret (-1)
  | Some entries =>
      match find_drm_node entries driver with
      | None => ret (-1)
      | Some d_name =>
          p <- malloc ;;
          match p with
          | None => ret (-1)
          | Some _ =>
              st <- get ;;
              connected_outputs <- lift (count_connected_outputs d_name st) ;;
              ret (bool_to_int (0 <? connected_outputs))
          end
      end
  end.

(** *** The current devices *)

Definition PCI_CLASS_DISPLAY : Z := 0x03.

Definition is_display_controller (pci : pci_device) : bool :=
  Z.land (Z.shiftr (pci_device_class pci) 16) 0xFF =? PCI_CLASS_DISPLAY.

(** The [while] loop of [get_current_devices] over the devices of the
    iterator: the value of [ret] and the inventory. *)
Fixpoint get_current_devices_loop (infos : list pci_device) (g : gpus)
    (amdgpu_has_outputs radeon_has_outputs nouveau_has_outputs
     intel_has_outputs : Z) : M (Z * gpus) :=
  match infos with
  | [] => ret (0, g)
  | info :: rest =>
      if is_display_controller info then
        if is_device_pci_passthrough info then
          get_current_devices_loop rest g amdgpu_has_outputs
            radeon_has_outputs nouveau_has_outputs intel_has_outputs
        else if MAX_NR_CARDS <=? nr_cards g then ret (0, g)
        else
          p <- malloc ;;
          match p with
          | None => ret (- ENOMEM, g)
          | Some _ =>
              let outputs :=
                if pci_vendor_id info =? AMD then
                  (if negb (radeon_has_outputs =? -1) then radeon_has_outputs
                   else amdgpu_has_outputs)
                else if pci_vendor_id info =? INTEL then intel_has_outputs
                else if pci_vendor_id info =? NVIDIA then nouveau_has_outputs
                else -1 in
              let d := mkDevice (pci_is_boot_vga info) (pci_vendor_id info)
                         (pci_device_id info) (pci_domain info) (pci_bus info)
                         (pci_dev info) (pci_func info) outputs in
              g' <- lift (store_card g (Some d)) ;;
              get_current_devices_loop rest (incr_cards g') amdgpu_has_outputs
                radeon_has_outputs nouveau_has_outputs intel_has_outputs
          end
      else
        get_current_devices_loop rest g amdgpu_has_outputs
          radeon_has_outputs nouveau_has_outputs intel_has_outputs
  end.

Definition get_current_devices (g : gpus) : M (Z * gpus) :=
  if negb (os_pci_init os =? 0) then ret (- os_pci_init os, g)
  else if negb (os_pci_iter os) then ret (-1, free_devices g)
  else
    amdgpu_has_outputs <- has_driver_connected_outputs "amdgpu" ;;
    radeon_has_outputs <- has_driver_connected_outputs "radeon" ;;
    nouveau_has_outputs <- has_driver_connected_outputs "nouveau" ;;
    intel_has_outputs <- has_driver_connected_outputs "i915" ;;
    r <- get_current_devices_loop (os_pci_devices os) g amdgpu_has_outputs
           radeon_has_outputs nouveau_has_outputs intel_has_outputs ;;
    if negb (fst r =? 0) then ret (fst r, free_devices (snd r))
    else ret r.

(** *** PRIME *)

(** Set permanent settings for offloading. *)
Definition set_offloading : M bool :=
  if dry_run cfg then ret true
  else
    opened <- fopen_w OFFLOADING_CONF ;;
    if opened then fwrite OFFLOADING_CONF ("ON" +:+ nl) ;;; ret true
    else ret false.

Definition create_prime_settings (path : string) : M bool :=
  opened <- fopen_w path ;;
  if opened then fwrite path ("on" +:+ nl) ;;; ret true
  else ret false.

Definition run_amdgpu_pro_px (action : amdgpu_pro_px_action) : M bool :=
  let arg :=
    match action with
    | MODE_POWERSAVING => "mode powersaving"
    | MODE_PERFORMANCE => "mode performance"
    | RESET => "reset"
    | ISPX => "ispx"
    end in
  let command := snprintf 100 (amdgpu_pro_px_file cfg +:+ " --" +:+ arg) in
  if dry_run cfg then ret true
  else status <- system command ;; ret (status =? 0).

Definition quoted (s : string) : string := dq +:+ s +:+ dq.

Definition outputclass_text (multiarch : string) : string :=
  "# DO NOT EDIT. AUTOMATICALLY GENERATED BY gpu-manager" +:+ nl +:+ nl +:+
  "Section " +:+ quoted "OutputClass" +:+ nl +:+
  "    Identifier " +:+ quoted "Nvidia Prime" +:+ nl +:+
  "    MatchDriver " +:+ quoted "nvidia-drm" +:+ nl +:+
  "    Driver " +:+ quoted "nvidia" +:+ nl +:+
  "    Option " +:+ quoted "AllowEmptyInitialConfiguration" +:+ nl +:+
  "    Option " +:+ quoted "IgnoreDisplayDevices" +:+ " " +:+ quoted "CRT" +:+ nl +:+
  "    Option " +:+ quoted "PrimaryGPU" +:+ " " +:+ quoted "Yes" +:+ nl +:+
  "    ModulePath " +:+ quoted ("/" +:+ multiarch +:+ "/nvidia/xorg") +:+ nl +:+
  "EndSection" +:+ nl +:+ nl.

Definition serverlayout_text : string :=
  "# DO NOT EDIT. AUTOMATICALLY GENERATED BY gpu-manager" +:+ nl +:+ nl +:+
  "Section " +:+ quoted "ServerLayout" +:+ nl +:+
  "    Identifier " +:+ quoted "layout" +:+ nl +:+
  "    Option " +:+ quoted "AllowNVIDIAGPUScreens" +:+ nl +:+
  "EndSection" +:+ nl +:+ nl.

Definition prime_conf : string := "11-nvidia-prime.conf".
Definition offload_conf : string := "11-nvidia-offload.conf".

Definition xorg_d_file (name : string) : string :=
  snprintf PATH_MAX (xorg_conf_d_path cfg +:+ "/" +:+ name).

Definition create_prime_outputclass : M bool :=
  let xorg_d_custom := xorg_d_file prime_conf in
  let command :=
    snprintf 100 "/usr/bin/dpkg-architecture -qDEB_HOST_MULTIARCH" in
  st <- get ;;
  match get_output command None None st with
  | None => ret false
  | Some multiarch =>
      opened <- fopen_w xorg_d_custom ;;
      if opened then
        fwrite xorg_d_custom (outputclass_text multiarch) ;;; ret true
      else ret false
  end.

Definition create_offload_serverlayout : M bool :=
  let xorg_d_custom := xorg_d_file offload_conf in
  opened <- fopen_w xorg_d_custom ;;
  if opened then fwrite xorg_d_custom serverlayout_text ;;; ret true
  else ret false.

(** Attempt to remove a file named "name" in xorg_conf_d_path. Returns 0
    if the file is successfully removed, or -errno on failure. *)
Definition remove_xorg_d_custom_file (name : string) : M Z :=
  emit (EvRemoveXorg name) ;;;
  let path := xorg_d_file name in
  st <- get ;;
  match stat_size path st with
  | Some _ =>
      r <- unlink path ;;
      if fst r =? 0 then ret 0 else ret (- snd r)
  | None => ret (- ENOENT)
  end.

Definition remove_prime_outputclass : M Z :=
  remove_xorg_d_custom_file prime_conf.

Definition remove_offload_serverlayout : M Z :=
  remove_xorg_d_custom_file offload_conf.

Definition power_control_path (d : device) : string :=
  snprintf PATH_MAX
    ("/sys/bus/pci/devices/" +:+ fmt_x 4 (domain d) +:+ ":" +:+
     fmt_x 2 (bus d) +:+ ":" +:+ fmt_x 2 (dev d) +:+ "." +:+
     fmt_x 0 (func d) +:+ "/power/control").

Definition manage_power_management (d : device) (enabled : bool) : M bool :=
  emit (EvPower d enabled) ;;;
  let pci_device_path := power_control_path d in
  opened <- fopen_w pci_device_path ;;
  if opened then
    fwrite pci_device_path ((if enabled then "auto" else "on") +:+ nl) ;;;
    ret true
  else ret false.

Definition enable_power_management (d : device) : M unit :=
  manage_power_management d true ;;; ret tt.

Definition disable_power_management (d : device) : M unit :=
  manage_power_management d false ;;; ret tt.

Definition unload_nvidia : M bool :=
  emit EvUnloadNvidia ;;;
  unload_module "nvidia-drm" ;;;
  unload_module "nvidia-uvm" ;;;
  unload_module "nvidia-modeset" ;;;
  unload_module "nvidia".

(** *** The display session *)

Definition get_pid_by_name (name : string) (st : State) : option string :=
  get_output (snprintf 100 ("/bin/pidof " +:+ name)) None None st.

(** The loop of [get_uid_of_pid] over the lines of the status file. *)
Fixpoint get_uid_loop (lines : list string) (uid : Z) : Z :=
  match lines with
  | [] => uid
  | line :: rest =>
      if bool_decide (is_Some (istrstr line "Uid:")) && String.prefix "Uid:" line
      then get_uid_loop rest (strtol10 (String.substring 4 (String.length line) line))
      else get_uid_loop rest uid
  end.

Definition get_uid_of_pid (pid : string) (st : State) : Z :=
  let path := snprintf PATH_MAX ("/proc/" +:+ pid +:+ "/status") in
  match fopen_r path st with
  | None => -1
  | Some text => get_uid_loop (getlines text) (-1)
  end.

(** The loop of [get_user_from_uid] over the lines of the password
    file: the first field of the first line that contains the pattern. *)
Fixpoint get_user_loop (lines : list string) (pattern : string)
  : option string :=
  match lines with
  | [] => None
  | line :: rest =>
      if bool_decide (is_Some (istrstr line pattern))
      then Some (fst (strsep line ":"))
      else get_user_loop rest pattern
  end.

Definition get_user_from_uid (uid : Z) (st : State) : option string :=
  let pattern := snprintf PATH_MAX (fmt_ld uid) in
  match fopen_r "/etc/passwd" st with
  | None => None
  | Some text => get_user_loop (getlines text) pattern
  end.

(** The loop of [find_pid_main_session] over the tokens of the list of
    pids. *)
Fixpoint find_pid_loop (tokens : list string) (st : State) : Z :=
  match tokens with
  | [] => -1
  | token :: rest =>
      let uid := get_uid_of_pid token st in
      if 0 <=? uid then
        match get_user_from_uid uid st with
        | Some user =>
            if String.eqb user "gdm" then strtol10 token
            else find_pid_loop rest st
        | None => find_pid_loop rest st
        end
      else find_pid_loop rest st
  end.

(** Check a strings with pids, and find the gdm session. *)
Definition find_pid_main_session (pid_str : string) (st : State) : Z :=
  find_pid_loop (strsep_all pid_str " ") st.

Definition get_gdm_session_pid (display_server : string) (st : State) : Z :=
  match get_pid_by_name display_server st with
  | None => -1
  | Some pid_str => find_pid_main_session pid_str st
  end.

(** Kill the main display session created by Gdm 3. *)
Definition kill_main_display_session : M bool :=
  emit EvKillSession ;;;
  if dry_run cfg then ret true
  else
    st <- get ;;
    let pid :=
      let first := get_gdm_session_pid "Xwayland" st in
      if first <=? 0 then get_gdm_session_pid "Xorg" st else first in
    if pid <=? 0 then ret false
    else
      status <- system (snprintf 100 ("kill -KILL " +:+ fmt_ld pid)) ;;
      ret (status =? 0).

(** *** [enable_prime] *)

(** [if (!is_module_loaded("nvidia")) load_module("nvidia")]. *)
Definition ensure_nvidia_loaded : M unit :=
  st <- get ;;
  loaded <- lift (is_module_loaded "nvidia" st) ;;
  if negb loaded then load_module "nvidia" ;;; ret tt else ret tt.

(** The code from the label [unload_again] to the end of
    [enable_prime]; every [goto unload_again] takes one unit of fuel. *)
Fixpoint unload_again (fuel : nat) (d : device) (tries : Z) : M bool :=
  match fuel with
  | O => out_of_fuel
  | S fuel' =>
      st <- get ;;
      loaded <- lift (is_module_loaded "nvidia" st) ;;
      if loaded then
        status <- unload_nvidia ;;
        st' <- get ;;
        still_loaded <-
          (if negb status then lift (is_module_loaded "nvidia" st')
           else ret false) ;;
        if negb status && still_loaded then
          if tries =? 0 then
            killed <- kill_main_display_session ;;
            if killed then unload_again fuel' d (tries + 1)
            else enable_power_management d ;;; ret true
          else ret false
        else enable_power_management d ;;; ret true
      else enable_power_management d ;;; ret true
  end.

(** The branch of [enable_prime] for [prime_mode == ON]. *)
Definition prime_on (d : device) : M bool :=
  create_prime_outputclass ;;;
  remove_offload_serverlayout ;;;
  disable_power_management d ;;;
  ensure_nvidia_loaded ;;;
  ret true.

(** The branch for [prime_mode == ONDEMAND]. *)
Definition prime_ondemand (d : device) : M bool :=
  create_offload_serverlayout ;;;
  remove_prime_outputclass ;;;
  enable_power_management d ;;;
  ensure_nvidia_loaded ;;;
  ret true.

(** The last branch, for [OFF]; [tries] starts at 0. *)
Definition prime_off (fuel : nat) (d : device) : M bool :=
  remove_prime_outputclass ;;;
  remove_offload_serverlayout ;;;
  unload_again fuel d 0.

Definition enable_prime (fuel : nat) (path : string) (d : device) : M bool :=
  st <- get ;;
  settings <-
    (if negb (exists_not_empty path st) then create_prime_settings path
     else ret true) ;;
  if negb settings then ret false
  else
    st' <- get ;;
    match get_prime_action path st' with
    | ON => prime_on d
    | ONDEMAND => prime_ondemand d
    | OFF => prime_off fuel d
    end.

(** *** The kernel command line *)

Definition KERN_PARAM : string := "nogpumanager".

(** The loop of [find_string_in_file] over the lines that [getline]
    returns. *)
Fixpoint find_string_loop (lines : list string) (pattern : string) : bool :=
  match lines with
  | [] => false
  | line :: rest =>
      if bool_decide (is_Some (istrstr line pattern)) then true
      else find_string_loop rest pattern
  end.

Definition find_string_in_file (path pattern : string) (st : State) : bool :=
  match fopen_r path st with
  | None => false
  | Some text => find_string_loop (getlines text) pattern
  end.

Definition has_cmdline_option (option : string) (st : State) : bool :=
  find_string_in_file "/proc/cmdline" option st.

Definition is_disabled_in_cmdline (st : State) : bool :=
  has_cmdline_option KERN_PARAM st.

(** *** [main] *)

(** [cards[i]->has_connected_outputs = -1] for the cards of a fake
    inventory. *)
Fixpoint set_fake_outputs (g : gpus) (i : Z) (k : nat) : res gpus :=
  match k with
  | O => Ok g
  | S k' =>
      match card g i with
      | Some d =>
          let d' := mkDevice (boot_vga d) (vendor_id d) (device_id d)
                      (domain d) (bus d) (dev d) (func d) (-1) in
          set_fake_outputs
            (mkGpus (<[Z.to_nat i := Some d']> (cards g)) (nr_cards g))
            (i + 1) k'
      | None => Fault
      end
  end.

(** The facts about the modules that [main] gathers first. *)
Record facts := mkFacts {
  nvidia_loaded : bool;
  nvidia_unloaded : bool;
  intel_loaded : bool;
  amdgpu_loaded : bool;
  nouveau_loaded : bool;
  nvidia_kmod_available : bool;
  amdgpu_is_pro : bool;
  amdgpu_pro_px_installed : bool
}.

Definition gather_facts : M facts :=
  st <- get ;;
  nvidia_loaded <- lift (is_module_loaded "nvidia" st) ;;
  nvidia_unloaded <-
    (if nvidia_loaded then ret false
     else lift (has_unloaded_module "nvidia" st)) ;;
  let nvidia_blacklisted := is_module_blacklisted "nvidia" st in
  i915 <- lift (is_module_loaded "i915" st) ;;
  intel_loaded <-
    (if i915 then ret true else lift (is_module_loaded "i810" st)) ;;
  radeon_loaded <- lift (is_module_loaded "radeon" st) ;;
  let radeon_blacklisted := is_module_blacklisted "radeon" st in
  amdgpu_loaded <- lift (is_module_loaded "amdgpu" st) ;;
  let amdgpu_blacklisted := is_module_blacklisted "amdgpu" st in
  let amdgpu_versioned := is_module_versioned "amdgpu" in
  let amdgpu_pro_px_installed := exists_not_empty (amdgpu_pro_px_file cfg) st in
  nouveau_loaded <- lift (is_module_loaded "nouveau" st) ;;
  let nouveau_blacklisted := is_module_blacklisted "nouveau" st in
  let '(nvidia_kmod_available, amdgpu_kmod_available, amdgpu_versioned) :=
    match fake_lspci_file cfg with
    | Some _ =>
        (fake_module_available cfg, fake_module_available cfg,
         fake_module_versioned cfg)
    | None =>
        (is_module_available "nvidia", is_module_available "amdgpu",
         amdgpu_versioned)
    end in
  let amdgpu_is_pro := amdgpu_kmod_available && amdgpu_versioned in
  ret (mkFacts nvidia_loaded nvidia_unloaded intel_loaded amdgpu_loaded
         nouveau_loaded nvidia_kmod_available amdgpu_is_pro
         amdgpu_pro_px_installed).

(** The current devices and whether offloading is required; [None] where
    [main] jumps to its end. *)
Definition detect_devices : M (option (gpus * bool)) :=
  match fake_lspci_file cfg with
  | Some file =>
      r <- read_data_from_file file gpus_zero ;;
      if fst r =? 0 then ret None
      else
        g <- lift (set_fake_outputs (snd r) 0 (Z.to_nat (nr_cards (snd r)))) ;;
        ret (Some (g, fake_offloading cfg))
  | None =>
      r <- get_current_devices gpus_zero ;;
      if negb (fst r =? 0) then ret None
      else
        offloading <- lift (requires_offloading (snd r)) ;;
        ret (Some (snd r, offloading))
  end.

(** [if (enable_prime(...)) set_offloading();]. *)
Definition try_enable_prime (fuel : nat) (discrete : device) : M unit :=
  enabled <- enable_prime fuel (prime_settings cfg) discrete ;;
  if enabled then set_offloading ;;; ret tt else ret tt.

(** The part of [main] after the state file was written. *)
Definition apply_policy (fuel : nat) (f : facts) (offloading has_changed : bool)
    (current_devices : gpus) (boot_device : device) : M unit :=
  if nr_cards current_devices =? 1 then
    if vendor_id boot_device =? INTEL then
      if offloading && nvidia_unloaded f then
        g <- find_disabled_cards (gpu_detection_path cfg) current_devices
               add_gpu_from_file ;;
        discrete <- lift (get_first_discrete g) ;;
        match discrete with
        | None => ret tt
        | Some d => try_enable_prime fuel d
        end
      else ret tt
    else if vendor_id boot_device =? AMD then
      if has_changed && amdgpu_loaded f && amdgpu_is_pro f &&
         amdgpu_pro_px_installed f
      then run_amdgpu_pro_px RESET ;;; ret tt
      else ret tt
    else if vendor_id boot_device =? NVIDIA then
      remove_offload_serverlayout ;;; ret tt
    else ret tt
  else if 1 <? nr_cards current_devices then
    discrete <- lift (get_first_discrete current_devices) ;;
    match discrete with
    | None => ret tt
    | Some d =>
        if vendor_id boot_device =? INTEL then
          if has_changed && amdgpu_loaded f && amdgpu_is_pro f &&
             amdgpu_pro_px_installed f
          then run_amdgpu_pro_px MODE_POWERSAVING ;;; ret tt
          else if offloading &&
                  (intel_loaded f && negb (nouveau_loaded f) &&
                   (nvidia_loaded f || nvidia_kmod_available f))
          then try_enable_prime fuel d
          else ret tt
        else ret tt
    end
  else ret tt.

(** [main], once [parse_cmd_line] has returned 0.
    [report_prime_intel_driver] only reads [/proc/cmdline] and writes to
    the log. *)
Definition main (fuel : nat) : M unit :=
  f <- gather_facts ;;
  detected <- detect_devices ;;
  match detected with
  | None => ret tt
  | Some (current_devices, offloading) =>
      (if negb offloading && negb (dry_run cfg)
       then unlink OFFLOADING_CONF ;;; ret tt else ret tt) ;;;
      r <- read_data_from_file (last_boot_file cfg) gpus_zero ;;
      if fst r =? 0 then ret tt
      else
        let old_devices := snd r in
        written <- write_data_to_file (new_boot_file cfg) current_devices ;;
        if negb written then ret tt
        else
          has_changed <- lift (has_system_changed old_devices current_devices) ;;
          boot <- lift (get_boot_vga current_devices) ;;
          match boot with
          | None => ret tt
          | Some boot_device =>
              apply_policy fuel f offloading has_changed current_devices
                boot_device
          end
  end.

End Program.

(** ** The devices of an inventory *)

(** The cards [cards[i]], ..., [cards[i + k - 1]], up to the first null
    pointer. *)
Fixpoint cards_from (g : gpus) (i : Z) (k : nat) : list device :=
  match k with
  | O => []
  | S k' =>
      match card g i with
      | Some d => d :: cards_from g (i + 1) k'
      | None => []
      end
  end.

(** The devices of an inventory, in the order of the array. *)
Definition devices (g : gpus) : list device :=
  cards_from g 0 (Z.to_nat (nr_cards g)).

(** The text of a state file that holds these devices. *)
Definition render (ds : list device) : string :=
  foldr (fun d text => card_line d +:+ text) "" ds.

(** The inventory that holds these devices (ten at most). *)
Definition inventory (ds : list device) : gpus :=
  mkGpus (take 10 (map Some ds ++ replicate 10 None))
         (Z.of_nat (Nat.min 10 (length ds))).

(** ** Example machines

    No example gives [sscanf] a format outside the model: their
    [os_sscanf] is never asked, and answers [None]. *)

Definition tab : string := String TAB "".

Definition cfg_default : config :=
  mkConfig LAST_BOOT LAST_BOOT None None "/run" AMDGPU_PRO_PX
    "/etc/modprobe.d" "/usr/share/X11/xorg.conf.d" "/etc/prime-discrete"
    false false false false.

Definition nvidia_card : device := mkDevice 0 NVIDIA 0x1140 0 1 0 0 (-1).
Definition intel_card : device := mkDevice 1 INTEL 0x0166 0 0 2 0 1.

(** A laptop whose nvidia module is in use: [rmmod] fails, every other
    command succeeds, and no command changes a file.  [pidof] finds the
    X server of the display manager. *)
Definition os_busy : OS :=
  mkOS ∅ ∅ ∅
    (fun _ command =>
       if String.prefix "/sbin/rmmod" command then (256, id) else (0, id))
    (fun _ command =>
       if String.eqb command "/bin/pidof Xorg" then Some ("1234" +:+ nl)
       else Some "")
    (fun _ => Some zero_device)
    (fun _ => -1) (fun _ => None) 0 true []
    (Some "5.4.0-42-generic") (fun _ => None) (fun _ _ _ => None).

(** The same laptop without a display server. *)
Definition os_headless : OS :=
  mkOS ∅ ∅ ∅
    (fun _ command =>
       if String.prefix "/sbin/rmmod" command then (256, id) else (0, id))
    (fun _ _ => Some "")
    (fun _ => Some zero_device)
    (fun _ => -1) (fun _ => None) 0 true []
    (Some "5.4.0-42-generic") (fun _ => None) (fun _ _ _ => None).

Definition busy_files (settings : string) : gmap string string :=
  <["/proc/modules" :=
      "nvidia 35000000 40 nvidia_modeset, Live 0xffffffffc0000000" +:+ nl]>
  (<["/etc/prime-discrete" := settings +:+ nl]>
  (<["/proc/1234/status" :=
       "Name:" +:+ tab +:+ "Xorg" +:+ nl +:+
       "Uid:" +:+ tab +:+ "120" +:+ tab +:+ "120" +:+ nl]>
  (<["/etc/passwd" :=
       "root:x:0:0:root:/root:/bin/bash" +:+ nl +:+
       "gdm:x:120:125:Gnome Display Manager:/var/lib/gdm3:/bin/false" +:+ nl]>
   ∅))).

(** PRIME is switched off in the settings. *)
Definition st_busy : State := mkState (busy_files "off") 0 0.

Definition run_busy :=
  enable_prime cfg_default os_busy 2 "/etc/prime-discrete" nvidia_card st_busy.

Definition run_headless :=
  enable_prime cfg_default os_headless 2 "/etc/prime-discrete" nvidia_card
    st_busy.

(** An Optimus laptop: an Intel adapter drives the panel, the nvidia
    adapter was disabled and left [markers] in /run, the nvidia module
    is not loaded. *)
Definition marker (b : string) : string :=
  "u-d-c-gpu-0000:" +:+ b +:+ ":00.0-0x10de-0x1140".

Definition intel_pci : pci_device :=
  mkPci 0 0 2 0 INTEL 0x0166 0x030000 1.

Definition os_optimus (markers : list string) : OS :=
  mkOS
    (<["/dev/dri" := ["."; ".."; "card0"; "renderD128"] ]>
     (<["/sys/class/drm" := ["."; ".."; "card0"; "card0-eDP-1"; "card0-HDMI-A-1"] ]>
     (<["/run" := "u-d-c-nvidia-was-loaded" :: markers ]> ∅)))
    ∅ ∅
    (fun _ _ => (0, id))
    (fun _ command =>
       if String.eqb command "/usr/bin/dpkg-architecture -qDEB_HOST_MULTIARCH"
       then Some ("x86_64-linux-gnu" +:+ nl) else Some "")
    (fun _ => Some zero_device)
    (fun path => if String.eqb path "/dev/dri/card0" then 3 else -1)
    (fun fd => if fd =? 3 then Some "i915" else None)
    0 true [intel_pci]
    (Some "5.4.0-42-generic") (fun _ => None) (fun _ _ _ => None).

Definition st_optimus : State :=
  mkState
    (<["/proc/modules" := "i915 1900000 5 - Live 0xffffffffc0000000" +:+ nl]>
    (<["/run/u-d-c-nvidia-was-loaded" := "yes" +:+ nl]>
    (<["/sys/class/drm/card0-eDP-1/status" := "connected" +:+ nl]>
    (<["/sys/class/drm/card0-HDMI-A-1/status" := "disconnected" +:+ nl]>
    (<["/etc/prime-discrete" := "on-demand" +:+ nl]> ∅)))))
    0 0.

Definition ten_markers : list string :=
  map marker ["01"; "02"; "03"; "04"; "05"; "06"; "07"; "08"; "09"; "0a"].

Definition nine_markers : list string := take 9 ten_markers.

(** What [get_current_devices] finds on the laptop. *)
Definition optimus_current : gpus :=
  mkGpus (Some (mkDevice 1 INTEL 0x0166 0 0 2 0 1) :: replicate 9 None) 1.

(** * Properties *)

Lemma differs_false (p c : device) : differs p c = false <-> same_id p c.
Proof.
  unfold differs, same_id.
  rewrite !orb_false_iff, !negb_false_iff, !Z.eqb_eq. tauto.
Qed.

Lemma differs_true (p c : device) : differs p c = true <-> ~ same_id p c.
Proof.
  rewrite <- differs_false. destruct (differs p c); split; congruence.
Qed.

Lemma has_system_changed_loop_spec (prev current : gpus) (k : nat) (i : Z) :
  (forall j, i <= j < i + Z.of_nat k ->
     exists p c, card prev j = Some p /\ card current j = Some c) ->
  exists b, has_system_changed_loop prev current i k = Ok b /\
    (b = true <->
     exists j p c, i <= j < i + Z.of_nat k /\
       card prev j = Some p /\ card current j = Some c /\ ~ same_id p c).
Proof.
  revert i. induction k as [|k IH]; intros i Hwf.
  - exists false. split; [reflexivity|]. split; [discriminate|].
    intros (j & _ & _ & Hj & _). lia.
  - destruct (Hwf i ltac:(lia)) as (p & c & Hp & Hc).
    cbn [has_system_changed_loop]. rewrite Hp, Hc.
    destruct (differs p c) eqn:Hd.
    + exists true. split; [reflexivity|]. split; [|reflexivity]. intros _.
      exists i, p, c. repeat split; try lia; try assumption.
      now apply differs_true.
    + destruct (IH (i + 1)) as (b & Hb & Hiff).
      { intros j Hj. apply Hwf. lia. }
      exists b. split; [exact Hb|]. rewrite Hiff. split.
      * intros (j & p' & c' & Hj & H). exists j, p', c'. split; [lia|exact H].
      * intros (j & p' & c' & Hj & Hp' & Hc' & Hne).
        destruct (Z.eq_dec j i) as [->|Hji].
        -- rewrite Hp in Hp'. rewrite Hc in Hc'. simplify_eq.
           apply differs_false in Hd. contradiction.
        -- exists j, p', c'. repeat split; try lia; assumption.
Qed.

Lemma has_system_changed_iff (prev current : gpus) :
  gpus_wf prev -> gpus_wf current ->
  exists b, has_system_changed prev current = Ok b /\
    (b = true <->
       nr_cards prev <> nr_cards current \/
       exists i p c, 0 <= i < nr_cards prev /\
         card prev i = Some p /\ card current i = Some c /\ ~ same_id p c).
Proof.
  intros (_ & Hn & Hp) (_ & _ & Hc). unfold has_system_changed.
  destruct (nr_cards prev =? nr_cards current) eqn:He; cbn [negb].
  - apply Z.eqb_eq in He.
    destruct (has_system_changed_loop_spec prev current
                (Z.to_nat (nr_cards prev)) 0) as (b & Hb & Hiff).
    { intros j Hj. rewrite Z2Nat.id in Hj by lia.
      destruct (Hp j ltac:(lia)) as [p Hpj].
      destruct (Hc j ltac:(lia)) as [c Hcj]. eauto. }
    exists b. split; [exact Hb|]. rewrite Hiff, Z2Nat.id by lia.
    split.
    + intros H. right. exact H.
    + intros [H|H]; [contradiction|exact H].
  - apply Z.eqb_neq in He. exists true. split; [reflexivity|].
    split; [|reflexivity]. intros _. now left.
Qed.

(** A checker for the invariant. *)
Definition gpus_wfb (g : gpus) : bool :=
  (length (cards g) =? 10)%nat && (0 <=? nr_cards g) &&
  (nr_cards g <=? MAX_NR_CARDS) &&
  (length (devices g) =? Z.to_nat (nr_cards g))%nat.

Lemma cards_from_full g k i :
  length (cards_from g i k) = k ->
  forall j, i <= j < i + Z.of_nat k -> is_Some (card g j).
Proof.
  revert i. induction k as [|k IH]; intros i Hl j Hj; [lia|].
  cbn [cards_from] in Hl. destruct (card g i) as [d|] eqn:Hd; [|discriminate].
  cbn [length] in Hl. destruct (Z.eq_dec j i) as [->|Hne]; [eauto|].
  apply (IH (i + 1)); lia.
Qed.

Lemma gpus_wfb_wf g : gpus_wfb g = true -> gpus_wf g.
Proof.
  unfold gpus_wfb. rewrite !andb_true_iff.
  intros [[[Hl H0] H1] Hd].
  apply Nat.eqb_eq in Hl, Hd. apply Z.leb_le in H0, H1.
  split; [exact Hl|]. split; [lia|]. intros i Hi.
  destruct (cards_from_full g _ 0 Hd i) as [d Hc]; [lia|]. eauto.
Qed.

Definition two_cards : gpus := inventory [intel_card; nvidia_card].
Definition one_card : gpus := inventory [intel_card].

(** C1.  For well-formed inventories [has_system_changed] returns, and it
    returns true exactly when the card counts differ or some position
    holds two devices that differ in the boot-vga flag, the vendor id,
    the device id or a component of the bus address.  In particular it
    returns false when the counts are equal and the devices agree on
    these fields at every position, whatever [has_connected_outputs]
    holds: that field does not occur in [same_id]. *)
Theorem has_system_changed_spec (prev current : gpus) :
  gpus_wf prev -> gpus_wf current ->
  exists b, has_system_changed prev current = Ok b /\
    (b = true <->
       nr_cards prev <> nr_cards current \/
       exists i p c, 0 <= i < nr_cards prev /\
         card prev i = Some p /\ card current i = Some c /\ ~ same_id p c) /\
    (nr_cards prev = nr_cards current ->
     (forall i p c, 0 <= i < nr_cards prev ->
        card prev i = Some p -> card current i = Some c -> same_id p c) ->
     b = false).
Proof.
  intros Hp Hc. destruct (has_system_changed_iff prev current Hp Hc)
    as (b & Hb & Hiff).
  exists b. split; [exact Hb|]. split; [exact Hiff|].
  intros Hn Hs. destruct b; [|reflexivity].
  destruct (proj1 Hiff eq_refl) as [Hne|(i & p & c & Hi & Hpi & Hci & Hd)].
  - contradiction.
  - exfalso. apply Hd. eapply Hs; eassumption.
Qed.

Lemma has_system_changed_spec_witness :
  exists b, has_system_changed one_card two_cards = Ok b /\
    (b = true <->
       nr_cards one_card <> nr_cards two_cards \/
       exists i p c, 0 <= i < nr_cards one_card /\
         card one_card i = Some p /\ card two_cards i = Some c /\
         ~ same_id p c) /\
    (nr_cards one_card = nr_cards two_cards ->
     (forall i p c, 0 <= i < nr_cards one_card ->
        card one_card i = Some p -> card two_cards i = Some c -> same_id p c) ->
     b = false).
Proof.
  apply (has_system_changed_spec one_card two_cards);
    apply gpus_wfb_wf; reflexivity.
Defined.

(** ** Strings *)

Lemma append_nil_l (s : string) : "" +:+ s = s.
Proof. reflexivity. Qed.

Lemma append_cons (c : ascii) (s t : string) :
  String c s +:+ t = String c (s +:+ t).
Proof. reflexivity. Qed.

Ltac app_simpl := rewrite ?append_cons, ?append_nil_l.
Ltac app_simpl_in H := rewrite ?append_cons, ?append_nil_l in H.

Lemma append_nil_r (s : string) : s +:+ "" = s.
Proof. induction s as [|c s IH]; app_simpl; [reflexivity|now rewrite IH]. Qed.

Lemma append_assoc (a b c : string) : (a +:+ b) +:+ c = a +:+ b +:+ c.
Proof. induction a as [|x a IH]; app_simpl; [reflexivity|now rewrite IH]. Qed.

Lemma length_append (a b : string) :
  String.length (a +:+ b) = (String.length a + String.length b)%nat.
Proof.
  induction a as [|x a IH]; app_simpl; cbn [String.length Nat.add];
    [reflexivity|now rewrite IH].
Qed.

(** The string in upper case. *)
Fixpoint upper (s : string) : string :=
  match s with
  | "" => ""
  | String c r => String (toupper c) (upper r)
  end.

(** [icontains s p]: [p] occurs in [s], the case of the letters apart. *)
Definition icontains (s p : string) : Prop :=
  exists pre mid suf, s = pre +:+ mid +:+ suf /\ upper mid = upper p.

Lemma upper_append (a b : string) : upper (a +:+ b) = upper a +:+ upper b.
Proof.
  induction a as [|x a IH]; app_simpl; cbn [upper]; app_simpl;
    [reflexivity|now rewrite IH].
Qed.

Lemma upper_split (m p q : string) :
  upper m = upper (p +:+ q) ->
  exists m1 m2, m = m1 +:+ m2 /\ upper m1 = upper p /\ upper m2 = upper q.
Proof.
  revert m. induction p as [|c p IH]; intros m H.
  - exists "", m. auto.
  - app_simpl_in H. destruct m as [|x m]; cbn [upper] in H; [discriminate|].
    injection H as Hx Hm. destruct (IH m Hm) as (m1 & m2 & -> & H1 & H2).
    exists (String x m1), m2. app_simpl. cbn [upper]. rewrite Hx, H1. auto.
Qed.

Lemma icontains_prefix (s p q : string) :
  icontains s (p +:+ q) -> icontains s p.
Proof.
  intros (pre & mid & suf & -> & Hm).
  destruct (upper_split mid p q Hm) as (m1 & m2 & -> & H1 & _).
  exists pre, m1, (m2 +:+ suf). now rewrite append_assoc.
Qed.

Lemma istrstr_here_spec (s p : string) :
  istrstr_here s p = true <->
  exists mid suf, s = mid +:+ suf /\ upper mid = upper p.
Proof.
  revert s. induction p as [|c2 p IH]; intros s; cbn [istrstr_here].
  - split; [|reflexivity]. intros _. exists "", s. auto.
  - destruct s as [|c1 s].
    + split; [discriminate|]. intros (mid & suf & Hs & Hm).
      destruct mid; [discriminate|discriminate].
    + destruct (Ascii.eqb_spec (toupper c1) (toupper c2)) as [Hc|Hc].
      * rewrite IH. split.
        -- intros (mid & suf & -> & Hm). exists (String c1 mid), suf.
           app_simpl. cbn [upper]. now rewrite Hc, Hm.
        -- intros (mid & suf & Hs & Hm). destruct mid as [|x mid]; [discriminate|].
           app_simpl_in Hs. cbn [upper] in Hm.
           injection Hs as -> ->. injection Hm as _ Hm. eauto.
      * split; [discriminate|]. intros (mid & suf & Hs & Hm).
        destruct mid as [|x mid]; [discriminate|].
        app_simpl_in Hs. cbn [upper] in Hm.
        injection Hs as -> ->. injection Hm as Hx _. contradiction.
Qed.

Lemma istrstr_scan_spec (s : string) (c : ascii) (p : string) :
  is_Some (istrstr_scan s c (String c p)) <-> icontains s (String c p).
Proof.
  induction s as [|x s IH]; cbn [istrstr_scan].
  - split; [intros [? H]; discriminate|].
    intros (pre & mid & suf & Hs & Hm). destruct pre; [|discriminate].
    destruct mid; discriminate.
  - destruct (Ascii.eqb (toupper x) (toupper c) &&
              istrstr_here (String x s) (String c p)) eqn:Hh.
    + split; [|eauto]. intros _. apply andb_true_iff in Hh as [_ Hh].
      apply istrstr_here_spec in Hh as (mid & suf & Hs & Hm).
      exists "", mid, suf. auto.
    + rewrite IH. split.
      * intros (pre & mid & suf & -> & Hm). exists (String x pre), mid, suf. auto.
      * intros (pre & mid & suf & Hs & Hm). destruct pre as [|y pre].
        -- exfalso. app_simpl_in Hs.
           assert (Hhere : istrstr_here (String x s) (String c p) = true).
           { apply istrstr_here_spec. eauto. }
           rewrite Hhere, andb_true_r in Hh.
           cbn [istrstr_here] in Hhere. rewrite Hh in Hhere. discriminate.
        -- app_simpl_in Hs. injection Hs as -> ->. exists pre, mid, suf. auto.
Qed.

(** [istrstr] finds [str2] exactly when it occurs in [str1], the case
    of the letters apart. *)
Lemma istrstr_spec (str1 str2 : string) :
  is_Some (istrstr str1 str2) <-> icontains str1 str2.
Proof.
  destruct str2 as [|c p]; cbn [istrstr].
  - split; [|eauto]. intros _. exists "", "", str1. auto.
  - apply istrstr_scan_spec.
Qed.

(** ** Runs of computations *)

Arguments snprintf : simpl never.
Arguments fmt_ld : simpl never.
Arguments fmt_x : simpl never.
Arguments fmt_d : simpl never.
Arguments String.append : simpl never.
Arguments file_lines : simpl never.

Lemma run_bind {A B} (m : M A) (k : A -> M B) (st : State) :
  bind m k st =
  match m st with
  | (Ok a, st1, t1) => (result (k a st1), final (k a st1), t1 ++ events (k a st1))
  | (Fault, st1, t1) => (Fault, st1, t1)
  | (OutOfFuel, st1, t1) => (OutOfFuel, st1, t1)
  end.
Proof.
  unfold bind, result, final, events.
  destruct (m st) as [[[a| |] st1] t1]; try reflexivity.
  destruct (k a st1) as [[r st2] t2]. reflexivity.
Qed.

Lemma events_bind {A B} (m : M A) (k : A -> M B) (st : State) :
  events (bind m k st) =
  events (m st) ++
  match result (m st) with
  | Ok a => events (k a (final (m st)))
  | _ => []
  end.
Proof.
  rewrite run_bind. unfold result, final, events.
  destruct (m st) as [[[a| |] st1] t1]; cbn; try reflexivity;
    now rewrite app_nil_r.
Qed.

Lemma result_bind {A B} (m : M A) (k : A -> M B) (st : State) :
  result (bind m k st) =
  match result (m st) with
  | Ok a => result (k a (final (m st)))
  | Fault => Fault
  | OutOfFuel => OutOfFuel
  end.
Proof.
  rewrite run_bind. unfold result, final.
  destruct (m st) as [[[a| |] st1] t1]; reflexivity.
Qed.

Lemma final_bind {A B} (m : M A) (k : A -> M B) (st : State) :
  final (bind m k st) =
  match result (m st) with
  | Ok a => final (k a (final (m st)))
  | _ => final (m st)
  end.
Proof.
  rewrite run_bind. unfold result, final.
  destruct (m st) as [[[a| |] st1] t1]; reflexivity.
Qed.

Lemma bind_get {B} (k : State -> M B) (st : State) : bind get k st = k st st.
Proof. unfold bind, get. now destruct (k st st) as [[? ?] ?]. Qed.

Lemma bind_ret {A B} (a : A) (k : A -> M B) (st : State) :
  bind (ret a) k st = k a st.
Proof. unfold bind, ret. now destruct (k a st) as [[? ?] ?]. Qed.

Lemma bind_lift_ok {A B} (a : A) (k : A -> M B) (st : State) :
  bind (lift (Ok a)) k st = k a st.
Proof. unfold bind, lift. now destruct (k a st) as [[? ?] ?]. Qed.

Lemma bind_run_ok {A B} (m : M A) (k : A -> M B) st a st1 t1 :
  m st = (Ok a, st1, t1) ->
  bind m k st = (result (k a st1), final (k a st1), t1 ++ events (k a st1)).
Proof. intros H. now rewrite run_bind, H. Qed.

Lemma run_eta {A} (x : res A * State * list event) :
  x = (result x, final x, events x).
Proof. now destruct x as [[? ?] ?]. Qed.

(** A run that ends well went through both halves of a [bind]. *)
Lemma bind_ok {A B} (m : M A) (k : A -> M B) st b st' t :
  bind m k st = (Ok b, st', t) ->
  exists a st1 t1 t2,
    m st = (Ok a, st1, t1) /\ k a st1 = (Ok b, st', t2) /\ t = t1 ++ t2.
Proof.
  unfold bind. destruct (m st) as [[[a| |] st1] t1]; try discriminate.
  destruct (k a st1) as [[r st2] t2] eqn:Hk. intros H. inversion H; subst.
  exists a, st1, t1, t2. auto.
Qed.

(** ** Counting events *)

Definition is_kill (e : event) : bool :=
  match e with EvKillSession => true | _ => false end.
Definition is_unload (e : event) : bool :=
  match e with EvUnloadNvidia => true | _ => false end.
Definition is_power (e : event) : bool :=
  match e with EvPower _ _ => true | _ => false end.
Definition is_write (e : event) : bool :=
  match e with EvWriteData _ _ => true | _ => false end.

Fixpoint count (p : event -> bool) (t : list event) : nat :=
  match t with
  | [] => O
  | e :: t' => if p e then S (count p t') else count p t'
  end.

Lemma count_app p t1 t2 : count p (t1 ++ t2) = (count p t1 + count p t2)%nat.
Proof.
  induction t1 as [|e t1 IH]; cbn; [reflexivity|].
  destruct (p e); cbn; lia.
Qed.

(** [emits_at_most p n m]: no run of [m] records more than [n] events
    that satisfy [p]. *)
Definition emits_at_most {A} (p : event -> bool) (n : nat) (m : M A) : Prop :=
  forall st, (count p (events (m st)) <= n)%nat.

Section Bounds.

Context {A B : Type} (p : event -> bool).

Lemma eam_weaken (n n' : nat) (m : M A) :
  emits_at_most p n m -> (n <= n')%nat -> emits_at_most p n' m.
Proof. intros H Hn st. specialize (H st). lia. Qed.

Lemma eam_ret (n : nat) (a : A) : emits_at_most p n (ret a).
Proof. intros st. cbn. lia. Qed.

Lemma eam_lift (n : nat) (r : res A) : emits_at_most p n (lift r).
Proof. intros st. cbn. lia. Qed.

Lemma eam_fault (n : nat) : emits_at_most p n (@fault A).
Proof. intros st. cbn. lia. Qed.

Lemma eam_out_of_fuel (n : nat) : emits_at_most p n (@out_of_fuel A).
Proof. intros st. cbn. lia. Qed.

Lemma eam_bind (n k : nat) (m : M A) (f : A -> M B) :
  emits_at_most p n m -> (forall a, emits_at_most p k (f a)) ->
  emits_at_most p (n + k) (bind m f).
Proof.
  intros Hm Hf st. rewrite events_bind, count_app.
  specialize (Hm st). destruct (result (m st)) as [a| |]; cbn; try lia.
  specialize (Hf a (final (m st))). lia.
Qed.

Lemma eam_bind0 (k : nat) (m : M A) (f : A -> M B) :
  emits_at_most p 0 m -> (forall a, emits_at_most p k (f a)) ->
  emits_at_most p k (bind m f).
Proof. intros Hm Hf. apply (eam_bind 0 k); assumption. Qed.

Lemma eam_bind1 (k : nat) (m : M A) (f : A -> M B) :
  emits_at_most p 1 m -> (forall a, emits_at_most p k (f a)) ->
  emits_at_most p (S k) (bind m f).
Proof. intros Hm Hf. apply (eam_bind 1 k); assumption. Qed.

End Bounds.

Lemma eam_get p n : emits_at_most p n get.
Proof. intros st. cbn. lia. Qed.

Lemma eam_emit_other p n e : p e = false -> emits_at_most p n (emit e).
Proof. intros H st. cbn. rewrite H. lia. Qed.

Lemma eam_emit p n e : emits_at_most p (S n) (emit e).
Proof. intros st. cbn. destruct (p e); lia. Qed.

Lemma eam_fopen_w p n os path : emits_at_most p n (fopen_w os path).
Proof. intros st. unfold fopen_w. destruct (decide _); cbn; lia. Qed.

Lemma eam_fwrite p n path text : emits_at_most p n (fwrite path text).
Proof. intros st. cbn. lia. Qed.

Lemma eam_malloc p n os : emits_at_most p n (malloc os).
Proof. intros st. cbn. lia. Qed.

Lemma eam_system p n os command :
  p (EvSystem command) = false -> emits_at_most p n (system os command).
Proof. intros H st. cbn. rewrite H. lia. Qed.

Lemma eam_unlink p n os path :
  p (EvUnlink path) = false -> emits_at_most p n (unlink os path).
Proof.
  intros H st. unfold unlink.
  destruct (files st !! path); [destruct (decide _)|]; cbn; rewrite H; lia.
Qed.

Create HintDb eam discriminated.

#[export] Hint Resolve eam_ret eam_lift eam_fault eam_out_of_fuel eam_get
  eam_fopen_w eam_fwrite eam_malloc : eam.
#[export] Hint Resolve eam_bind0 | 2 : eam.
#[export] Hint Resolve eam_bind1 | 5 : eam.
#[export] Hint Resolve eam_emit | 5 : eam.
#[export] Hint Extern 1 (emits_at_most _ _ (emit _)) =>
  apply eam_emit_other; reflexivity : eam.
#[export] Hint Extern 1 (emits_at_most _ _ (system _ _)) =>
  apply eam_system; reflexivity : eam.
#[export] Hint Extern 1 (emits_at_most _ _ (unlink _ _)) =>
  apply eam_unlink; reflexivity : eam.
#[export] Hint Extern 3 (emits_at_most _ _ (if ?b then _ else _)) =>
  destruct b : eam.
#[export] Hint Extern 3 (emits_at_most _ _ (match ?x with _ => _ end)) =>
  destruct x : eam.
#[export] Hint Extern 8 (emits_at_most _ _ (bind _ _)) => intros : eam.

Ltac eam := intros; eauto 40 with eam.

(** ** The kinds of events a computation records *)

Inductive kind :=
| KSystem | KUnlink | KWrite | KFind | KUnload | KKill | KPower | KRemove.

Definition kind_of (e : event) : kind :=
  match e with
  | EvSystem _ => KSystem
  | EvUnlink _ => KUnlink
  | EvWriteData _ _ => KWrite
  | EvFindDisabled _ _ => KFind
  | EvUnloadNvidia => KUnload
  | EvKillSession => KKill
  | EvPower _ _ => KPower
  | EvRemoveXorg _ => KRemove
  end.

Definition kind_eqb (a b : kind) : bool :=
  match a, b with
  | KSystem, KSystem | KUnlink, KUnlink | KWrite, KWrite | KFind, KFind
  | KUnload, KUnload | KKill, KKill | KPower, KPower | KRemove, KRemove => true
  | _, _ => false
  end.

Definition kind_in (k : kind) (ks : list kind) : bool := existsb (kind_eqb k) ks.

Definition only (ks : list kind) (t : list event) : bool :=
  forallb (fun e => kind_in (kind_of e) ks) t.

Definition incl_kinds (ks ks' : list kind) : bool :=
  forallb (fun k => kind_in k ks') ks.

(** [emits_only ks m]: every event that [m] records has a kind of [ks]. *)
Definition emits_only {A} (ks : list kind) (m : M A) : Prop :=
  forall st, only ks (events (m st)) = true.

Lemma only_app ks t1 t2 : only ks (t1 ++ t2) = only ks t1 && only ks t2.
Proof. apply forallb_app. Qed.

Lemma kind_eqb_eq a b : kind_eqb a b = true <-> a = b.
Proof. destruct a, b; cbn; split; congruence. Qed.

Lemma kind_in_incl ks ks' k :
  incl_kinds ks ks' = true -> kind_in k ks = true -> kind_in k ks' = true.
Proof.
  unfold incl_kinds, kind_in. rewrite forallb_forall, existsb_exists.
  intros H (k' & Hin & Hk). apply kind_eqb_eq in Hk. subst k'. now apply H.
Qed.

Lemma only_incl ks ks' t :
  incl_kinds ks ks' = true -> only ks t = true -> only ks' t = true.
Proof.
  unfold only. rewrite !forallb_forall. intros H Ht e He.
  eapply kind_in_incl; eauto.
Qed.

Lemma only_count ks p t :
  (forall e, p e = true -> kind_in (kind_of e) ks = false) ->
  only ks t = true -> count p t = O.
Proof.
  intros Hp. induction t as [|e t IH]; cbn; [reflexivity|].
  rewrite andb_true_iff. intros [He Ht]. destruct (p e) eqn:Hpe.
  - rewrite (Hp e Hpe) in He. discriminate.
  - now apply IH.
Qed.

Section Kinds.

Context {A B : Type} (ks : list kind).

Lemma eo_weaken ks0 (m : M A) :
  emits_only ks0 m -> incl_kinds ks0 ks = true -> emits_only ks m.
Proof. intros H Hi st. eapply only_incl; eauto. Qed.

Lemma eo_ret (a : A) : emits_only ks (ret a).
Proof. intros st. reflexivity. Qed.

Lemma eo_lift (r : res A) : emits_only ks (lift r).
Proof. intros st. reflexivity. Qed.

Lemma eo_fault : emits_only ks (@fault A).
Proof. intros st. reflexivity. Qed.

Lemma eo_out_of_fuel : emits_only ks (@out_of_fuel A).
Proof. intros st. reflexivity. Qed.

Lemma eo_bind (m : M A) (f : A -> M B) :
  emits_only ks m -> (forall a, emits_only ks (f a)) ->
  emits_only ks (bind m f).
Proof.
  intros Hm Hf st. rewrite events_bind, only_app, (Hm st). cbn.
  destruct (result (m st)) as [a| |]; [apply Hf|reflexivity..].
Qed.

End Kinds.

Lemma eo_get ks : emits_only ks get.
Proof. intros st. reflexivity. Qed.

Lemma eo_emit ks e : kind_in (kind_of e) ks = true -> emits_only ks (emit e).
Proof. intros H st. cbn. now rewrite H. Qed.

Lemma eo_fopen_w ks os path : emits_only ks (fopen_w os path).
Proof. intros st. unfold fopen_w. destruct (decide _); reflexivity. Qed.

Lemma eo_fwrite ks path text : emits_only ks (fwrite path text).
Proof. intros st. reflexivity. Qed.

Lemma eo_malloc ks os : emits_only ks (malloc os).
Proof. intros st. reflexivity. Qed.

Lemma eo_system ks os command :
  kind_in KSystem ks = true -> emits_only ks (system os command).
Proof. intros H st. cbn. now rewrite H. Qed.

Lemma eo_unlink ks os path :
  kind_in KUnlink ks = true -> emits_only ks (unlink os path).
Proof.
  intros H st. unfold unlink.
  destruct (files st !! path); [destruct (decide _)|]; cbn; now rewrite H.
Qed.

(** A computation that records only kinds of [ks] records no event that
    [p] accepts, when [p] accepts no kind of [ks]. *)
Lemma eo_eam {A} ks p n (m : M A) :
  emits_only ks m ->
  (forall e, p e = true -> kind_in (kind_of e) ks = false) ->
  emits_at_most p n m.
Proof.
  intros H Hp st. rewrite (only_count ks p _ Hp (H st)). lia.
Qed.

Create HintDb eo discriminated.

#[export] Hint Resolve eo_ret eo_lift eo_fault eo_out_of_fuel eo_get
  eo_fopen_w eo_fwrite eo_malloc eo_bind : eo.
#[export] Hint Extern 1 (emits_only _ (emit _)) =>
  apply eo_emit; reflexivity : eo.
#[export] Hint Extern 1 (emits_only _ (system _ _)) =>
  apply eo_system; reflexivity : eo.
#[export] Hint Extern 1 (emits_only _ (unlink _ _)) =>
  apply eo_unlink; reflexivity : eo.
#[export] Hint Extern 3 (emits_only _ (if ?b then _ else _)) =>
  destruct b : eo.
#[export] Hint Extern 3 (emits_only _ (match ?x with _ => _ end)) =>
  destruct x : eo.
#[export] Hint Extern 4 (emits_only _ (let (_, _) := ?x in _)) =>
  destruct x : eo.

(** [eo_by H]: conclude from what a called function records. *)
Ltac eo_by H := eapply eo_weaken; [apply H | reflexivity].

Ltac eo := intros; eauto 60 with eo.

Lemma eo_act_upon cfg os module mode params :
  emits_only [KSystem] (act_upon_module_with_params cfg os module mode params).
Proof. unfold act_upon_module_with_params. eo. Qed.

Lemma eo_unload_nvidia cfg os : emits_only [KUnload; KSystem] (unload_nvidia cfg os).
Proof.
  unfold unload_nvidia, unload_module.
  repeat (apply eo_bind; [|intros _]); try (eo_by eo_act_upon). eo.
Qed.

Lemma eo_kill cfg os :
  emits_only [KKill; KSystem] (kill_main_display_session cfg os).
Proof. unfold kill_main_display_session. eo. Qed.

Lemma eo_manage_power os d enabled :
  emits_only [KPower] (manage_power_management os d enabled).
Proof. unfold manage_power_management. eo. Qed.

Lemma eo_enable_power os d : emits_only [KPower] (enable_power_management os d).
Proof.
  unfold enable_power_management. apply eo_bind; [apply eo_manage_power|eo].
Qed.

Lemma eo_disable_power os d : emits_only [KPower] (disable_power_management os d).
Proof.
  unfold disable_power_management. apply eo_bind; [apply eo_manage_power|eo].
Qed.

Lemma eo_remove_xorg cfg os name :
  emits_only [KRemove; KUnlink] (remove_xorg_d_custom_file cfg os name).
Proof. unfold remove_xorg_d_custom_file. eo. Qed.

Lemma eo_create_prime_settings os path :
  emits_only [] (create_prime_settings os path).
Proof. unfold create_prime_settings. eo. Qed.

Lemma eo_create_prime_outputclass cfg os :
  emits_only [] (create_prime_outputclass cfg os).
Proof. unfold create_prime_outputclass. eo. Qed.

Lemma eo_create_offload_serverlayout cfg os :
  emits_only [] (create_offload_serverlayout cfg os).
Proof. unfold create_offload_serverlayout. eo. Qed.

Lemma eo_ensure_nvidia_loaded cfg os :
  emits_only [KSystem] (ensure_nvidia_loaded cfg os).
Proof.
  unfold ensure_nvidia_loaded, load_module, load_module_with_params.
  apply eo_bind; [eo|]. intros st. apply eo_bind; [eo|]. intros [|].
  - eo.
  - apply eo_bind; [apply eo_act_upon|eo].
Qed.



(** ** Computations that finish *)

(** [finishes m]: no run of [m] is cut short for want of fuel. *)
Definition finishes {A} (m : M A) : Prop :=
  forall st, result (m st) <> OutOfFuel.

Lemma fin_ret {A} (a : A) : finishes (ret a).
Proof. intros st. discriminate. Qed.

Lemma fin_fault {A} : finishes (@fault A).
Proof. intros st. discriminate. Qed.

Lemma fin_get : finishes get.
Proof. intros st. discriminate. Qed.

Lemma fin_emit e : finishes (emit e).
Proof. intros st. discriminate. Qed.

Lemma fin_lift {A} (r : res A) : r <> OutOfFuel -> finishes (lift r).
Proof. intros H st. exact H. Qed.

Lemma fin_bind {A B} (m : M A) (f : A -> M B) :
  finishes m -> (forall a, finishes (f a)) -> finishes (bind m f).
Proof.
  intros Hm Hf st. rewrite result_bind. specialize (Hm st).
  destruct (result (m st)) as [a| |]; [apply Hf|discriminate|contradiction].
Qed.

Lemma fin_fopen_w os path : finishes (fopen_w os path).
Proof. intros st. unfold fopen_w. destruct (decide _); discriminate. Qed.

Lemma fin_fwrite path text : finishes (fwrite path text).
Proof. intros st. discriminate. Qed.

Lemma fin_malloc os : finishes (malloc os).
Proof. intros st. discriminate. Qed.

Lemma fin_system os command : finishes (system os command).
Proof. intros st. discriminate. Qed.

Lemma fin_unlink os path : finishes (unlink os path).
Proof.
  intros st. unfold unlink.
  destruct (files st !! path); [destruct (decide _)|]; discriminate.
Qed.

Lemma is_module_loaded_loop_finishes lines module :
  is_module_loaded_loop lines module <> OutOfFuel.
Proof.
  induction lines as [|line rest IH]; cbn; [discriminate|].
  destruct (strtok_blank line); [|discriminate].
  destruct (String.eqb _ _); [discriminate|exact IH].
Qed.

Lemma is_module_loaded_finishes cfg module st :
  is_module_loaded cfg module st <> OutOfFuel.
Proof.
  unfold is_module_loaded. destruct (fopen_r _ _); [|discriminate].
  apply is_module_loaded_loop_finishes.
Qed.

Create HintDb fin discriminated.

#[export] Hint Resolve fin_ret fin_fault fin_get fin_emit fin_bind fin_fopen_w
  fin_fwrite fin_malloc fin_system fin_unlink : fin.
#[export] Hint Extern 1 (finishes (lift (is_module_loaded _ _ _))) =>
  apply fin_lift, is_module_loaded_finishes : fin.
#[export] Hint Extern 3 (finishes (if ?b then _ else _)) => destruct b : fin.
#[export] Hint Extern 3 (finishes (match ?x with _ => _ end)) => destruct x : fin.

Ltac fin := intros; eauto 60 with fin.

Lemma fin_act_upon cfg os module mode params :
  finishes (act_upon_module_with_params cfg os module mode params).
Proof. unfold act_upon_module_with_params. fin. Qed.

Lemma fin_unload_nvidia cfg os : finishes (unload_nvidia cfg os).
Proof.
  unfold unload_nvidia, unload_module.
  repeat (apply fin_bind; [|intros _]); try apply fin_act_upon. fin.
Qed.

Lemma fin_kill cfg os : finishes (kill_main_display_session cfg os).
Proof. unfold kill_main_display_session. fin. Qed.

Lemma fin_enable_power os d : finishes (enable_power_management os d).
Proof. unfold enable_power_management, manage_power_management. fin. Qed.

Lemma fin_disable_power os d : finishes (disable_power_management os d).
Proof. unfold disable_power_management, manage_power_management. fin. Qed.

Lemma fin_remove_xorg cfg os name : finishes (remove_xorg_d_custom_file cfg os name).
Proof. unfold remove_xorg_d_custom_file. fin. Qed.

(** The retry of [enable_prime] needs two units of fuel at most: one for
    the first attempt and one after the [goto]. *)
Lemma fin_unload_again cfg os fuel d tries :
  (if tries =? 0 then (2 <= fuel)%nat else (1 <= fuel)%nat) ->
  finishes (unload_again cfg os fuel d tries).
Proof.
  revert tries. induction fuel as [|fuel IH]; intros tries Hf.
  - destruct (tries =? 0); lia.
  - cbn [unload_again].
    apply fin_bind; [fin|]. intros st. apply fin_bind; [fin|]. intros [|].
    + apply fin_bind; [apply fin_unload_nvidia|]. intros status.
      apply fin_bind; [fin|]. intros st'. apply fin_bind; [fin|].
      intros still. destruct (negb status && still).
      * destruct (tries =? 0) eqn:Ht; [|fin].
        apply fin_bind; [apply fin_kill|]. intros [|].
        -- apply IH. apply Z.eqb_eq in Ht. subst tries.
           change (0 + 1 =? 0) with false. cbn in *. lia.
        -- apply fin_bind; [apply fin_enable_power|fin].
      * apply fin_bind; [apply fin_enable_power|fin].
    + apply fin_bind; [apply fin_enable_power|fin].
Qed.

(** ** The reclaim protocol *)

Lemma eam_kill_kill cfg os :
  emits_at_most is_kill 1 (kill_main_display_session cfg os).
Proof.
  unfold kill_main_display_session.
  apply eam_bind1; [apply eam_emit|]. intros _.
  eapply eo_eam with (ks := [KSystem]); [eo|].
  intros [] H; try discriminate; reflexivity.
Qed.

Lemma eam_unload_unload cfg os :
  emits_at_most is_unload 1 (unload_nvidia cfg os).
Proof.
  unfold unload_nvidia, unload_module.
  apply eam_bind1; [apply eam_emit|]. intros _.
  eapply eo_eam with (ks := [KSystem]).
  - repeat (apply eo_bind; [|intros _]); apply eo_act_upon.
  - intros [] H; try discriminate; reflexivity.
Qed.

Ltac quiet H :=
  eapply eo_eam; [apply H | intros [] ?; try discriminate; reflexivity].

(** From the label [unload_again] on, the session is killed once at
    most, and only in the first attempt. *)
Lemma unload_again_kills cfg os fuel d tries :
  emits_at_most is_kill (if tries =? 0 then 1 else 0)
    (unload_again cfg os fuel d tries).
Proof.
  revert tries. induction fuel as [|fuel IH]; intros tries; cbn [unload_again].
  - apply eam_out_of_fuel.
  - apply eam_bind0; [eam|]. intros st. apply eam_bind0; [eam|]. intros [|].
    + apply eam_bind0; [quiet eo_unload_nvidia|]. intros status.
      apply eam_bind0; [eam|]. intros st'. apply eam_bind0; [eam|].
      intros still. destruct (negb status && still).
      * destruct (tries =? 0) eqn:Ht; [|eam].
        apply Z.eqb_eq in Ht. subst tries.
        apply eam_bind1; [apply eam_kill_kill|]. intros [|].
        -- apply (IH (0 + 1)).
        -- apply eam_bind0; [quiet eo_enable_power|eam].
      * apply eam_bind0; [quiet eo_enable_power|eam].
    + apply eam_bind0; [quiet eo_enable_power|eam].
Qed.

(** The modules are unloaded twice at most: once per attempt. *)
Lemma unload_again_unloads cfg os fuel d tries :
  emits_at_most is_unload (if tries =? 0 then 2 else 1)
    (unload_again cfg os fuel d tries).
Proof.
  revert tries. induction fuel as [|fuel IH]; intros tries; cbn [unload_again].
  - apply eam_out_of_fuel.
  - apply eam_bind0; [eam|]. intros st. apply eam_bind0; [eam|]. intros [|].
    + eapply eam_weaken
        with (n := (1 + (if (tries =? 0)%Z then 1 else 0))%nat);
        [|destruct (tries =? 0); lia].
      apply eam_bind; [apply eam_unload_unload|]. intros status.
      apply eam_bind0; [eam|]. intros st'. apply eam_bind0; [eam|].
      intros still. destruct (negb status && still).
      * destruct (tries =? 0) eqn:Ht; [|eam].
        apply Z.eqb_eq in Ht. subst tries.
        apply eam_bind0; [quiet eo_kill|]. intros [|].
        -- apply (IH (0 + 1)).
        -- apply eam_bind0; [quiet eo_enable_power|eam].
      * apply eam_bind0; [quiet eo_enable_power|eam].
    + apply eam_bind0; [quiet eo_enable_power|eam].
Qed.

(** *** The shape of the runs *)

Lemma count_system p cmds :
  (forall c, p (EvSystem c) = false) -> count p (map EvSystem cmds) = O.
Proof.
  intros H. induction cmds as [|c cmds IH]; cbn; [reflexivity|].
  now rewrite H.
Qed.

Lemma act_upon_run cfg os module mode params st :
  exists b st' cmds,
    act_upon_module_with_params cfg os module mode params st =
    (Ok b, st', map EvSystem cmds).
Proof.
  unfold act_upon_module_with_params. destruct (dry_run cfg).
  - exists true, st, []. reflexivity.
  - eexists _, _, [_]. reflexivity.
Qed.

Lemma unload_nvidia_run cfg os st :
  exists b st' cmds,
    unload_nvidia cfg os st = (Ok b, st', EvUnloadNvidia :: map EvSystem cmds).
Proof.
  unfold unload_nvidia, unload_module.
  destruct (act_upon_run cfg os "nvidia-drm" false None st)
    as (b1 & st1 & c1 & H1).
  destruct (act_upon_run cfg os "nvidia-uvm" false None st1)
    as (b2 & st2 & c2 & H2).
  destruct (act_upon_run cfg os "nvidia-modeset" false None st2)
    as (b3 & st3 & c3 & H3).
  destruct (act_upon_run cfg os "nvidia" false None st3)
    as (b4 & st4 & c4 & H4).
  exists b4, st4, (c1 ++ c2 ++ c3 ++ c4).
  rewrite run_bind. cbn [emit]. rewrite run_bind, H1.
  unfold result, final, events. cbn [fst snd].
  rewrite run_bind, H2. cbn [fst snd]. rewrite run_bind, H3. cbn [fst snd].
  rewrite H4. cbn [fst snd]. now rewrite !map_app.
Qed.

Lemma kill_run cfg os st :
  exists b st' cmds,
    kill_main_display_session cfg os st =
    (Ok b, st', EvKillSession :: map EvSystem cmds).
Proof.
  unfold kill_main_display_session. rewrite run_bind. cbn [emit].
  unfold result, final, events. cbn [fst snd].
  destruct (dry_run cfg).
  - exists true, st, []. reflexivity.
  - rewrite run_bind. cbn [get]. cbn zeta.
    destruct (_ <=? 0).
    + exists false, st, []. reflexivity.
    + eexists _, _, [_]. reflexivity.
Qed.

Lemma enable_power_run os d st :
  exists st', enable_power_management os d st = (Ok tt, st', [EvPower d true]).
Proof.
  unfold enable_power_management, manage_power_management.
  rewrite !run_bind. cbn [emit]. unfold result, final, events. cbn [fst snd].
  rewrite run_bind. unfold fopen_w. destruct (decide _); cbn; eauto.
Qed.

(** Invert a run of a [bind] that ended well: [H1] is the run of the
    first computation, [H] becomes the run of the second. *)
Ltac minv H H1 :=
  let a := fresh "a" in
  let s := fresh "s" in
  let t1 := fresh "t" in
  let t2 := fresh "t" in
  apply bind_ok in H; destruct H as (a & s & t1 & t2 & H1 & H & ->);
  lazymatch type of H1 with
  | get _ = _ => inversion H1; subst; clear H1
  | lift _ _ = _ => unfold lift in H1; inversion H1; subst; clear H1
  | ret _ _ = _ => inversion H1; subst; clear H1
  | emit _ _ = _ => inversion H1; subst; clear H1
  | _ => idtac
  end.

Lemma count_unload_run cfg os st b st' t :
  unload_nvidia cfg os st = (b, st', t) ->
  count is_unload t = 1%nat /\ count is_kill t = O /\ count is_power t = O.
Proof.
  destruct (unload_nvidia_run cfg os st) as (b0 & st0 & cmds & ->).
  intros H. inversion H; subst. cbn. now rewrite !count_system.
Qed.

Lemma count_kill_run cfg os st b st' t :
  kill_main_display_session cfg os st = (b, st', t) ->
  count is_unload t = O /\ count is_kill t = 1%nat /\ count is_power t = O.
Proof.
  destruct (kill_run cfg os st) as (b0 & st0 & cmds & ->).
  intros H. inversion H; subst. cbn. now rewrite !count_system.
Qed.

(** What a run of the retry that ends well has recorded: when it
    returns true, setting the power management was its last action;
    when it returns false, the power management was not touched, and
    the run started at [tries = 0] unloaded twice and killed the session
    once. *)
Lemma unload_again_outcome cfg os fuel d tries st b st' t :
  unload_again cfg os fuel d tries st = (Ok b, st', t) ->
  if b then exists t', t = t' ++ [EvPower d true]
  else count is_power t = O /\
       count is_unload t = (if (tries =? 0)%Z then 2 else 1)%nat /\
       count is_kill t = (if (tries =? 0)%Z then 1 else 0)%nat.
Proof.
  revert tries st b st' t.
  induction fuel as [|fuel IH]; intros tries st b st' t H;
    cbn [unload_again] in H; [discriminate|].
  assert (Hpow : forall s (b' : bool) s' u,
            (enable_power_management os d;;; ret true) s = (Ok b', s', u) ->
            b' = true /\ u = [EvPower d true]).
  { intros s b' s' u Hu. minv Hu He.
    destruct (enable_power_run os d s) as (s1 & Hs). rewrite Hs in He.
    inversion He; subst. inversion Hu; subst. auto. }
  minv H Hg. minv H Hl. cbn [app].
  destruct a.
  - minv H Hu. apply count_unload_run in Hu as (Hu1 & Hu2 & Hu3).
    minv H Hg. minv H Hs.
    assert (t0 = []) as -> by (destruct a; inversion Hs; reflexivity).
    destruct (negb a && a0) eqn:Hcond.
    + destruct (tries =? 0) eqn:Ht.
      * minv H Hk. apply count_kill_run in Hk as (Hk1 & Hk2 & Hk3).
        destruct a1.
        -- apply IH in H. apply Z.eqb_eq in Ht. subst tries.
           change (0 + 1 =? 0) with false in H. destruct b.
           ++ destruct H as [t' ->]. eexists.
              rewrite !app_assoc. reflexivity.
           ++ destruct H as (Hp & Hu & Hk). cbn [app].
              rewrite !count_app. cbn [count].
              rewrite Hu1, Hu2, Hu3, Hk1, Hk2, Hk3, Hp, Hu, Hk.
              repeat split; lia.
        -- apply Hpow in H as [-> ->]. eexists.
           rewrite !app_assoc. reflexivity.
      * inversion H; subst. cbn [app]. rewrite !count_app. cbn [count].
        rewrite Hu1, Hu2, Hu3. repeat split; lia.
    + apply Hpow in H as [-> ->]. eexists. rewrite !app_assoc. reflexivity.
  - apply Hpow in H as [-> ->]. exists []. reflexivity.
Qed.

(** *** The branch for [OFF] *)

(** A removal records its entry and at most one [unlink]; afterwards the
    file is absent unless it is protected, and no file has appeared. *)
Lemma remove_xorg_run cfg os name st :
  exists r st' t,
    remove_xorg_d_custom_file cfg os name st = (Ok r, st', EvRemoveXorg name :: t) /\
    only [KUnlink] t = true /\
    (xorg_d_file cfg name ∉ os_readonly os ->
     files st' !! xorg_d_file cfg name = None) /\
    (forall p, files st !! p = None -> files st' !! p = None).
Proof.
  unfold remove_xorg_d_custom_file. rewrite run_bind. cbn [emit].
  unfold result, final, events. cbn [fst snd]. rewrite run_bind. cbn [get].
  unfold stat_size.
  destruct (files st !! xorg_d_file cfg name) as [text|] eqn:Hf; cbn [fmap option_fmap option_map].
  - rewrite run_bind. unfold unlink. rewrite Hf.
    destruct (decide (xorg_d_file cfg name ∈ os_readonly os)) as [Hro|Hro];
      cbn [fst snd Z.eqb ret app].
    + eexists _, st, [_]. repeat split; auto. contradiction.
    + eexists _, _, [_]. repeat split;
        unfold final, result, events, ret; cbn [fst snd files].
      * intros _. apply lookup_delete_eq.
      * intros p Hp. rewrite lookup_delete. case_decide; [reflexivity|exact Hp].
  - eexists _, st, []. repeat split; auto.
Qed.

Lemma enable_prime_off cfg os fuel path d st :
  exists_not_empty path st = true ->
  get_prime_action path st = OFF ->
  enable_prime cfg os fuel path d st = prime_off cfg os fuel d st.
Proof.
  intros He Hm. unfold enable_prime. rewrite run_bind. cbn [get].
  unfold result, final, events. cbn [fst snd]. rewrite He. cbn [negb].
  rewrite run_bind. cbn [ret fst snd negb]. rewrite run_bind. cbn [get fst snd].
  rewrite Hm. cbn [app]. now destruct (prime_off cfg os fuel d st) as [[? ?] ?].
Qed.

Lemma unload_again_unloads_first cfg os fuel d tries st :
  is_module_loaded cfg "nvidia" st = Ok true ->
  exists t, events (unload_again cfg os (S fuel) d tries st) = EvUnloadNvidia :: t.
Proof.
  intros Hl. cbn [unload_again]. rewrite bind_get, Hl, bind_lift_ok.
  destruct (unload_nvidia_run cfg os st) as (b & st' & cmds & Hu).
  rewrite (bind_run_ok _ _ _ _ _ _ Hu). cbn [events snd app]. eauto.
Qed.

(** The state in which the [OFF] branch reaches the label
    [unload_again]. *)
Definition after_removals (cfg : config) (os : OS) (st : State) : State :=
  final ((remove_prime_outputclass cfg os ;;;
          remove_offload_serverlayout cfg os) st).

Lemma prime_off_run cfg os fuel d st :
  exists t1 t2,
    only [KUnlink] t1 = true /\ only [KUnlink] t2 = true /\
    prime_off cfg os fuel d st =
    (result (unload_again cfg os fuel d 0 (after_removals cfg os st)),
     final (unload_again cfg os fuel d 0 (after_removals cfg os st)),
     EvRemoveXorg prime_conf :: t1 ++ EvRemoveXorg offload_conf :: t2 ++
     events (unload_again cfg os fuel d 0 (after_removals cfg os st))) /\
    (xorg_d_file cfg prime_conf ∉ os_readonly os ->
     files (after_removals cfg os st) !! xorg_d_file cfg prime_conf = None) /\
    (xorg_d_file cfg offload_conf ∉ os_readonly os ->
     files (after_removals cfg os st) !! xorg_d_file cfg offload_conf = None).
Proof.
  unfold after_removals, prime_off, remove_prime_outputclass,
    remove_offload_serverlayout.
  destruct (remove_xorg_run cfg os prime_conf st)
    as (r1 & st1 & t1 & H1 & Ho1 & Hab1 & Hk1).
  destruct (remove_xorg_run cfg os offload_conf st1)
    as (r2 & st2 & t2 & H2 & Ho2 & Hab2 & Hk2).
  exists t1, t2. split; [exact Ho1|]. split; [exact Ho2|].
  rewrite (bind_run_ok _ _ _ _ _ _ H1).
  rewrite (bind_run_ok _ _ st1 _ _ _ H2).
  unfold result, final, events. cbn [fst snd].
  rewrite (bind_run_ok _ _ _ _ _ _ H1). cbn [fst snd]. rewrite H2.
  cbn [fst snd]. split; [|split].
  - reflexivity.
  - intros Hro. apply Hk2, Hab1, Hro.
  - exact Hab2.
Qed.

Lemma prime_off_fuel_enough cfg os fuel d st :
  (2 <= fuel)%nat -> result (prime_off cfg os fuel d st) <> OutOfFuel.
Proof.
  intros Hf. destruct (prime_off_run cfg os fuel d st)
    as (t1 & t2 & _ & _ & -> & _). cbn [result fst].
  now apply fin_unload_again.
Qed.

(** C2, as amended.  In the branch for [OFF] (the settings file exists,
    is not empty and does not say [on]), [enable_prime] first tries to
    remove both generated Xorg files, which are then absent unless they
    are protected; it unloads the nvidia modules when the module is
    loaded; with two units of fuel it returns; when it returns true, setting the
    power management of the device to auto-suspend was its last action;
    it returns false only after the second failed unload that follows
    the kill of the session, and then it has not touched the power
    management. *)
Theorem prime_off_power_management cfg os fuel path d st :
  exists_not_empty path st = true ->
  get_prime_action path st = OFF ->
  (2 <= fuel)%nat ->
  let run := enable_prime cfg os fuel path d st in
  (exists t, events run = EvRemoveXorg prime_conf :: t /\
             In (EvRemoveXorg offload_conf) t) /\
  (xorg_d_file cfg prime_conf ∉ os_readonly os ->
   files (after_removals cfg os st) !! xorg_d_file cfg prime_conf = None) /\
  (xorg_d_file cfg offload_conf ∉ os_readonly os ->
   files (after_removals cfg os st) !! xorg_d_file cfg offload_conf = None) /\
  (is_module_loaded cfg "nvidia" (after_removals cfg os st) = Ok true ->
   In EvUnloadNvidia (events run)) /\
  result run <> OutOfFuel /\
  (result run = Ok true -> exists t, events run = t ++ [EvPower d true]) /\
  (result run = Ok false ->
   count is_power (events run) = 0%nat /\
   count is_unload (events run) = 2%nat /\
   count is_kill (events run) = 1%nat).
Proof.
  intros He Hm Hf run. subst run. rewrite (enable_prime_off _ _ _ _ _ _ He Hm).
  pose proof (prime_off_fuel_enough cfg os fuel d st Hf) as Hfin.
  destruct (prime_off_run cfg os fuel d st)
    as (t1 & t2 & Ho1 & Ho2 & Hrun & Hab1 & Hab2).
  rewrite Hrun in *. cbn [result events fst snd] in *.
  set (st2 := after_removals cfg os st) in *.
  assert (Hc : forall p, (forall e, p e = true -> kind_in (kind_of e) [KUnlink] = false) ->
                count p t1 = O /\ count p t2 = O).
  { intros p Hp. split; eapply only_count; eauto. }
  split; [|split; [exact Hab1|split; [exact Hab2|split; [|split; [exact Hfin|split]]]]].
  - eexists. split; [reflexivity|]. apply in_or_app. right. now left.
  - intros Hl. destruct fuel as [|fuel]; [lia|].
    destruct (unload_again_unloads_first cfg os fuel d 0 st2 Hl) as [t ->].
    right. apply in_or_app. right. right. apply in_or_app. right. now left.
  - intros Hr. pose proof (run_eta (unload_again cfg os fuel d 0 st2)) as Hu.
    rewrite Hr in Hu. apply unload_again_outcome in Hu as [t' ->].
    exists (EvRemoveXorg prime_conf :: t1 ++ EvRemoveXorg offload_conf :: t2 ++ t').
    cbn [app]. rewrite <- !app_assoc. cbn [app]. now rewrite <- !app_assoc.
  - intros Hr. pose proof (run_eta (unload_again cfg os fuel d 0 st2)) as Hu.
    rewrite Hr in Hu. apply unload_again_outcome in Hu as (Hp & Hu & Hk).
    change (0 =? 0) with true in Hu, Hk.
    destruct (Hc is_power) as [Hp1 Hp2]; [intros []; cbn; congruence|].
    destruct (Hc is_unload) as [Hu1 Hu2]; [intros []; cbn; congruence|].
    destruct (Hc is_kill) as [Hk1 Hk2]; [intros []; cbn; congruence|].
    cbn [count is_power is_unload is_kill]. rewrite !count_app.
    cbn [count is_power is_unload is_kill]. rewrite !count_app.
    rewrite Hp, Hu, Hk, Hp1, Hp2, Hu1, Hu2, Hk1, Hk2. repeat split; lia.
Qed.


(** C2, as stated, fails: on the laptop whose module stays in use,
    PRIME being switched off, [enable_prime] gives up after the second
    unload and returns false without setting the power management. *)
Lemma prime_off_skips_power_management :
  exists_not_empty "/etc/prime-discrete" st_busy = true /\
  get_prime_action "/etc/prime-discrete" st_busy = OFF /\
  is_module_loaded cfg_default "nvidia" st_busy = Ok true /\
  result run_busy = Ok false /\
  count is_power (events run_busy) = 0%nat.
Proof. vm_compute. repeat split. Qed.

Lemma prime_off_power_management_witness :
  result run_busy <> OutOfFuel /\
  (result run_busy = Ok false ->
   count is_power (events run_busy) = 0%nat /\
   count is_unload (events run_busy) = 2%nat /\
   count is_kill (events run_busy) = 1%nat).
Proof.
  destruct (prime_off_power_management cfg_default os_busy 2
              "/etc/prime-discrete" nvidia_card st_busy)
    as (_ & _ & _ & _ & H1 & _ & H2);
    [reflexivity | reflexivity | lia | ].
  split; [exact H1 | exact H2].
Defined.

(** ** [unload_nvidia] *)

Definition rmmod (module : string) : string := "/sbin/rmmod " +:+ module.

Lemma unload_module_run cfg os module st :
  dry_run cfg = false ->
  unload_module cfg os module st =
  (Ok (fst (os_system os (nexec st) (snprintf 300 (rmmod module))) =? 0),
   mkState (snd (os_system os (nexec st) (snprintf 300 (rmmod module))) (files st))
           (S (nexec st)) (nalloc st),
   [EvSystem (snprintf 300 (rmmod module))]).
Proof.
  intros Hd. unfold unload_module, act_upon_module_with_params. rewrite Hd.
  reflexivity.
Qed.

(** C10.  [unload_nvidia] runs [rmmod] on nvidia-drm, nvidia-uvm,
    nvidia-modeset and nvidia, in this order (no command in a dry run).
    What it returns is what the unload of nvidia returns: whether the
    status of the fourth command is 0, whatever the first three commands
    returned (true in a dry run). *)
Theorem unload_nvidia_spec cfg os st :
  events (unload_nvidia cfg os st) =
    EvUnloadNvidia ::
    (if dry_run cfg then []
     else map EvSystem ["/sbin/rmmod nvidia-drm"; "/sbin/rmmod nvidia-uvm";
                        "/sbin/rmmod nvidia-modeset"; "/sbin/rmmod nvidia"]) /\
  result (unload_nvidia cfg os st) =
    (if dry_run cfg then Ok true
     else Ok (fst (os_system os (3 + nexec st) "/sbin/rmmod nvidia") =? 0)) /\
  result (unload_nvidia cfg os st) =
    result (unload_module cfg os "nvidia"
              (final ((unload_module cfg os "nvidia-drm" ;;;
                       unload_module cfg os "nvidia-uvm" ;;;
                       unload_module cfg os "nvidia-modeset") st))).
Proof.
  destruct (dry_run cfg) eqn:Hd.
  - unfold unload_nvidia, unload_module, act_upon_module_with_params.
    rewrite Hd. repeat split.
  - unfold unload_nvidia, unload_module, act_upon_module_with_params.
    rewrite Hd. repeat split.
Qed.

(** ** The bounds of the reclaim protocol *)

Definition on_kinds : list kind := [KSystem; KUnlink; KPower; KRemove].

Lemma eo_prime_on cfg os d : emits_only on_kinds (prime_on cfg os d).
Proof.
  unfold prime_on, remove_offload_serverlayout.
  apply eo_bind; [eo_by eo_create_prime_outputclass|]. intros _.
  apply eo_bind; [eo_by eo_remove_xorg|]. intros _.
  apply eo_bind; [eo_by eo_disable_power|]. intros _.
  apply eo_bind; [eo_by eo_ensure_nvidia_loaded|]. eo.
Qed.

Lemma eo_prime_ondemand cfg os d : emits_only on_kinds (prime_ondemand cfg os d).
Proof.
  unfold prime_ondemand, remove_prime_outputclass.
  apply eo_bind; [eo_by eo_create_offload_serverlayout|]. intros _.
  apply eo_bind; [eo_by eo_remove_xorg|]. intros _.
  apply eo_bind; [eo_by eo_enable_power|]. intros _.
  apply eo_bind; [eo_by eo_ensure_nvidia_loaded|]. eo.
Qed.



(** Whatever the mode and the fuel, a run of [enable_prime] kills the
    session once at most and unloads the modules twice at most. *)
Lemma enable_prime_bounds cfg os fuel path d :
  emits_at_most is_kill 1 (enable_prime cfg os fuel path d) /\
  emits_at_most is_unload 2 (enable_prime cfg os fuel path d).
Proof.
  assert (Hq : forall p n, (forall e, p e = true -> kind_in (kind_of e) on_kinds = false) ->
            (emits_at_most p n (unload_again cfg os fuel d 0)) ->
            emits_at_most p n (enable_prime cfg os fuel path d)).
  { intros p n Hp Hu. unfold enable_prime.
    apply eam_bind0; [eam|]. intros st. apply eam_bind0.
    { destruct (negb _); [|eam]. eapply eo_eam; [apply eo_create_prime_settings|].
      intros e He. reflexivity. }
    intros settings. destruct (negb settings); [eam|].
    apply eam_bind0; [eam|]. intros st'. destruct (get_prime_action path st').
    - eapply eo_eam; [apply eo_prime_on|exact Hp].
    - unfold prime_off, remove_prime_outputclass, remove_offload_serverlayout.
      apply eam_bind0.
      { apply eo_eam with (ks := on_kinds); [eo_by eo_remove_xorg|exact Hp]. }
      intros _. apply eam_bind0; [|intros _; exact Hu].
      apply eo_eam with (ks := on_kinds); [eo_by eo_remove_xorg|exact Hp].
    - eapply eo_eam; [apply eo_prime_ondemand|exact Hp]. }
  split; apply Hq.
  - intros []; cbn; congruence.
  - apply (unload_again_kills cfg os fuel d 0).
  - intros []; cbn; congruence.
  - apply (unload_again_unloads cfg os fuel d 0).
Qed.

(** *** An unload that always fails *)

Definition modules_path (cfg : config) : string :=
  default "/proc/modules" (fake_modules_path cfg).

(** [rmmod nvidia] never succeeds. *)
Definition unload_always_fails (os : OS) : Prop :=
  forall n, fst (os_system os n "/sbin/rmmod nvidia") <> 0.

(** No command changes the list of the loaded modules. *)
Definition commands_keep_modules (cfg : config) (os : OS) : Prop :=
  forall n command fs,
    snd (os_system os n command) fs !! modules_path cfg = fs !! modules_path cfg.

Lemma is_module_loaded_ext cfg module st st' :
  files st' !! modules_path cfg = files st !! modules_path cfg ->
  is_module_loaded cfg module st' = is_module_loaded cfg module st.
Proof.
  unfold is_module_loaded, fopen_r, modules_path. now intros ->.
Qed.

Lemma unload_nvidia_fails cfg os st :
  dry_run cfg = false -> unload_always_fails os -> commands_keep_modules cfg os ->
  exists st' cmds,
    unload_nvidia cfg os st = (Ok false, st', EvUnloadNvidia :: map EvSystem cmds) /\
    files st' !! modules_path cfg = files st !! modules_path cfg.
Proof.
  intros Hd Hf Hk.
  unfold unload_nvidia, unload_module, act_upon_module_with_params.
  rewrite Hd. eexists _, [_; _; _; _]. split.
  - cbn -[snprintf String.append Z.eqb].
    match goal with |- context [?x =? 0] =>
      replace (x =? 0) with false; [reflexivity|] end.
    symmetry. apply Z.eqb_neq. apply Hf.
  - cbn [files]. now rewrite !Hk.
Qed.

Lemma kill_keeps_modules cfg os st :
  commands_keep_modules cfg os ->
  files (final (kill_main_display_session cfg os st)) !! modules_path cfg =
  files st !! modules_path cfg.
Proof.
  intros Hk. unfold kill_main_display_session. rewrite final_bind.
  cbn [emit result final fst snd]. destruct (dry_run cfg); [reflexivity|].
  rewrite bind_get. cbn zeta. destruct (_ <=? 0); [reflexivity|].
  cbn [final fst snd bind system ret files]. apply Hk.
Qed.

(** The retry when the unload always fails and the module stays loaded:
    if the session was killed, a second unload follows and the run gives
    up; if it could not be killed, there is no second unload and the run
    goes on to the power management. *)
Lemma unload_again_busy cfg os fuel d st :
  (2 <= fuel)%nat ->
  dry_run cfg = false -> unload_always_fails os -> commands_keep_modules cfg os ->
  is_module_loaded cfg "nvidia" st = Ok true ->
  let killed := result (kill_main_display_session cfg os
                          (final (unload_nvidia cfg os st))) in
  let run := unload_again cfg os fuel d 0 st in
  (killed = Ok true ->
   result run = Ok false /\ count is_unload (events run) = 2%nat /\
   count is_kill (events run) = 1%nat) /\
  (killed = Ok false ->
   result run = Ok true /\ count is_unload (events run) = 1%nat /\
   count is_kill (events run) = 1%nat).
Proof.
  intros Hfuel Hd Hf Hk Hl killed run. subst killed run.
  destruct fuel as [|[|fuel]]; try lia. clear Hfuel.
  destruct (unload_nvidia_fails cfg os st Hd Hf Hk) as (st1 & c1 & Hu1 & Hm1).
  rewrite Hu1. cbn [final fst snd].
  assert (Hl1 : is_module_loaded cfg "nvidia" st1 = Ok true).
  { now rewrite (is_module_loaded_ext _ _ _ _ Hm1). }
  pose proof (kill_keeps_modules cfg os st1 Hk) as Hm2.
  destruct (kill_run cfg os st1) as (k & st2 & c2 & Hk2).
  rewrite Hk2 in Hm2 |- *. cbn [final result fst snd] in Hm2 |- *.
  assert (Hl2 : is_module_loaded cfg "nvidia" st2 = Ok true).
  { rewrite (is_module_loaded_ext cfg "nvidia" st1 st2); [exact Hl1|exact Hm2]. }
  destruct (unload_nvidia_fails cfg os st2 Hd Hf Hk) as (st3 & c3 & Hu3 & Hm3).
  assert (Hl3 : is_module_loaded cfg "nvidia" st3 = Ok true).
  { now rewrite (is_module_loaded_ext _ _ _ _ Hm3). }
  destruct (enable_power_run os d st2) as (st4 & Hp4).
  assert (Hrun : unload_again cfg os (S (S fuel)) d 0 st =
            if k then (Ok false, st3,
                       (EvUnloadNvidia :: map EvSystem c1) ++
                       (EvKillSession :: map EvSystem c2) ++
                       (EvUnloadNvidia :: map EvSystem c3))
            else (Ok true, st4,
                  (EvUnloadNvidia :: map EvSystem c1) ++
                  (EvKillSession :: map EvSystem c2) ++ [EvPower d true])).
  { cbn [unload_again]. rewrite bind_get, Hl, bind_lift_ok.
    rewrite (bind_run_ok _ _ _ _ _ _ Hu1). rewrite bind_get. cbn [negb].
    rewrite Hl1, bind_lift_ok. cbn [negb andb]. change (0 =? 0) with true.
    cbn iota. rewrite (bind_run_ok _ _ _ _ _ _ Hk2). destruct k.
    - rewrite bind_get, Hl2, bind_lift_ok.
      rewrite (bind_run_ok _ _ _ _ _ _ Hu3). rewrite bind_get. cbn [negb].
      rewrite Hl3, bind_lift_ok. cbn [negb andb].
      change (0 + 1 =? 0) with false. cbn iota.
      unfold result, final, events, ret. cbn [fst snd]. now rewrite !app_nil_r.
    - rewrite (bind_run_ok _ _ _ _ _ _ Hp4).
      unfold result, final, events, ret. cbn [fst snd]. now rewrite !app_nil_r. }
  rewrite Hrun. split; intros Hkilled; inversion Hkilled; subst k;
    cbn [result events fst snd]; rewrite !count_app; cbn [count is_unload is_kill];
    rewrite ?count_system by reflexivity; repeat split; lia.
Qed.

(** C3, as amended.  Whatever the mode and the fuel, a run of
    [enable_prime] kills the display session once at most and unloads
    the nvidia modules twice at most.  In the branch for [OFF], given an
    unload that always fails while the module stays loaded: when the
    session was killed, the run unloads a second time and then reports
    the failure (it returns false); when the session could not be killed,
    there is no second unload and the run returns true. *)
Theorem reclaim_protocol_bounded cfg os fuel path d st :
  let run := enable_prime cfg os fuel path d st in
  ((count is_kill (events run) <= 1)%nat /\
   (count is_unload (events run) <= 2)%nat) /\
  (exists_not_empty path st = true ->
   get_prime_action path st = OFF ->
   (2 <= fuel)%nat ->
   dry_run cfg = false -> unload_always_fails os ->
   commands_keep_modules cfg os ->
   is_module_loaded cfg "nvidia" (after_removals cfg os st) = Ok true ->
   let killed := result (kill_main_display_session cfg os
                   (final (unload_nvidia cfg os (after_removals cfg os st)))) in
   (killed = Ok true ->
    result run = Ok false /\ count is_unload (events run) = 2%nat /\
    count is_kill (events run) = 1%nat) /\
   (killed = Ok false ->
    result run = Ok true /\ count is_unload (events run) = 1%nat /\
    count is_kill (events run) = 1%nat)).
Proof.
  intros run. split.
  - destruct (enable_prime_bounds cfg os fuel path d) as [Hk Hu].
    split; [apply Hk|apply Hu].
  - intros He Hm Hfuel Hd Hf Hk Hl killed. subst run killed.
    rewrite (enable_prime_off _ _ _ _ _ _ He Hm).
    destruct (prime_off_run cfg os fuel d st)
      as (t1 & t2 & Ho1 & Ho2 & Hrun & _ & _).
    rewrite Hrun. cbn [result events fst snd].
    destruct (unload_again_busy cfg os fuel d (after_removals cfg os st)
                Hfuel Hd Hf Hk Hl) as [Hyes Hno].
    assert (Hc : forall p, (forall e, p e = true -> kind_in (kind_of e) [KUnlink] = false) ->
                p (EvRemoveXorg prime_conf) = false ->
                p (EvRemoveXorg offload_conf) = false ->
                forall u, count p (EvRemoveXorg prime_conf :: t1 ++
                                   EvRemoveXorg offload_conf :: t2 ++ u) = count p u).
    { intros p Hp Hp1 Hp2 u. cbn [count]. rewrite Hp1, count_app. cbn [count].
      rewrite Hp2, count_app, (only_count _ _ _ Hp Ho1), (only_count _ _ _ Hp Ho2).
      reflexivity. }
    rewrite !(Hc is_unload), !(Hc is_kill);
      try reflexivity; try (intros []; cbn; congruence).
    split; [exact Hyes|exact Hno].
Qed.

Lemma reclaim_protocol_bounded_witness :
  result run_busy = Ok false /\
  count is_unload (events run_busy) = 2%nat /\
  count is_kill (events run_busy) = 1%nat.
Proof.
  destruct (reclaim_protocol_bounded cfg_default os_busy 2
              "/etc/prime-discrete" nvidia_card st_busy) as [_ H].
  apply H; try reflexivity.
  - intros n. vm_compute. discriminate.
  - intros n command fs. unfold os_busy. cbn [os_system].
    destruct (String.prefix _ _); reflexivity.
Defined.

(** C3, as stated, fails: on the laptop without a display server the
    unload always fails and the module stays loaded, yet [enable_prime]
    makes one attempt only and reports no failure. *)
Lemma reclaim_without_session_reports_success :
  (forall n, fst (os_system os_headless n "/sbin/rmmod nvidia") <> 0) /\
  get_prime_action "/etc/prime-discrete" st_busy = OFF /\
  is_module_loaded cfg_default "nvidia" st_busy = Ok true /\
  is_module_loaded cfg_default "nvidia" (final run_headless) = Ok true /\
  result run_headless = Ok true /\
  count is_unload (events run_headless) = 1%nat.
Proof.
  split; [intros n; vm_compute; discriminate|]. vm_compute. repeat split.
Qed.

(** ** The settings of PRIME *)

(** The first line that [fgets] reads from a text ([""] when there is
    none). *)
Definition first_line (text : string) : string := hd "" (file_lines 100 text).

Lemma get_prime_action_line path st text :
  files st !! path = Some text ->
  get_prime_action path st =
  if bool_decide (is_Some (istrstr (first_line text) "on-demand")) then ONDEMAND
  else if bool_decide (is_Some (istrstr (first_line text) "on")) then ON
  else OFF.
Proof.
  intros Hf. unfold get_prime_action, fopen_r, first_line. rewrite Hf.
  destruct (file_lines 100 text) as [|line rest]; reflexivity.
Qed.

Lemma create_prime_settings_run os path st :
  path ∉ os_readonly os ->
  create_prime_settings os path st =
  (Ok true,
   mkState (<[path := "on" +:+ nl]> (files st)) (nexec st) (nalloc st), []).
Proof.
  intros Hro. unfold create_prime_settings, bind, fopen_w, fwrite, ret.
  destruct (decide (path ∈ os_readonly os)); [contradiction|].
  cbn [files nexec nalloc app]. rewrite lookup_insert_eq. cbn [default].
  rewrite insert_insert_eq. reflexivity.
Qed.

(** C7, as amended.  [get_prime_action] looks at the first line of the
    settings file: the mode is ONDEMAND when the line contains
    [on-demand], ON when it contains [on] but not [on-demand], and OFF
    when it does not contain [on], the case of the letters apart; it is
    OFF when the file cannot be opened.  A file that holds [on-demand]
    gives ONDEMAND and one that holds [on] gives ON.  When the file is
    absent or empty, [enable_prime] first writes [on] to it, then reads
    the mode, which is ON, and goes on with that mode; it returns false
    when the file cannot be written. *)
Theorem prime_settings_spec cfg os fuel path d st :
  match files st !! path with
  | None => get_prime_action path st = OFF
  | Some text =>
      (get_prime_action path st = ONDEMAND <->
       icontains (first_line text) "on-demand") /\
      (get_prime_action path st = ON <->
       icontains (first_line text) "on" /\
       ~ icontains (first_line text) "on-demand") /\
      (get_prime_action path st = OFF <-> ~ icontains (first_line text) "on")
  end /\
  (files st !! path = Some ("on-demand" +:+ nl) ->
   get_prime_action path st = ONDEMAND) /\
  (files st !! path = Some ("on" +:+ nl) -> get_prime_action path st = ON) /\
  (exists_not_empty path st = false ->
   if decide (path ∈ os_readonly os)
   then enable_prime cfg os fuel path d st = (Ok false, st, [])
   else
     let st1 := final (create_prime_settings os path st) in
     files st1 !! path = Some ("on" +:+ nl) /\
     get_prime_action path st1 = ON /\
     enable_prime cfg os fuel path d st = prime_on cfg os d st1).
Proof.
  split; [|split; [|split]].
  - destruct (files st !! path) as [text|] eqn:Hf.
    + rewrite (get_prime_action_line _ _ _ Hf).
      pose proof (istrstr_spec (first_line text) "on-demand") as Hd.
      pose proof (istrstr_spec (first_line text) "on") as Ho.
      pose proof (icontains_prefix (first_line text) "on" "-demand") as Hp.
      change ("on" +:+ "-demand") with "on-demand" in Hp.
      destruct (bool_decide (is_Some (istrstr (first_line text) "on-demand")))
        eqn:Bd;
        [apply bool_decide_eq_true in Bd | apply bool_decide_eq_false in Bd];
        [|destruct (bool_decide (is_Some (istrstr (first_line text) "on")))
            eqn:Bo;
          [apply bool_decide_eq_true in Bo | apply bool_decide_eq_false in Bo]];
        repeat split; try discriminate; try tauto; intros; exfalso; tauto.
    + unfold get_prime_action, fopen_r. now rewrite Hf.
  - intros Hf. now rewrite (get_prime_action_line _ _ _ Hf).
  - intros Hf. now rewrite (get_prime_action_line _ _ _ Hf).
  - intros He. destruct (decide (path ∈ os_readonly os)) as [Hro|Hro].
    + unfold enable_prime. rewrite bind_get, He. cbn [negb].
      unfold create_prime_settings, fopen_w.
      destruct (decide (path ∈ os_readonly os)); [|contradiction]. reflexivity.
    + rewrite (create_prime_settings_run _ _ _ Hro). cbn [final fst snd files].
      assert (Hm : get_prime_action path
                (mkState (<[path := "on" +:+ nl]> (files st)) (nexec st) (nalloc st))
              = ON).
      { erewrite get_prime_action_line; [|cbn [files]; apply lookup_insert_eq].
        reflexivity. }
      split; [apply lookup_insert_eq|]. split; [exact Hm|].
      unfold enable_prime. rewrite bind_get, He. cbn [negb].
      rewrite (bind_run_ok _ _ _ _ _ _ (create_prime_settings_run _ _ _ Hro)).
      cbn [negb]. rewrite bind_get, Hm. cbn [app]. symmetry. apply run_eta.
Qed.

Definition st_none : State := mkState (busy_files "none") 0 0.
Definition st_fresh : State := mkState ∅ 0 0.

Lemma prime_settings_spec_witness :
  files (final (create_prime_settings os_busy "/etc/prime-discrete" st_fresh))
    !! "/etc/prime-discrete" = Some ("on" +:+ nl) /\
  get_prime_action "/etc/prime-discrete"
    (final (create_prime_settings os_busy "/etc/prime-discrete" st_fresh)) = ON.
Proof.
  destruct (prime_settings_spec cfg_default os_busy 2 "/etc/prime-discrete"
              nvidia_card st_fresh) as (_ & _ & _ & H).
  specialize (H eq_refl).
  destruct (decide ("/etc/prime-discrete" ∈ os_readonly os_busy)) as [Hro|Hro].
  - exfalso. revert Hro. vm_compute. discriminate.
  - destruct H as (H1 & H2 & _). split; [exact H1|exact H2].
Defined.

(** C7, as stated, fails: a settings file that holds [none], which is
    neither [on] nor [on-demand], gives the mode ON. *)
Lemma prime_action_of_none_is_on :
  files st_none !! "/etc/prime-discrete" = Some ("none" +:+ nl) /\
  get_prime_action "/etc/prime-discrete" st_none = ON.
Proof. vm_compute. split; reflexivity. Qed.

(** ** Numbers in text *)

(** Every character of a string satisfies [p]. *)
Fixpoint allb (p : ascii -> bool) (s : string) : bool :=
  match s with
  | "" => true
  | String c r => p c && allb p r
  end.

Lemma allb_app p a b : allb p (a +:+ b) = allb p a && allb p b.
Proof.
  induction a as [|x a IH]; app_simpl; cbn [allb]; [reflexivity|].
  now rewrite IH, andb_assoc.
Qed.

Lemma allb_impl (p q : ascii -> bool) s :
  (forall c, p c = true -> q c = true) -> allb p s = true -> allb q s = true.
Proof.
  intros H. induction s as [|c s IH]; cbn [allb]; [reflexivity|].
  rewrite !andb_true_iff. intros [Hc Hs]. auto.
Qed.

Ltac below16 v :=
  let H := fresh in
  assert (H : v = 0 \/ v = 1 \/ v = 2 \/ v = 3 \/ v = 4 \/ v = 5 \/ v = 6 \/
              v = 7 \/ v = 8 \/ v = 9 \/ v = 10 \/ v = 11 \/ v = 12 \/
              v = 13 \/ v = 14 \/ v = 15) by lia;
  repeat (destruct H as [H|H]; [subst v|]); try subst v.

Lemma digit_char_value v : 0 <= v < 16 -> digit_value (digit_char v) = v.
Proof. intros H. below16 v; reflexivity. Qed.

Lemma digit_char_isxdigit v : 0 <= v < 16 -> isxdigit (digit_char v) = true.
Proof. intros H. below16 v; reflexivity. Qed.

Lemma digit_char_isdigit v : 0 <= v < 10 -> isdigit (digit_char v) = true.
Proof. intros H. below16 v; try lia; reflexivity. Qed.

Lemma digits_value_app base a s1 s2 :
  digits_value base a (s1 +:+ s2) =
  digits_value base (digits_value base a s1) s2.
Proof.
  revert a. induction s1 as [|c s1 IH]; intros a; app_simpl;
    cbn [digits_value]; [reflexivity|apply IH].
Qed.

Lemma digits_of_acc base fuel v acc :
  digits_of base fuel v acc = digits_of base fuel v "" +:+ acc.
Proof.
  revert v acc. induction fuel as [|fuel IH]; intros v acc;
    cbn [digits_of]; [reflexivity|].
  destruct (v / base =? 0); [reflexivity|].
  rewrite IH, (IH _ (String _ "")), append_assoc. reflexivity.
Qed.

Lemma digits_of_value base fuel v :
  2 <= base <= 16 -> 0 <= v < base ^ Z.of_nat fuel ->
  digits_value base 0 (digits_of base fuel v "") = v.
Proof.
  intros Hb. revert v. induction fuel as [|fuel IH]; intros v Hv.
  - cbn in Hv. cbn. lia.
  - cbn [digits_of].
    assert (Hm : 0 <= v mod base < base) by (apply Z.mod_pos_bound; lia).
    pose proof (Z.div_mod v base ltac:(lia)) as Hdm.
    destruct (v / base =? 0) eqn:Hq.
    + apply Z.eqb_eq in Hq. cbn [digits_value].
      rewrite digit_char_value by lia. lia.
    + rewrite digits_of_acc, digits_value_app, IH.
      * cbn [digits_value]. rewrite digit_char_value by lia. lia.
      * split; [apply Z.div_pos; lia|].
        apply Z.div_lt_upper_bound; [lia|].
        rewrite Nat2Z.inj_succ, Z.pow_succ_r in Hv by lia. lia.
Qed.

Lemma digits_of_allb base fuel v p :
  0 < base -> (forall x, 0 <= x < base -> p (digit_char x) = true) ->
  allb p (digits_of base fuel v "") = true.
Proof.
  intros Hb Hp. revert v. induction fuel as [|fuel IH]; intros v;
    cbn [digits_of]; [reflexivity|].
  assert (Hm : 0 <= v mod base < base) by (apply Z.mod_pos_bound; lia).
  destruct (v / base =? 0).
  - cbn [allb]. now rewrite Hp.
  - rewrite digits_of_acc, allb_app, IH. cbn [allb]. now rewrite Hp.
Qed.

Lemma digits_of_length base fuel v :
  (String.length (digits_of base fuel v "") <= fuel)%nat.
Proof.
  revert v. induction fuel as [|fuel IH]; intros v; cbn [digits_of];
    [cbn; lia|].
  destruct (v / base =? 0); [cbn; lia|].
  rewrite digits_of_acc, length_append. specialize (IH (v / base)). cbn. lia.
Qed.

Lemma digits_of_length_bound base fuel v k :
  2 <= base -> 0 <= v < base ^ Z.of_nat k -> (1 <= k)%nat ->
  (String.length (digits_of base fuel v "") <= k)%nat.
Proof.
  intros Hb. revert v k. induction fuel as [|fuel IH]; intros v k Hv Hk;
    cbn [digits_of]; [cbn; lia|].
  destruct (v / base =? 0) eqn:Hq; [cbn; lia|].
  apply Z.eqb_neq in Hq.
  rewrite digits_of_acc, length_append. cbn [String.length].
  destruct k as [|[|k]]; [lia| |].
  - exfalso. apply Hq. apply Z.div_small. cbn in Hv. lia.
  - assert (String.length (digits_of base fuel (v / base) "") <= S k)%nat; [|lia].
    apply IH; [|lia]. split; [apply Z.div_pos; lia|].
    apply Z.div_lt_upper_bound; [lia|].
    rewrite (Nat2Z.inj_succ (S k)), Z.pow_succ_r in Hv by lia. lia.
Qed.

Lemma digits_of_nonempty base fuel v :
  digits_of base (S fuel) v "" <> "".
Proof.
  cbn [digits_of]. destruct (v / base =? 0); [discriminate|].
  rewrite digits_of_acc. destruct (digits_of base fuel (v / base) ""); discriminate.
Qed.

Lemma zeros_value base a n : digits_value base a (zeros n) = a * base ^ Z.of_nat n.
Proof.
  revert a. induction n as [|n IH]; intros a.
  - cbn. lia.
  - cbn [zeros digits_value]. rewrite IH.
    rewrite Nat2Z.inj_succ, Z.pow_succ_r by lia.
    change (digit_value "0") with 0. lia.
Qed.

Lemma zeros_allb n : allb isxdigit (zeros n) = true.
Proof. induction n as [|n IH]; cbn [zeros allb]; [reflexivity|]. now rewrite IH. Qed.

Lemma zeros_length n : String.length (zeros n) = n.
Proof. induction n as [|n IH]; cbn; [reflexivity|now rewrite IH]. Qed.

Definition hex_fits (w : nat) (v : Z) : Prop := 0 <= v < 16 ^ Z.of_nat w.

Lemma to_uint_small v : 0 <= v < UINT_MOD -> to_uint v = v.
Proof. intros H. unfold to_uint. now apply Z.mod_small. Qed.

Lemma to_int_small v : - 2 ^ 31 <= v < 2 ^ 31 -> to_int v = v.
Proof.
  intros H. unfold to_int, UINT_MOD. rewrite Z.mod_small; lia.
Qed.

Lemma to_int_range v : - 2 ^ 31 <= to_int v < 2 ^ 31.
Proof.
  unfold to_int, UINT_MOD.
  pose proof (Z.mod_pos_bound (v + 2 ^ 31) (2 ^ 32) ltac:(lia)). lia.
Qed.

(** What [printf] writes for [%0<w>x] when the value fits in [w]
    digits: exactly [w] hexadecimal digits, whose value it is. *)
Lemma fmt_x_fits w v :
  (1 <= w <= 8)%nat -> hex_fits w v ->
  String.length (fmt_x w v) = w /\
  allb isxdigit (fmt_x w v) = true /\
  digits_value 16 0 (fmt_x w v) = v.
Proof.
  intros Hw [Hv0 Hv]. unfold fmt_x, pad0.
  assert (H32 : 0 <= v < UINT_MOD).
  { split; [lia|]. eapply Z.lt_le_trans; [exact Hv|].
    unfold UINT_MOD. change (2 ^ 32) with (16 ^ Z.of_nat 8).
    apply Z.pow_le_mono_r; lia. }
  rewrite to_uint_small by exact H32.
  pose proof (digits_of_length_bound 16 8 v w ltac:(lia) (conj Hv0 Hv) ltac:(lia)) as Hl.
  split; [|split].
  - rewrite length_append, zeros_length. lia.
  - rewrite allb_app, zeros_allb. apply digits_of_allb; [lia|].
    apply digit_char_isxdigit.
  - rewrite digits_value_app, zeros_value. cbn [Z.mul].
    apply digits_of_value; [lia|]. split; [lia|].
    eapply Z.lt_le_trans; [exact Hv|]. apply Z.pow_le_mono_r; lia.
Qed.

Lemma fmt_x_shape w v :
  (String.length (fmt_x w v) <= Nat.max w 8)%nat /\
  allb isxdigit (fmt_x w v) = true.
Proof.
  unfold fmt_x, pad0. split.
  - rewrite length_append, zeros_length.
    pose proof (digits_of_length 16 8 (to_uint v)). lia.
  - rewrite allb_app, zeros_allb. apply digits_of_allb; [lia|].
    apply digit_char_isxdigit.
Qed.

(** What [printf] writes for [%d]: an optional minus sign and decimal
    digits, at most ten. *)
Lemma fmt_d_shape v :
  exists D,
    fmt_d v = (if to_int v <? 0 then "-" else "") +:+ D /\
    D <> "" /\ allb isdigit D = true /\ (String.length D <= 10)%nat /\
    digits_value 10 0 D = Z.abs (to_int v).
Proof.
  unfold fmt_d. pose proof (to_int_range v) as Hr.
  destruct (to_int v <? 0) eqn:Hs;
    [apply Z.ltb_lt in Hs; exists (digits_of 10 10 (- to_int v) "")
    |apply Z.ltb_ge in Hs; exists (digits_of 10 10 (to_int v) "")];
    (split; [reflexivity|]); (split; [apply (digits_of_nonempty 10 9)|]);
    (split; [apply digits_of_allb; [lia|apply digit_char_isdigit]|]);
    (split; [apply digits_of_length|]);
    (rewrite digits_of_value; [lia|lia|]);
    change (10 ^ Z.of_nat 10) with 10000000000; lia.
Qed.

(** ** Scanning what was printed *)

Lemma span_digits_exact p D rest :
  allb p D = true ->
  span_digits p (String.length D) (D +:+ rest) = (D, rest).
Proof.
  induction D as [|c D IH]; app_simpl; cbn [allb String.length span_digits].
  - intros _. now destruct rest.
  - rewrite andb_true_iff. intros [Hc HD]. now rewrite Hc, IH.
Qed.

Lemma span_digits_delim p w D c rest :
  allb p D = true -> p c = false -> (String.length D <= w)%nat ->
  span_digits p w (D +:+ String c rest) = (D, String c rest).
Proof.
  revert w. induction D as [|x D IH]; intros w; app_simpl;
    cbn [allb String.length].
  - intros _ Hc _. destruct w; cbn [span_digits]; [reflexivity|now rewrite Hc].
  - rewrite andb_true_iff. intros [Hx HD] Hc Hw.
    destruct w as [|w]; [lia|]. cbn [span_digits]. rewrite Hx.
    rewrite IH; [reflexivity|assumption|assumption|lia].
Qed.

Lemma isxdigit_plain x :
  isxdigit x = true ->
  Ascii.eqb (toupper x) "X" = false /\ Ascii.eqb x "-" = false /\
  Ascii.eqb x "+" = false /\ isspace x = false.
Proof.
  intros H. destruct x as [[] [] [] [] [] [] [] []];
    try discriminate H; repeat split.
Qed.

Lemma isdigit_isxdigit x : isdigit x = true -> isxdigit x = true.
Proof. intros H. unfold isxdigit. now rewrite H. Qed.

Lemma scan_number_hex D rest :
  D <> "" -> allb isxdigit D = true ->
  scan_number true (String.length D) (D +:+ rest) =
  Some (to_uint (strtoul_value false (digits_value 16 0 D)), rest).
Proof.
  intros Hne HD. destruct D as [|c D]; [contradiction|]. clear Hne.
  cbn [allb] in HD. apply andb_true_iff in HD as [Hc HD].
  destruct (isxdigit_plain c Hc) as (_ & Hm & Hp & _).
  unfold scan_number. cbn [String.length Nat.eqb]. app_simpl.
  cbn [scan_sign]. rewrite Hm, Hp. cbn [scan_lead].
  destruct (Ascii.eqb_spec c "0") as [->|Hz].
  - destruct D as [|x D].
    + app_simpl. cbn [String.length]. cbn [span_digits].
      destruct rest; reflexivity.
    + cbn [allb] in HD. apply andb_true_iff in HD as [Hx HD].
      destruct (isxdigit_plain x Hx) as (HX & _).
      app_simpl. cbn [String.length]. rewrite HX. cbn [andb].
      pose proof (span_digits_exact isxdigit (String x D) rest) as Hsp.
      cbn [allb String.length] in Hsp. rewrite Hx, HD, append_cons in Hsp.
      rewrite (Hsp eq_refl). reflexivity.
  - pose proof (span_digits_exact isxdigit (String c D) rest) as Hsp.
    cbn [allb String.length] in Hsp. rewrite Hc, HD, append_cons in Hsp.
    rewrite (Hsp eq_refl). reflexivity.
Qed.

Lemma scan_number_dec (neg : bool) D c rest :
  D <> "" -> allb isdigit D = true -> isdigit c = false ->
  scan_number false 0 ((if neg then "-" else "") +:+ D +:+ String c rest) =
  Some (to_int (strtol_value neg (digits_value 10 0 D)), String c rest).
Proof.
  intros Hne HD Hc. destruct D as [|x D]; [contradiction|]. clear Hne.
  cbn [allb] in HD. apply andb_true_iff in HD as [Hx HD].
  destruct (isxdigit_plain x (isdigit_isxdigit x Hx)) as (_ & Hm & Hp & _).
  assert (Hlead : forall w,
    (String.length D < w)%nat ->
    (let '(lead, w2, s2) := scan_lead false w (String x (D +:+ String c rest)) in
     let (ds, r) := span_digits isdigit w2 s2 in
     if negb lead && String.eqb ds "" then None
     else Some (to_int (strtol_value neg (digits_value 10 0 ds)), r)) =
    Some (to_int (strtol_value neg (digits_value 10 0 (String x D))),
          String c rest)).
  { intros w Hw. destruct w as [|w]; [lia|]. cbn [scan_lead].
    destruct (Ascii.eqb_spec x "0") as [->|Hz].
    - assert (Hl : (match w, D +:+ String c rest with
                    | S w'', String y r' =>
                        if false && Ascii.eqb (toupper y) "X" then (true, w'', r')
                        else (true, w, D +:+ String c rest)
                    | _, _ => (true, w, D +:+ String c rest)
                    end) = (true, w, D +:+ String c rest)).
      { destruct w; [reflexivity|]. destruct (D +:+ String c rest); reflexivity. }
      rewrite Hl. rewrite span_digits_delim by (assumption || lia).
      reflexivity.
    - pose proof (span_digits_delim isdigit (S w) (String x D) c rest) as Hsp.
      cbn [allb String.length] in Hsp. rewrite Hx, HD, append_cons in Hsp.
      rewrite (Hsp eq_refl Hc ltac:(lia)). reflexivity. }
  unfold scan_number. cbn [Nat.eqb]. destruct neg; app_simpl.
  - cbn [scan_sign]. change (Ascii.eqb "-" "-") with true. cbn iota.
    cbn [String.length pred]. apply Hlead.
    rewrite length_append. cbn [String.length]. lia.
  - cbn [scan_sign]. rewrite Hm, Hp. apply Hlead.
    cbn [String.length]. rewrite length_append. cbn [String.length]. lia.
Qed.

Lemma run_scan_char c ds R acc :
  run_scan (DChar c :: ds) (String c R) acc = run_scan ds R acc.
Proof. cbn [run_scan]. now rewrite Ascii.eqb_refl. Qed.

Lemma skip_space_xdigits D R :
  D <> "" -> allb isxdigit D = true ->
  skip_while isspace (D +:+ R) = D +:+ R /\ D +:+ R <> "".
Proof.
  intros Hne HD. destruct D as [|c D]; [contradiction|].
  cbn [allb] in HD. apply andb_true_iff in HD as [Hc _].
  destruct (isxdigit_plain c Hc) as (_ & _ & _ & Hs).
  app_simpl. cbn [skip_while]. rewrite Hs. split; [reflexivity|discriminate].
Qed.

Lemma run_scan_hex w ds D R acc :
  String.length D = w -> w <> O -> allb isxdigit D = true ->
  run_scan (DHex w :: ds) (D +:+ R) acc =
  run_scan ds R (acc ++ [to_uint (strtoul_value false (digits_value 16 0 D))]).
Proof.
  intros Hl Hw HD. assert (Hne : D <> "") by (intros ->; cbn in Hl; lia).
  destruct (skip_space_xdigits D R Hne HD) as [Hs Hn].
  cbn [run_scan]. rewrite Hs. subst w.
  pose proof (scan_number_hex D R Hne HD) as Hsc.
  destruct (D +:+ R); [contradiction|]. now rewrite Hsc.
Qed.

Lemma run_scan_dec ds (neg : bool) D c R acc :
  D <> "" -> allb isdigit D = true -> isdigit c = false ->
  run_scan (DDec 0 :: ds) ((if neg then "-" else "") +:+ D +:+ String c R) acc =
  run_scan ds (String c R)
    (acc ++ [to_int (strtol_value neg (digits_value 10 0 D))]).
Proof.
  intros Hne HD Hc. cbn [run_scan].
  assert (Hs : skip_while isspace ((if neg then "-" else "") +:+ D +:+ String c R)
               = (if neg then "-" else "") +:+ D +:+ String c R /\
               (if neg then "-" else "") +:+ D +:+ String c R <> "").
  { destruct neg; app_simpl.
    - split; [reflexivity|discriminate].
    - apply skip_space_xdigits; [exact Hne|].
      eapply allb_impl; [|exact HD]. apply isdigit_isxdigit. }
  destruct Hs as [Hs Hn]. rewrite Hs.
  pose proof (scan_number_dec neg D c R Hne HD Hc) as Hsc.
  destruct ((if neg then "-" else "") +:+ D +:+ String c R);
    [contradiction|]. now rewrite Hsc.
Qed.

(** ** The lines of the state file *)

(** The values that a line of the state file can hold without loss. *)
Definition persistable (d : device) : Prop :=
  hex_fits 4 (vendor_id d) /\ hex_fits 4 (device_id d) /\
  hex_fits 4 (domain d) /\ hex_fits 2 (bus d) /\ hex_fits 2 (dev d) /\
  is_uint (func d) /\ is_int (boot_vga d).

Lemma strtoul_small v : 0 <= v < 16 ^ 8 -> to_uint (strtoul_value false v) = v.
Proof.
  intros H. unfold strtoul_value, ULONG_MAX.
  destruct (2 ^ 64 - 1 <? v) eqn:Ho; [apply Z.ltb_lt in Ho; lia|].
  apply to_uint_small. unfold UINT_MOD. lia.
Qed.

Lemma strtol_abs i :
  - 2 ^ 31 <= i < 2 ^ 31 -> to_int (strtol_value (i <? 0) (Z.abs i)) = i.
Proof.
  intros H. unfold strtol_value, LONG_MAX.
  destruct (i <? 0) eqn:Hs; [apply Z.ltb_lt in Hs|apply Z.ltb_ge in Hs].
  - destruct (2 ^ 63 - 1 + 1 <? Z.abs i) eqn:Ho; [apply Z.ltb_lt in Ho; lia|].
    rewrite to_int_small; lia.
  - destruct (2 ^ 63 - 1 <? Z.abs i) eqn:Ho; [apply Z.ltb_lt in Ho; lia|].
    rewrite to_int_small; lia.
Qed.

Lemma hex_fits_small w v : (w <= 8)%nat -> hex_fits w v -> 0 <= v < 16 ^ 8.
Proof.
  intros Hw [H0 H1]. split; [exact H0|].
  eapply Z.lt_le_trans; [exact H1|].
  change 8 with (Z.of_nat 8). apply Z.pow_le_mono_r; lia.
Qed.

Lemma state_line_directives :
  parse_format state_line_format =
  Some [DHex 4; DChar ":"; DHex 4; DChar ";"; DHex 4; DChar ":"; DHex 2;
        DChar ":"; DHex 2; DChar ":"; DDec 0; DChar ";"; DDec 0; DSpace].
Proof. reflexivity. Qed.

(** [sscanf] reads from a line what [fprintf] wrote to it. *)
Lemma sscanf_card_line d :
  persistable d ->
  sscanf (card_line d) state_line_format 7 =
  Some (7, [vendor_id d; device_id d; domain d; bus d; dev d;
            to_int (func d); boot_vga d]).
Proof.
  intros (Hv & Hi & Hdo & Hb & Hde & Hf & Hbv).
  unfold sscanf. rewrite state_line_directives.
  cbn [conversions Nat.leb]. unfold card_line.
  destruct (fmt_x_fits 4 _ ltac:(lia) Hv) as (L1 & A1 & V1).
  destruct (fmt_x_fits 4 _ ltac:(lia) Hi) as (L2 & A2 & V2).
  destruct (fmt_x_fits 4 _ ltac:(lia) Hdo) as (L3 & A3 & V3).
  destruct (fmt_x_fits 2 _ ltac:(lia) Hb) as (L4 & A4 & V4).
  destruct (fmt_x_fits 2 _ ltac:(lia) Hde) as (L5 & A5 & V5).
  destruct (fmt_d_shape (func d)) as (D6 & E6 & N6 & A6 & _ & V6).
  destruct (fmt_d_shape (boot_vga d)) as (D7 & E7 & N7 & A7 & _ & V7).
  rewrite E6, E7, !append_assoc.
  unfold nl. app_simpl.
  rewrite (run_scan_hex 4 _ _ _ _ L1 ltac:(lia) A1), run_scan_char.
  rewrite (run_scan_hex 4 _ _ _ _ L2 ltac:(lia) A2), run_scan_char.
  rewrite (run_scan_hex 4 _ _ _ _ L3 ltac:(lia) A3), run_scan_char.
  rewrite (run_scan_hex 2 _ _ _ _ L4 ltac:(lia) A4), run_scan_char.
  rewrite (run_scan_hex 2 _ _ _ _ L5 ltac:(lia) A5), run_scan_char.
  rewrite (run_scan_dec _ _ D6 ";" _ _ N6 A6 eq_refl), run_scan_char.
  rewrite (run_scan_dec _ _ D7 LF _ _ N7 A7 eq_refl).
  cbn [run_scan skip_while app scan_result length Nat.eqb andb].
  rewrite V1, V2, V3, V4, V5, V6, V7.
  rewrite !strtoul_small by (eapply hex_fits_small; [|eassumption]; lia).
  rewrite !strtol_abs by (apply to_int_range).
  rewrite (to_int_small (boot_vga d)) by exact Hbv.
  reflexivity.
Qed.

Definition not_lf (c : ascii) : bool := negb (Ascii.eqb c LF).

Lemma isxdigit_not_lf c : isxdigit c = true -> not_lf c = true.
Proof.
  intros H. destruct (isxdigit_plain c H) as (_ & _ & _ & Hs).
  unfold not_lf. destruct (Ascii.eqb_spec c LF) as [->|]; [discriminate|reflexivity].
Qed.

Lemma fmt_x_line w v :
  allb not_lf (fmt_x w v) = true /\
  (String.length (fmt_x w v) <= Nat.max w 8)%nat.
Proof.
  destruct (fmt_x_shape w v) as [Hl Ha]. split; [|exact Hl].
  eapply allb_impl; [apply isxdigit_not_lf|exact Ha].
Qed.

Lemma fmt_d_line v :
  allb not_lf (fmt_d v) = true /\ (String.length (fmt_d v) <= 11)%nat.
Proof.
  destruct (fmt_d_shape v) as (D & -> & _ & Ha & Hl & _).
  rewrite allb_app, length_append. split.
  - rewrite (allb_impl isdigit not_lf D); [|intros c Hc|exact Ha].
    + destruct (to_int v <? 0); reflexivity.
    + apply isxdigit_not_lf, isdigit_isxdigit, Hc.
  - destruct (to_int v <? 0); cbn [String.length]; lia.
Qed.

(** A line of the state file: some characters without a newline, fewer
    than 99, and a newline. *)
Lemma card_line_shape d :
  exists body,
    card_line d = body +:+ nl /\ allb not_lf body = true /\
    (String.length body < 99)%nat.
Proof.
  exists (fmt_x 4 (vendor_id d) +:+ ":" +:+ fmt_x 4 (device_id d) +:+ ";" +:+
          fmt_x 4 (domain d) +:+ ":" +:+ fmt_x 2 (bus d) +:+ ":" +:+
          fmt_x 2 (dev d) +:+ ":" +:+ fmt_d (func d) +:+ ";" +:+
          fmt_d (boot_vga d)).
  destruct (fmt_x_line 4 (vendor_id d)) as [A1 L1].
  destruct (fmt_x_line 4 (device_id d)) as [A2 L2].
  destruct (fmt_x_line 4 (domain d)) as [A3 L3].
  destruct (fmt_x_line 2 (bus d)) as [A4 L4].
  destruct (fmt_x_line 2 (dev d)) as [A5 L5].
  destruct (fmt_d_line (func d)) as [A6 L6].
  destruct (fmt_d_line (boot_vga d)) as [A7 L7].
  split; [|split].
  - unfold card_line. now rewrite !append_assoc.
  - rewrite !allb_app, A1, A2, A3, A4, A5, A6, A7. reflexivity.
  - rewrite !length_append. cbn [String.length]. lia.
Qed.

Lemma fgets_take_line n body rest :
  allb not_lf body = true -> (String.length body < n)%nat ->
  fgets_take n ((body +:+ nl) +:+ rest) = (body +:+ nl, rest).
Proof.
  revert n. induction body as [|c body IH]; intros n Ha Hn.
  - destruct n as [|n]; [cbn in Hn; lia|]. reflexivity.
  - cbn [allb] in Ha. apply andb_true_iff in Ha as [Hc Ha].
    cbn [String.length] in Hn. destruct n as [|n]; [lia|].
    app_simpl. cbn [fgets_take]. unfold not_lf in Hc.
    apply negb_true_iff in Hc. rewrite Hc, IH by (assumption || lia).
    reflexivity.
Qed.

Lemma fgets_all_render fuel ds :
  (length ds <= fuel)%nat -> fgets_all fuel 100 (render ds) = map card_line ds.
Proof.
  revert fuel. induction ds as [|d ds IH]; intros fuel Hf.
  - destruct fuel; reflexivity.
  - cbn [length] in Hf. destruct fuel as [|fuel]; [lia|].
    cbn [render foldr map]. fold (render ds).
    destruct (card_line_shape d) as (body & Hb & Ha & Hl).
    cbn [fgets_all]. unfold fgets. rewrite Hb.
    destruct ((body +:+ nl) +:+ render ds) eqn:He.
    { destruct body; discriminate. }
    rewrite <- He. cbn [Nat.sub]. rewrite fgets_take_line by (assumption || lia).
    rewrite IH by lia. reflexivity.
Qed.

Lemma render_length ds : (length ds <= String.length (render ds))%nat.
Proof.
  induction ds as [|d ds IH]; [cbn; lia|].
  cbn [render foldr length]. fold (render ds). rewrite length_append.
  destruct (card_line_shape d) as (body & -> & _).
  rewrite length_append. cbn [String.length nl]. lia.
Qed.

(** [fgets] gives back the lines that were written. *)
Lemma file_lines_render ds : file_lines 100 (render ds) = map card_line ds.
Proof. unfold file_lines. apply fgets_all_render, render_length. Qed.

(** ** Writing the state file *)

Lemma state_eta st : mkState (files st) (nexec st) (nalloc st) = st.
Proof. now destruct st. Qed.

Lemma write_data_loop_run filename g k i st acc :
  files st !! filename = Some acc ->
  (forall j, i <= j < i + Z.of_nat k -> is_Some (card g j)) ->
  write_data_loop filename g i k st =
  (Ok tt,
   mkState (<[filename := acc +:+ render (cards_from g i k)]> (files st))
           (nexec st) (nalloc st),
   []).
Proof.
  revert i st acc. induction k as [|k IH]; intros i st acc Hf Hc.
  - cbn [write_data_loop cards_from render foldr ret].
    rewrite append_nil_r, insert_id by exact Hf. now rewrite state_eta.
  - cbn [write_data_loop cards_from].
    destruct (Hc i ltac:(lia)) as [d Hd]. rewrite Hd.
    cbn [render foldr]. fold (render (cards_from g (i + 1) k)).
    unfold bind at 1. unfold fwrite at 1. rewrite Hf. cbn [default].
    rewrite (IH (i + 1) _ (acc +:+ card_line d)).
    + cbn [files nexec nalloc app]. rewrite insert_insert_eq, append_assoc.
      reflexivity.
    + cbn [files]. apply lookup_insert_eq.
    + intros j Hj. apply Hc. lia.
Qed.

(** The file that [write_data_to_file] leaves: one line per device. *)
Lemma write_data_to_file_run os filename g st :
  gpus_wf g -> filename ∉ os_readonly os ->
  write_data_to_file os filename g st =
  (Ok true,
   mkState (<[filename := render (devices g)]> (files st)) (nexec st) (nalloc st),
   [EvWriteData filename g]).
Proof.
  intros (_ & Hn & Hc) Hro. unfold write_data_to_file.
  unfold bind at 1. cbn [emit]. unfold bind at 1. unfold fopen_w.
  destruct (decide (filename ∈ os_readonly os)); [contradiction|].
  rewrite run_bind.
  rewrite (write_data_loop_run filename g _ 0 _ "").
  - cbn [files nexec nalloc ret result final events fst snd app].
    rewrite insert_insert_eq. reflexivity.
  - cbn [files]. apply lookup_insert_eq.
  - intros j Hj. rewrite Z2Nat.id in Hj by lia.
    destruct (Hc j ltac:(lia)) as [d Hd]. eauto.
Qed.

(** ** Reading the state file *)

Lemma to_uint_to_int v : is_uint v -> to_uint (to_int v) = v.
Proof.
  unfold is_uint, to_uint, to_int, UINT_MOD. intros H.
  destruct (Z_lt_ge_dec v (2 ^ 31)).
  - rewrite (Z.mod_small (v + 2 ^ 31)) by lia.
    replace (v + 2 ^ 31 - 2 ^ 31) with v by lia. apply Z.mod_small. lia.
  - replace ((v + 2 ^ 31) mod 2 ^ 32) with (v + 2 ^ 31 - 2 ^ 32)
      by (apply (Z.mod_unique _ _ 1); lia).
    symmetry. apply (Z.mod_unique _ _ (-1)); lia.
Qed.

(** The device that [get_vars] builds from the line of [d] in the block
    [blk]. *)
Definition reread (d blk : device) : device :=
  mkDevice (boot_vga d) (vendor_id d) (device_id d) (domain d) (bus d)
    (dev d) (func d) (has_connected_outputs blk).

Lemma reread_same_id d blk : same_id (reread d blk) d.
Proof. unfold same_id. cbn. auto 10. Qed.

Lemma get_vars_line os d g st blk :
  persistable d -> os_malloc os (nalloc st) = Some blk ->
  0 <= nr_cards g < MAX_NR_CARDS ->
  get_vars os (card_line d) g 7 st =
  (Ok (7, mkGpus (<[Z.to_nat (nr_cards g) := Some (reread d blk)]> (cards g))
                 (nr_cards g)),
   mkState (files st) (nexec st) (S (nalloc st)), []).
Proof.
  intros Hp Hm Hn. unfold get_vars. unfold bind at 1. unfold malloc at 1.
  rewrite Hm, (sscanf_card_line d Hp).
  change (7 =? EOF) with false. change (7 =? 7) with true. cbn [negb orb].
  unfold store_card.
  replace ((0 <=? nr_cards g) && (nr_cards g <? MAX_NR_CARDS)) with true
    by (symmetry; apply andb_true_iff; split; [apply Z.leb_le|apply Z.ltb_lt]; lia).
  unfold stored. cbn [lookup list_lookup default].
  destruct Hp as (_ & _ & _ & _ & _ & Hf & _). unfold id.
  rewrite (to_uint_to_int _ Hf). reflexivity.
Qed.

Lemma card_line_not_empty d : (0 <? String.length (card_line d))%nat = true.
Proof.
  destruct (card_line_shape d) as (body & -> & _).
  rewrite length_append. cbn [String.length nl]. apply Nat.ltb_lt. lia.
Qed.

Lemma card_ptr_eq g i :
  0 <= i < MAX_NR_CARDS -> card_ptr g i = cards g !! Z.to_nat i.
Proof.
  intros H. unfold card_ptr.
  replace ((0 <=? i) && (i <? MAX_NR_CARDS)) with true; [reflexivity|].
  symmetry. apply andb_true_iff. split; [apply Z.leb_le|apply Z.ltb_lt]; lia.
Qed.

(** Reading the lines of [ds] appends them to the inventory, up to the
    fields that the file does not store. *)
Lemma read_data_loop_render os ds g st :
  Forall persistable ds ->
  (forall n, (nalloc st <= n < nalloc st + length ds)%nat ->
             is_Some (os_malloc os n)) ->
  length (cards g) = 10%nat -> 0 <= nr_cards g ->
  nr_cards g + Z.of_nat (length ds) <= MAX_NR_CARDS ->
  exists g' st',
    read_data_loop os (map card_line ds) g 7 st = (Ok g', st', []) /\
    files st' = files st /\
    nr_cards g' = nr_cards g + Z.of_nat (length ds) /\
    length (cards g') = 10%nat /\
    (forall j, 0 <= j < nr_cards g -> card_ptr g' j = card_ptr g j) /\
    (forall k d, ds !! k = Some d ->
       exists d', card g' (nr_cards g + Z.of_nat k) = Some d' /\ same_id d' d).
Proof.
  intros Hp. revert g st.
  induction Hp as [|d ds Hd Hds IH]; intros g st Hm Hl Hn Hcap.
  - exists g, st. cbn [map read_data_loop length Z.of_nat].
    repeat split; try lia; try reflexivity. intros k d Hk. discriminate.
  - cbn [length] in Hcap. rewrite Nat2Z.inj_succ in Hcap.
    cbn [map read_data_loop].
    replace (nr_cards g <? MAX_NR_CARDS) with true
      by (symmetry; apply Z.ltb_lt; lia).
    rewrite card_line_not_empty.
    destruct (Hm (nalloc st)) as [blk Hblk]; [cbn [length]; lia|].
    pose proof (get_vars_line os d g st blk Hd Hblk ltac:(lia)) as Hg.
    rewrite (bind_run_ok _ _ _ _ _ _ Hg). cbn [fst snd].
    change (7 =? 7) with true. cbn iota.
    set (g2 := incr_cards _).
    destruct (IH g2 (mkState (files st) (nexec st) (S (nalloc st))))
      as (g' & st' & Hrun & Hf & Hnr & Hlen & Hold & Hnew).
    { intros n Hn'. apply Hm. cbn [nalloc length] in *. lia. }
    { subst g2. cbn [incr_cards cards]. now rewrite length_insert. }
    { subst g2. cbn [incr_cards nr_cards]. lia. }
    { subst g2. cbn [incr_cards nr_cards]. lia. }
    assert (Hnr2 : nr_cards g2 = nr_cards g + 1) by reflexivity.
    assert (Hat : card_ptr g2 (nr_cards g) = Some (Some (reread d blk))).
    { rewrite card_ptr_eq by (unfold MAX_NR_CARDS in *; lia).
      subst g2. cbn [incr_cards cards]. apply list_lookup_insert_eq.
      rewrite Hl. unfold MAX_NR_CARDS in Hcap. lia. }
    exists g', st'. rewrite Hrun. cbn [result final events fst snd app].
    split; [reflexivity|]. split; [exact Hf|].
    split; [rewrite Hnr, Hnr2; cbn [length]; rewrite Nat2Z.inj_succ; lia|].
    split; [exact Hlen|]. split.
    + intros j Hj. rewrite Hold by lia.
      unfold MAX_NR_CARDS in Hcap.
      rewrite !card_ptr_eq by (unfold MAX_NR_CARDS; lia).
      subst g2. cbn [incr_cards cards]. apply list_lookup_insert_ne. lia.
    + intros k d0 Hk. destruct k as [|k].
      * cbn in Hk. injection Hk as <-. exists (reread d blk).
        split; [|apply reread_same_id].
        unfold card. rewrite Z.add_0_r, Hold, Hat by lia. reflexivity.
      * cbn in Hk. destruct (Hnew k d0 Hk) as (d' & Hc & Hs).
        exists d'. split; [|exact Hs].
        rewrite Nat2Z.inj_succ. rewrite Hnr2 in Hc.
        replace (nr_cards g + Z.succ (Z.of_nat k))
          with (nr_cards g + 1 + Z.of_nat k) by lia. exact Hc.
Qed.

Lemma cards_from_spec g k i :
  (forall j, i <= j < i + Z.of_nat k -> is_Some (card g j)) ->
  length (cards_from g i k) = k /\
  forall n d, cards_from g i k !! n = Some d ->
              card g (i + Z.of_nat n) = Some d.
Proof.
  revert i. induction k as [|k IH]; intros i Hc.
  - split; [reflexivity|]. intros n d H. discriminate.
  - cbn [cards_from]. destruct (Hc i ltac:(lia)) as [d0 Hd0]. rewrite Hd0.
    destruct (IH (i + 1)) as [Hl Hn]; [intros j Hj; apply Hc; lia|].
    split; [cbn [length]; now rewrite Hl|].
    intros n d H. destruct n as [|n].
    + cbn in H. injection H as <-. now rewrite Z.add_0_r.
    + cbn in H. apply Hn in H. rewrite Nat2Z.inj_succ.
      now replace (i + Z.succ (Z.of_nat n)) with (i + 1 + Z.of_nat n) by lia.
Qed.

Lemma cards_from_lookup g k i n d :
  (forall j, i <= j < i + Z.of_nat k -> is_Some (card g j)) ->
  (n < k)%nat -> card g (i + Z.of_nat n) = Some d ->
  cards_from g i k !! n = Some d.
Proof.
  intros Hc Hn Hd. destruct (cards_from_spec g k i Hc) as [Hl Hs].
  destruct (cards_from g i k !! n) as [d'|] eqn:He.
  - apply Hs in He. congruence.
  - apply lookup_ge_None in He. lia.
Qed.

Lemma gpus_zero_wf_parts :
  length (cards gpus_zero) = 10%nat /\ nr_cards gpus_zero = 0.
Proof. split; reflexivity. Qed.

Lemma same_id_sym a b : same_id a b -> same_id b a.
Proof. unfold same_id. intuition congruence. Qed.

Lemma same_id_trans a b c : same_id a b -> same_id b c -> same_id a c.
Proof. unfold same_id. intuition congruence. Qed.

Lemma devices_wf g :
  gpus_wf g ->
  length (devices g) = Z.to_nat (nr_cards g) /\
  forall n d, devices g !! n = Some d <->
              (0 <= Z.of_nat n < nr_cards g /\ card g (Z.of_nat n) = Some d).
Proof.
  intros (_ & Hn & Hc). unfold devices.
  assert (Hall : forall j, 0 <= j < 0 + Z.of_nat (Z.to_nat (nr_cards g)) ->
                           is_Some (card g j)).
  { intros j Hj. rewrite Z2Nat.id in Hj by lia.
    destruct (Hc j ltac:(lia)) as [d Hd]. eauto. }
  destruct (cards_from_spec g _ 0 Hall) as [Hl Hs].
  split; [exact Hl|]. intros n d. split.
  - intros H. pose proof (lookup_lt_Some _ _ _ H) as Hlt. rewrite Hl in Hlt.
    split; [lia|]. apply Hs in H. now rewrite Z.add_0_l in H.
  - intros [Hr Hd]. apply cards_from_lookup; [exact Hall|lia|].
    now rewrite Z.add_0_l.
Qed.

(** Reading a file that holds the lines of [ds], ten at most, into an
    empty inventory. *)
Lemma read_rendered os filename ds st :
  files st !! filename = Some (render ds) ->
  Forall persistable ds -> (length ds <= 10)%nat ->
  (forall n, (nalloc st <= n < nalloc st + length ds)%nat ->
             is_Some (os_malloc os n)) ->
  exists g' st',
    read_data_from_file os filename gpus_zero st = (Ok (1, g'), st', []) /\
    files st' = files st /\ gpus_wf g' /\
    nr_cards g' = Z.of_nat (length ds) /\
    Forall2 same_id (devices g') ds.
Proof.
  intros Hf Hp Hl Hm. unfold read_data_from_file.
  rewrite bind_get. unfold fopen_r. rewrite Hf, file_lines_render.
  destruct (read_data_loop_render os ds gpus_zero st Hp Hm)
    as (g' & st' & Hrun & Hfs & Hnr & Hlen & _ & Hnew);
    [reflexivity|cbn; lia|cbn [nr_cards gpus_zero]; unfold MAX_NR_CARDS; lia|].
  cbn [nr_cards gpus_zero] in Hnr, Hnew. rewrite Z.add_0_l in Hnr.
  exists g', st'. rewrite (bind_run_ok _ _ _ _ _ _ Hrun).
  cbn [ret result final events fst snd app].
  assert (Hwf : gpus_wf g').
  { split; [exact Hlen|]. split; [unfold MAX_NR_CARDS; lia|].
    intros i Hi. destruct (lookup_lt_is_Some_2 ds (Z.to_nat i)) as [d Hd]; [lia|].
    destruct (Hnew _ _ Hd) as (d' & Hc & _).
    rewrite Z.add_0_l, Z2Nat.id in Hc by lia. eauto. }
  repeat split; try assumption; try apply Hwf.
  destruct (devices_wf g' Hwf) as [Hdl Hds].
  apply Forall2_same_length_lookup. split; [rewrite Hdl, Hnr; lia|].
  intros n x y Hx Hy. apply Hds in Hx as [_ Hx].
  destruct (Hnew _ _ Hy) as (d' & Hc & Hs). rewrite Z.add_0_l in Hc.
  congruence.
Qed.

(** A checker for [persistable]. *)
Definition persistableb (d : device) : bool :=
  let below (n v : Z) := (0 <=? v) && (v <? n) in
  below 0x10000 (vendor_id d) && below 0x10000 (device_id d) &&
  below 0x10000 (domain d) && below 0x100 (bus d) && below 0x100 (dev d) &&
  below UINT_MOD (func d) &&
  ((- 2 ^ 31 <=? boot_vga d) && (boot_vga d <? 2 ^ 31)).

Lemma persistableb_ok d : persistableb d = true -> persistable d.
Proof.
  unfold persistableb, persistable, hex_fits, is_uint, is_int.
  rewrite !andb_true_iff, !Z.leb_le, !Z.ltb_lt.
  change (16 ^ Z.of_nat 4) with 65536. change (16 ^ Z.of_nat 2) with 256.
  change 0x10000 with 65536. change 0x100 with 256. tauto.
Qed.

Lemma forallb_persistable ds :
  forallb persistableb ds = true -> Forall persistable ds.
Proof.
  induction ds as [|d ds IH]; cbn [forallb]; [constructor|].
  rewrite andb_true_iff. intros [Hd Hds].
  constructor; [now apply persistableb_ok|now apply IH].
Qed.

(** C4, as amended.  For every well-formed inventory whose vendor id,
    device id and domain are below [0x10000] and whose bus and dev are
    below [0x100], [write_data_to_file] succeeds on a path that can be
    written, and [read_data_from_file], given memory, reads back from
    that file an inventory with as many devices, which agree with the
    original ones, position by position, on the vendor id, the device id,
    the domain, bus, dev, func and the boot-vga flag. *)
Theorem state_file_round_trip os filename g st :
  gpus_wf g -> Forall persistable (devices g) ->
  filename ∉ os_readonly os -> (forall n, is_Some (os_malloc os n)) ->
  result (write_data_to_file os filename g st) = Ok true /\
  exists g' st',
    read_data_from_file os filename gpus_zero
      (final (write_data_to_file os filename g st)) = (Ok (1, g'), st', []) /\
    gpus_wf g' /\ nr_cards g' = nr_cards g /\
    Forall2 same_id (devices g') (devices g).
Proof.
  intros Hwf Hp Hro Hm. rewrite (write_data_to_file_run os filename g st Hwf Hro).
  cbn [result final fst snd]. split; [reflexivity|].
  destruct (devices_wf g Hwf) as [Hl _]. pose proof Hwf as (_ & Hn & _).
  destruct (read_rendered os filename (devices g)
              (mkState (<[filename := render (devices g)]> (files st))
                       (nexec st) (nalloc st)))
    as (g' & st' & Hrun & _ & Hwf' & Hnr & Hsame).
  - cbn [files]. apply lookup_insert_eq.
  - exact Hp.
  - rewrite Hl. unfold MAX_NR_CARDS in Hn. lia.
  - intros n _. apply Hm.
  - exists g', st'. repeat split; try assumption; try apply Hwf'.
    rewrite Hnr, Hl. lia.
Qed.

Lemma state_file_round_trip_witness :
  result (write_data_to_file os_busy LAST_BOOT two_cards st_fresh) = Ok true /\
  exists g' st',
    read_data_from_file os_busy LAST_BOOT gpus_zero
      (final (write_data_to_file os_busy LAST_BOOT two_cards st_fresh)) =
    (Ok (1, g'), st', []) /\
    gpus_wf g' /\ nr_cards g' = nr_cards two_cards /\
    Forall2 same_id (devices g') (devices two_cards).
Proof.
  apply (state_file_round_trip os_busy LAST_BOOT two_cards st_fresh).
  - apply gpus_wfb_wf. reflexivity.
  - apply forallb_persistable. reflexivity.
  - vm_compute. discriminate.
  - intros n. cbn. eauto.
Defined.

(** A card whose device id needs five hexadecimal digits. *)
Definition wide_card : device := mkDevice 0 NVIDIA 0x12345 0 1 0 0 (-1).

Definition wide_written : State :=
  final (write_data_to_file os_busy LAST_BOOT (inventory [wide_card]) st_fresh).

Definition wide_reread : res (Z * gpus) :=
  result (read_data_from_file os_busy LAST_BOOT gpus_zero wide_written).

(** C4, as stated, fails: an inventory of one card whose device id is
    [0x12345] is written as a line that [sscanf] rejects, and the
    inventory read back is empty. *)
Lemma round_trip_loses_wide_device_id :
  gpus_wfb (inventory [wide_card]) = true /\
  nr_cards (inventory [wide_card]) = 1 /\
  files wide_written !! LAST_BOOT = Some ("10de:12345;0000:01:00:0;0" +:+ nl) /\
  match wide_reread with
  | Ok (status, g') => status = 1 /\ nr_cards g' = 0
  | _ => False
  end.
Proof. vm_compute. repeat split. Qed.

(** ** The first read *)

(** C6.  When the state file is absent and can be created (and
    [malloc] gives a block), [read_data_from_file] on an empty inventory
    writes one record of zeros to it and returns 2; the inventory read
    holds one device whose stored fields are all zero, and
    [has_system_changed] returns true on it and every well-formed current
    inventory with a device whose stored fields are not all zero. *)
Theorem first_read_creates_sentinel os filename st :
  files st !! filename = None ->
  filename ∉ os_readonly os ->
  is_Some (os_malloc os (nalloc st)) ->
  exists g1 st1 d0,
    read_data_from_file os filename gpus_zero st = (Ok (2, g1), st1, []) /\
    files st1 !! filename = Some ("0000:0000;0000:00:00:0;0" +:+ nl) /\
    gpus_wf g1 /\ nr_cards g1 = 1 /\ devices g1 = [d0] /\
    same_id d0 zero_device /\
    forall current,
      gpus_wf current ->
      (exists i d, 0 <= i < nr_cards current /\ card current i = Some d /\
                   ~ same_id d zero_device) ->
      has_system_changed g1 current = Ok true.
Proof.
  intros Hf Hro Hm. unfold read_data_from_file.
  rewrite bind_get. unfold fopen_r at 1. rewrite Hf.
  unfold bind at 1. unfold fopen_w at 1.
  destruct (decide (filename ∈ os_readonly os)); [contradiction|].
  unfold bind at 1. unfold fwrite at 1. cbn [files nexec nalloc].
  rewrite lookup_insert_eq, insert_insert_eq. cbn [default].
  rewrite bind_get. unfold fopen_r. cbn [files]. rewrite lookup_insert_eq.
  replace (id "" +:+ card_line zero_device) with (render [zero_device])
    by (cbn [render foldr]; apply append_nil_r).
  rewrite file_lines_render.
  set (st0 := mkState _ _ _).
  destruct (read_data_loop_render os [zero_device] gpus_zero st0)
    as (g1 & st1 & Hrun & Hfs & Hnr & Hlen & _ & Hnew).
  { apply forallb_persistable. reflexivity. }
  { intros k Hk. cbn [nalloc st0 length] in Hk.
    replace k with (nalloc st) by lia. exact Hm. }
  { reflexivity. }
  { cbn. lia. }
  { cbn. unfold MAX_NR_CARDS. lia. }
  cbn [nr_cards gpus_zero length] in Hnr, Hnew.
  change (0 + Z.of_nat 1) with 1 in Hnr.
  rewrite (bind_run_ok _ _ _ _ _ _ Hrun).
  cbn [ret result final events fst snd app].
  destruct (Hnew O zero_device eq_refl) as (d0 & Hc0 & Hs0).
  change (0 + Z.of_nat 0) with 0 in Hc0.
  assert (Hwf : gpus_wf g1).
  { split; [exact Hlen|]. split; [unfold MAX_NR_CARDS; lia|].
    intros i Hi. replace i with 0 by lia. eauto. }
  exists g1, st1, d0. split; [reflexivity|].
  split; [rewrite Hfs; subst st0; cbn [files]; apply lookup_insert_eq|].
  split; [exact Hwf|]. split; [exact Hnr|]. split.
  { unfold devices. rewrite Hnr. change (Z.to_nat 1) with 1%nat.
    cbn [cards_from]. now rewrite Hc0. }
  split; [exact Hs0|]. intros current Hcur (i & d & Hi & Hd & Hne).
  destruct (has_system_changed_iff g1 current Hwf Hcur) as (b & Hb & Hiff).
  rewrite Hb. f_equal. apply Hiff.
  destruct (Z.eq_dec (nr_cards g1) (nr_cards current)) as [He|He]; [|now left].
  right. exists 0, d0, d. rewrite Hnr in He. replace i with 0 in Hd by lia.
  repeat split; try lia; try assumption.
  intros Hs. apply Hne. eapply same_id_trans; [|exact Hs0].
  now apply same_id_sym.
Qed.

Lemma first_read_creates_sentinel_witness :
  exists g1 st1 d0,
    read_data_from_file os_busy LAST_BOOT gpus_zero st_fresh =
      (Ok (2, g1), st1, []) /\
    files st1 !! LAST_BOOT = Some ("0000:0000;0000:00:00:0;0" +:+ nl) /\
    gpus_wf g1 /\ nr_cards g1 = 1 /\ devices g1 = [d0] /\
    same_id d0 zero_device /\
    forall current,
      gpus_wf current ->
      (exists i d, 0 <= i < nr_cards current /\ card current i = Some d /\
                   ~ same_id d zero_device) ->
      has_system_changed g1 current = Ok true.
Proof.
  apply (first_read_creates_sentinel os_busy LAST_BOOT st_fresh).
  - reflexivity.
  - vm_compute. discriminate.
  - cbn. eauto.
Defined.


(** ** The cap on the number of cards *)

Definition capped (g : gpus) : Prop := 0 <= nr_cards g <= MAX_NR_CARDS.

Lemma result_lift {A} (r : res A) st : result (lift r st) = r.
Proof. reflexivity. Qed.

Lemma result_ret {A} (a : A) st : result (ret a st) = Ok a.
Proof. reflexivity. Qed.

Lemma result_malloc os st : result (malloc os st) = Ok (os_malloc os (nalloc st)).
Proof. reflexivity. Qed.

Lemma in_range_true n :
  0 <= n < MAX_NR_CARDS -> (0 <=? n) && (n <? MAX_NR_CARDS) = true.
Proof.
  intros H. apply andb_true_iff. split; [apply Z.leb_le|apply Z.ltb_lt]; lia.
Qed.

Lemma store_card_below g p :
  0 <= nr_cards g < MAX_NR_CARDS ->
  exists g', store_card g p = Ok g' /\ nr_cards g' = nr_cards g.
Proof.
  intros H. unfold store_card. rewrite (in_range_true _ H).
  eexists. split; reflexivity.
Qed.

(** A store into a full inventory is a store past the end of the
    array. *)
Lemma store_card_full g p : nr_cards g = MAX_NR_CARDS -> store_card g p = Fault.
Proof. intros H. unfold store_card. rewrite H. reflexivity. Qed.

(** [get_vars] leaves the number of cards alone. *)
Lemma get_vars_capped os line g st :
  0 <= nr_cards g < MAX_NR_CARDS ->
  exists status g',
    result (get_vars os line g 7 st) = Ok (status, g') /\
    nr_cards g' = nr_cards g.
Proof.
  intros Hn. unfold get_vars. rewrite result_bind, result_malloc.
  destruct (os_malloc os (nalloc st)) as [blk|].
  - unfold sscanf. rewrite state_line_directives. cbn [conversions Nat.leb].
    destruct (scan_result _) as [status vals].
    rewrite result_bind, result_lift.
    match goal with
    | |- context [store_card g ?p] =>
        destruct (store_card_below g p Hn) as (g' & -> & Hg)
    end.
    exists status, g'. split; [reflexivity|exact Hg].
  - exists (- ENOMEM), g. split; reflexivity.
Qed.

(** The loop of [read_data_from_file] stops appending at the cap, on any
    file. *)
Lemma read_data_loop_capped os lines : forall g st,
  capped g ->
  exists g', result (read_data_loop os lines g 7 st) = Ok g' /\ capped g'.
Proof.
  induction lines as [|line rest IH]; intros g st Hc; cbn [read_data_loop].
  - exists g. split; [reflexivity|exact Hc].
  - destruct (nr_cards g <? MAX_NR_CARDS) eqn:Hlt.
    + apply Z.ltb_lt in Hlt. destruct (0 <? String.length line)%nat.
      * rewrite result_bind.
        destruct (get_vars_capped os line g st) as (status & g1 & -> & Hg);
          [unfold capped in Hc; lia|].
        apply IH. cbn [fst snd]. unfold capped in *.
        destruct (status =? 7); cbn [incr_cards nr_cards]; lia.
      * apply IH. exact Hc.
    + exists g. split; [reflexivity|exact Hc].
Qed.

Lemma read_data_from_file_capped os filename g st :
  capped g ->
  exists r g',
    result (read_data_from_file os filename g st) = Ok (r, g') /\ capped g'.
Proof.
  intros Hc. unfold read_data_from_file. rewrite bind_get.
  destruct (fopen_r filename st) as [text|].
  - rewrite result_bind.
    destruct (read_data_loop_capped os (file_lines 100 text) g st Hc)
      as (g' & -> & Hg).
    exists 1, g'. split; [reflexivity|exact Hg].
  - rewrite result_bind. unfold fopen_w at 1.
    destruct (decide _); cbn [result final fst snd].
    + exists 0, g. split; [reflexivity|exact Hc].
    + rewrite result_bind. cbn [result fwrite fst]. rewrite bind_get.
      destruct (fopen_r filename _) as [text|].
      * rewrite result_bind.
        match goal with
        | |- context [read_data_loop os ?l g 7 ?s] =>
            destruct (read_data_loop_capped os l g s Hc) as (g' & -> & Hg)
        end.
        exists 2, g'. split; [reflexivity|exact Hg].
      * exists 0, g. split; [reflexivity|exact Hc].
Qed.

(** The loop of [get_current_devices] stops appending at the cap. *)
Lemma get_current_devices_loop_capped os infos a r n i : forall g st,
  capped g ->
  exists ret g',
    result (get_current_devices_loop os infos g a r n i st) = Ok (ret, g') /\
    capped g'.
Proof.
  induction infos as [|info rest IH]; intros g st Hc;
    cbn [get_current_devices_loop].
  - exists 0, g. split; [reflexivity|exact Hc].
  - destruct (is_display_controller info); [|now apply IH].
    destruct (is_device_pci_passthrough os info); [now apply IH|].
    destruct (MAX_NR_CARDS <=? nr_cards g) eqn:Hfull.
    + exists 0, g. split; [reflexivity|exact Hc].
    + apply Z.leb_gt in Hfull. rewrite result_bind, result_malloc.
      destruct (os_malloc os (nalloc st)).
      * rewrite result_bind, result_lift.
        match goal with
        | |- context [store_card g ?p] =>
            destruct (store_card_below g p) as (g' & -> & Hg)
        end; [unfold capped in Hc; lia|].
        apply IH. unfold capped in *. cbn [incr_cards nr_cards]. lia.
      * exists (- ENOMEM), g. split; [reflexivity|exact Hc].
Qed.

Lemma free_devices_capped g : capped (free_devices g).
Proof. unfold capped, free_devices, MAX_NR_CARDS. cbn. lia. Qed.

Lemma get_current_devices_capped os g st ret g' :
  capped g ->
  result (get_current_devices os g st) = Ok (ret, g') -> capped g'.
Proof.
  intros Hc. unfold get_current_devices.
  destruct (negb (os_pci_init os =? 0)).
  { intros H. inversion H; subst. exact Hc. }
  destruct (negb (os_pci_iter os)).
  { intros H. inversion H; subst. apply free_devices_capped. }
  rewrite result_bind.
  destruct (result (has_driver_connected_outputs os "amdgpu" st)) as [a| |];
    try discriminate.
  rewrite result_bind.
  destruct (result (has_driver_connected_outputs os "radeon" _)) as [r| |];
    try discriminate.
  rewrite result_bind.
  destruct (result (has_driver_connected_outputs os "nouveau" _)) as [n| |];
    try discriminate.
  rewrite result_bind.
  destruct (result (has_driver_connected_outputs os "i915" _)) as [i| |];
    try discriminate.
  rewrite result_bind.
  match goal with
  | |- context [get_current_devices_loop os ?l g a r n i ?s] =>
      destruct (get_current_devices_loop_capped os l a r n i g s Hc)
        as (ret0 & g0 & -> & Hg)
  end.
  cbn [fst snd]. destruct (negb (ret0 =? 0)); intros H; inversion H; subst.
  - apply free_devices_capped.
  - exact Hg.
Qed.

(** [add_gpu_from_file] has no test of its own: below the cap it appends
    one card at most, ... *)
Lemma add_gpu_from_file_below os filename dirname g st g' :
  0 <= nr_cards g < MAX_NR_CARDS ->
  result (add_gpu_from_file os filename dirname g st) = Ok g' ->
  nr_cards g <= nr_cards g' <= nr_cards g + 1.
Proof.
  intros Hn. unfold add_gpu_from_file. rewrite result_bind, result_malloc.
  destruct (os_malloc os (nalloc st)) as [blk|].
  - destruct (PATH_MAX <=? _)%nat; [discriminate|].
    destruct (sscanf_any _ _ _ _) as [[status vals]|]; [|discriminate].
    destruct ((status =? EOF) || negb (status =? 6)).
    + intros H. inversion H; subst. lia.
    + rewrite result_bind, result_lift.
      match goal with
      | |- context [store_card g ?p] =>
          destruct (store_card_below g p Hn) as (g1 & -> & Hg)
      end.
      intros H. inversion H; subst. cbn [incr_cards nr_cards]. lia.
  - intros H. inversion H; subst. lia.
Qed.

(** ... and at the cap it stores the card it parsed from the name of the
    file at [cards[MAX_NR_CARDS]]. *)
Lemma add_gpu_from_file_full os filename dirname g st blk vals :
  nr_cards g = MAX_NR_CARDS ->
  os_malloc os (nalloc st) = Some blk ->
  (String.length (dirname +:+ "/" +:+ marker_pattern) < PATH_MAX)%nat ->
  sscanf_any os filename (dirname +:+ "/" +:+ marker_pattern) 6 =
    Some (6, vals) ->
  result (add_gpu_from_file os filename dirname g st) = Fault.
Proof.
  intros Hn Hm Hl Hs. unfold add_gpu_from_file.
  rewrite result_bind, result_malloc, Hm.
  replace (PATH_MAX <=? _)%nat with false by (symmetry; apply Nat.leb_gt; exact Hl).
  rewrite Hs. change ((6 =? EOF) || negb (6 =? 6)) with false. cbv iota.
  rewrite result_bind, result_lift, store_card_full by exact Hn. reflexivity.
Qed.

(** C5 (code bug).  The loops of [read_data_from_file] and
    [get_current_devices] keep [nr_cards <= MAX_NR_CARDS]
    ([read_data_loop_capped], [get_current_devices_loop_capped]), but
    [add_gpu_from_file] does not: on a laptop where the enumeration finds
    one Intel card and the directory of the markers holds ten of them,
    nine calls fill the inventory, and the tenth call stores at
    [cards[10]], which is outside the array; [main] runs into it. *)
Theorem add_gpu_from_file_exceeds_cap :
  let os := os_optimus ten_markers in
  result (detect_devices cfg_default os st_optimus) =
    Ok (Some (optimus_current, true)) /\
  gpus_wfb optimus_current = true /\
  nr_cards optimus_current = 1 /\
  (exists full,
     result (find_disabled_cards (os_optimus nine_markers) "/run"
               optimus_current (add_gpu_from_file os) st_optimus) = Ok full /\
     gpus_wfb full = true /\
     nr_cards full = MAX_NR_CARDS /\
     forall st,
       result (add_gpu_from_file os ("/run/" +:+ marker "0a") "/run" full st)
       = Fault) /\
  result (main cfg_default (os_optimus nine_markers) 2 st_optimus) = Ok tt /\
  result (main cfg_default os 2 st_optimus) = Fault.
Proof.
  cbv zeta. split; [vm_compute; reflexivity|].
  split; [reflexivity|]. split; [reflexivity|].
  split; [|split; vm_compute; reflexivity].
  eexists. split; [vm_compute; reflexivity|].
  split; [vm_compute; reflexivity|]. split; [reflexivity|].
  intros st. eapply add_gpu_from_file_full with (blk := zero_device).
  - reflexivity.
  - reflexivity.
  - vm_compute. lia.
  - vm_compute. reflexivity.
Qed.

(** ** Connected outputs *)


Lemma prefix_spec (p s : string) :
  String.prefix p s = true <-> exists suf, s = p +:+ suf.
Proof.
  revert s. induction p as [|c p IH]; intros s.
  - split; [intros _; exists s; reflexivity|]. intros _. now destruct s.
  - destruct s as [|c' s]; cbn [String.prefix].
    + split; [discriminate|]. intros [suf H]. discriminate.
    + destruct (Ascii.ascii_dec c c') as [->|Hne].
      * rewrite IH. split; intros [suf H]; exists suf.
        -- now rewrite H.
        -- rewrite append_cons in H. now inversion H.
      * split; [discriminate|]. intros [suf H]. rewrite append_cons in H.
        inversion H. congruence.
Qed.


(** [pre] is the beginning of [s]. *)
Definition begins_with (s pre : string) : Prop := exists rest, s = pre +:+ rest.






(** Spaces and tabs only. *)
Fixpoint only_blanks (s : string) : Prop :=
  match s with
  | "" => True
  | String c r => (c = " "%char \/ c = TAB) /\ only_blanks r
  end.


Lemma is_blank_spec c : is_blank c = true <-> c = " "%char \/ c = TAB.
Proof.
  unfold is_blank. rewrite orb_true_iff, !Ascii.eqb_eq. reflexivity.
Qed.

Lemma skip_blanks line :
  exists blanks,
    only_blanks blanks /\ line = blanks +:+ skip_while is_blank line.
Proof.
  induction line as [|c r (blanks & Hb & Hr)]; [now exists ""|].
  cbn [skip_while]. destruct (is_blank c) eqn:Hc.
  - exists (String c blanks). split.
    + split; [now apply is_blank_spec|exact Hb].
    + rewrite append_cons. now f_equal.
  - now exists "".
Qed.

Lemma skip_blanks_app blanks s :
  only_blanks blanks ->
  skip_while is_blank (blanks +:+ s) = skip_while is_blank s.
Proof.
  induction blanks as [|c r IH]; intros H; [reflexivity|].
  destruct H as [Hc Hr]. rewrite append_cons. cbn [skip_while].
  apply is_blank_spec in Hc. rewrite Hc. now apply IH.
Qed.




Lemma no_token line : strtok_blank line = None <-> only_blanks line.
Proof.
  unfold strtok_blank. split.
  - intros H. destruct (skip_blanks line) as (blanks & Hb & Hl).
    destruct (skip_while is_blank line); [|discriminate].
    rewrite append_nil_r in Hl. now subst.
  - intros H. rewrite <- (append_nil_r line), (skip_blanks_app _ _ H).
    reflexivity.
Qed.
























(** ** The order of the calls in [main] *)

(** A computation that only reads: it leaves the state alone and records
    nothing. *)
Definition reads_only {A} (m : M A) : Prop :=
  forall st, final (m st) = st /\ events (m st) = [].

Lemma ro_ret {A} (a : A) : reads_only (ret a).
Proof. intros st. split; reflexivity. Qed.

Lemma ro_lift {A} (r : res A) : reads_only (lift r).
Proof. intros st. split; reflexivity. Qed.

Lemma ro_get : reads_only get.
Proof. intros st. split; reflexivity. Qed.

Lemma ro_bind {A B} (m : M A) (k : A -> M B) :
  reads_only m -> (forall a, reads_only (k a)) -> reads_only (bind m k).
Proof.
  intros Hm Hk st. destruct (Hm st) as [Hf He].
  rewrite final_bind, events_bind, He.
  destruct (result (m st)) as [a| |]; [|split; [exact Hf|reflexivity]..].
  rewrite Hf. apply Hk.
Qed.

Lemma ro_gather_facts cfg os : reads_only (gather_facts cfg os).
Proof.
  unfold gather_facts.
  repeat first
    [ apply ro_get | apply ro_lift | apply ro_ret
    | apply ro_bind; [|intros ?]
    | match goal with
      | |- reads_only (if ?b then _ else _) => destruct b
      | |- reads_only (let '(_, _) := ?x in _) => destruct x
      | |- reads_only (match ?x with _ => _ end) => destruct x
      end ].
Qed.

Lemma only_nil t : only [] t = true -> t = [].
Proof. destruct t; [reflexivity|discriminate]. Qed.

Lemma eo_write_data_loop filename g k : forall i,
  emits_only [] (write_data_loop filename g i k).
Proof. induction k as [|k IH]; intros i; cbn [write_data_loop]; eo. Qed.

Lemma events_write_data_to_file os filename g st :
  events (write_data_to_file os filename g st) = [EvWriteData filename g].
Proof.
  unfold write_data_to_file. rewrite events_bind. cbn [emit events result final fst snd].
  cbn [app]. f_equal. apply only_nil.
  assert (emits_only []
            (opened <- fopen_w os filename ;;
             if opened
             then write_data_loop filename g 0 (Z.to_nat (nr_cards g)) ;;; ret true
             else ret false)) as H.
  { apply eo_bind; [eo|]. intros [|]; [|eo].
    apply eo_bind; [apply eo_write_data_loop|eo]. }
  apply H.
Qed.

Lemma eo_get_vars os line g : emits_only [] (get_vars os line g 7).
Proof. unfold get_vars. eo. Qed.

Lemma eo_read_data_loop os lines : forall g,
  emits_only [] (read_data_loop os lines g 7).
Proof.
  induction lines as [|line rest IH]; intros g; cbn [read_data_loop]; [eo|].
  destruct (_ <? _); [|eo]. destruct (_ <? _)%nat; [|apply IH].
  apply eo_bind; [apply eo_get_vars|]. intros r. apply IH.
Qed.

Lemma eo_read_data_from_file os filename g :
  emits_only [] (read_data_from_file os filename g).
Proof.
  unfold read_data_from_file. apply eo_bind; [eo|]. intros st.
  destruct (fopen_r filename st).
  - apply eo_bind; [apply eo_read_data_loop|eo].
  - apply eo_bind; [eo|]. intros [|]; [|eo].
    apply eo_bind; [eo|]. intros _. apply eo_bind; [eo|]. intros st'.
    destruct (fopen_r filename st'); [|eo].
    apply eo_bind; [apply eo_read_data_loop|eo].
Qed.

Lemma eo_has_driver_connected_outputs os driver :
  emits_only [] (has_driver_connected_outputs os driver).
Proof. unfold has_driver_connected_outputs. eo. Qed.

Lemma eo_get_current_devices_loop os infos a r n i : forall g,
  emits_only [] (get_current_devices_loop os infos g a r n i).
Proof.
  induction infos as [|info rest IH]; intros g;
    cbn [get_current_devices_loop]; [eo|].
  destruct (is_display_controller info); [|apply IH].
  destruct (is_device_pci_passthrough os info); [apply IH|].
  destruct (_ <=? _); [eo|].
  apply eo_bind; [eo|]. intros [blk|]; [|eo].
  apply eo_bind; [eo|]. intros g'. apply IH.
Qed.

Lemma eo_get_current_devices os g : emits_only [] (get_current_devices os g).
Proof.
  unfold get_current_devices.
  destruct (negb _); [eo|]. destruct (negb _); [eo|].
  repeat (apply eo_bind; [apply eo_has_driver_connected_outputs|intros ?]).
  apply eo_bind; [apply eo_get_current_devices_loop|eo].
Qed.

Lemma eo_detect_devices cfg os : emits_only [] (detect_devices cfg os).
Proof.
  unfold detect_devices. destruct (fake_lspci_file cfg).
  - apply eo_bind; [apply eo_read_data_from_file|eo].
  - apply eo_bind; [apply eo_get_current_devices|eo].
Qed.

Lemma eo_add_gpu_from_file os filename dirname g :
  emits_only [] (add_gpu_from_file os filename dirname g).
Proof. unfold add_gpu_from_file. eo. Qed.

Lemma eo_find_disabled_loop os entries dir : forall g,
  emits_only [] (find_disabled_loop entries dir g (add_gpu_from_file os)).
Proof.
  induction entries as [|e rest IH]; intros g; cbn [find_disabled_loop]; [eo|].
  destruct (negb _); [apply IH|]. destruct (_ <? _)%nat; [apply IH|].
  apply eo_bind; [apply eo_add_gpu_from_file|]. intros g'. apply IH.
Qed.

(** [find_disabled_cards] records its call and nothing else. *)
Lemma events_find_disabled_cards os dir g st :
  events (find_disabled_cards os dir g (add_gpu_from_file os) st) =
  [EvFindDisabled dir g].
Proof.
  unfold find_disabled_cards. rewrite events_bind.
  cbn [emit events result final fst snd app]. f_equal. apply only_nil.
  destruct (opendir os dir); [apply eo_find_disabled_loop|reflexivity].
Qed.

Lemma eo_set_offloading cfg os : emits_only [] (set_offloading cfg os).
Proof. unfold set_offloading. eo. Qed.





(** ** The inventories that [main] handles are well formed *)

Lemma gpus_zero_wf : gpus_wf gpus_zero.
Proof. apply gpus_wfb_wf. reflexivity. Qed.

Lemma card_insert_ne cs nr nr' p n i :
  i <> Z.of_nat n -> 0 <= i ->
  card (mkGpus (<[n := p]> cs) nr) i = card (mkGpus cs nr') i.
Proof.
  intros Hne Hi. unfold card, card_ptr. cbn [cards].
  destruct ((0 <=? i) && (i <? MAX_NR_CARDS)); [|reflexivity].
  rewrite list_lookup_insert_ne by lia. reflexivity.
Qed.

Lemma card_insert_eq cs nr d n :
  (n < length cs)%nat -> Z.of_nat n < MAX_NR_CARDS ->
  card (mkGpus (<[n := Some d]> cs) nr) (Z.of_nat n) = Some d.
Proof.
  intros Hn Hlt. unfold card, card_ptr. cbn [cards].
  rewrite in_range_true by lia.
  rewrite Nat2Z.id, list_lookup_insert_eq by exact Hn. reflexivity.
Qed.

(** A store in the slot after the last card keeps the cards. *)
Lemma store_card_wf g p g' :
  gpus_wf g -> store_card g p = Ok g' -> gpus_wf g'.
Proof.
  intros (Hl & Hn & Hc). unfold store_card.
  destruct ((0 <=? nr_cards g) && (nr_cards g <? MAX_NR_CARDS)); [|discriminate].
  intros H. inversion H; subst. clear H. split; [|split].
  - cbn [cards]. now rewrite length_insert.
  - exact Hn.
  - cbn [nr_cards]. intros i Hi.
    rewrite (card_insert_ne _ _ (nr_cards g)) by lia.
    destruct g. now apply Hc.
Qed.

(** A store of a card followed by the increment appends the card. *)
Lemma store_incr_wf g d g' :
  gpus_wf g -> store_card g (Some d) = Ok g' -> gpus_wf (incr_cards g').
Proof.
  intros (Hl & Hn & Hc). unfold store_card.
  destruct ((0 <=? nr_cards g) && (nr_cards g <? MAX_NR_CARDS)) eqn:Hr;
    [|discriminate].
  apply andb_true_iff in Hr. destruct Hr as [H0 H1].
  apply Z.leb_le in H0. apply Z.ltb_lt in H1.
  intros H. inversion H; subst. clear H. split; [|split].
  - cbn [cards incr_cards]. now rewrite length_insert.
  - cbn [nr_cards incr_cards]. lia.
  - cbn [nr_cards incr_cards]. intros i Hi.
    unfold incr_cards. cbn [cards nr_cards].
    destruct (Z.eq_dec i (nr_cards g)) as [->|Hne].
    + exists d.
      pose proof (card_insert_eq (cards g) (nr_cards g + 1) d
                    (Z.to_nat (nr_cards g))) as Hx.
      rewrite Z2Nat.id in Hx by lia. apply Hx; [|exact H1].
      rewrite Hl. unfold MAX_NR_CARDS in H1. lia.
    + rewrite (card_insert_ne _ _ (nr_cards g)) by lia.
      destruct g. apply Hc. cbn [nr_cards] in *. lia.
Qed.

Lemma free_devices_wf g : length (cards g) = 10%nat -> gpus_wf (free_devices g).
Proof.
  intros Hl. unfold free_devices. split; [|split]; cbn [cards nr_cards].
  - now rewrite length_replicate.
  - unfold MAX_NR_CARDS. lia.
  - intros i Hi. lia.
Qed.

Lemma get_vars_wf os line g st status g' :
  gpus_wf g ->
  result (get_vars os line g 7 st) = Ok (status, g') ->
  gpus_wf (if status =? 7 then incr_cards g' else g').
Proof.
  intros Hwf. unfold get_vars. rewrite result_bind, result_malloc.
  destruct (os_malloc os (nalloc st)) as [blk|].
  - destruct (sscanf _ _ _) as [[s vals]|]; [|discriminate].
    rewrite result_bind, result_lift.
    destruct (store_card g _) as [g1| |] eqn:Hs; try discriminate.
    intros H. inversion H; subst. clear H.
    destruct (status =? 7) eqn:H7.
    + apply Z.eqb_eq in H7. subst status.
      change ((7 =? EOF) || negb true) with false in Hs.
      cbv iota in Hs. eapply store_incr_wf; eassumption.
    + eapply store_card_wf; eassumption.
  - intros H. inversion H; subst. change (- ENOMEM =? 7) with false.
    exact Hwf.
Qed.

Lemma read_data_loop_wf os lines : forall g st g',
  gpus_wf g -> result (read_data_loop os lines g 7 st) = Ok g' -> gpus_wf g'.
Proof.
  induction lines as [|line rest IH]; intros g st g' Hwf;
    cbn [read_data_loop].
  - intros H. inversion H; subst. exact Hwf.
  - destruct (_ <? _); [|intros H; inversion H; subst; exact Hwf].
    destruct (_ <? _)%nat; [|now apply IH].
    rewrite result_bind.
    destruct (result (get_vars os line g 7 st)) as [[status g1]| |] eqn:Hg;
      try discriminate.
    apply IH. cbn [fst snd]. eapply get_vars_wf; eassumption.
Qed.

Lemma read_data_from_file_wf os filename g st r g' :
  gpus_wf g ->
  result (read_data_from_file os filename g st) = Ok (r, g') -> gpus_wf g'.
Proof.
  intros Hwf. unfold read_data_from_file. rewrite bind_get.
  destruct (fopen_r filename st) as [text|].
  - rewrite result_bind.
    destruct (result (read_data_loop _ _ _ _ _)) as [g1| |] eqn:Hl;
      try discriminate.
    intros H. inversion H; subst. eapply read_data_loop_wf; eassumption.
  - rewrite result_bind. unfold fopen_w at 1.
    destruct (decide _); cbn [result final fst snd].
    + intros H. inversion H; subst. exact Hwf.
    + rewrite result_bind. cbn [result fwrite fst]. rewrite bind_get.
      destruct (fopen_r filename _) as [text|].
      * rewrite result_bind.
        destruct (result (read_data_loop _ _ _ _ _)) as [g1| |] eqn:Hl;
          try discriminate.
        intros H. inversion H; subst. eapply read_data_loop_wf; eassumption.
      * intros H. inversion H; subst. exact Hwf.
Qed.

Lemma get_current_devices_loop_wf os infos a r n i : forall g st ret g',
  gpus_wf g ->
  result (get_current_devices_loop os infos g a r n i st) = Ok (ret, g') ->
  gpus_wf g'.
Proof.
  induction infos as [|info rest IH]; intros g st ret g' Hwf;
    cbn [get_current_devices_loop].
  - intros H. inversion H; subst. exact Hwf.
  - destruct (is_display_controller info); [|now apply IH].
    destruct (is_device_pci_passthrough os info); [now apply IH|].
    destruct (_ <=? _); [intros H; inversion H; subst; exact Hwf|].
    rewrite result_bind, result_malloc.
    destruct (os_malloc os (nalloc st)).
    + rewrite result_bind, result_lift.
      destruct (store_card g _) as [g1| |] eqn:Hs; try discriminate.
      apply IH. eapply store_incr_wf; eassumption.
    + intros H. inversion H; subst. exact Hwf.
Qed.

Lemma get_current_devices_wf os g st ret g' :
  gpus_wf g ->
  result (get_current_devices os g st) = Ok (ret, g') -> gpus_wf g'.
Proof.
  intros Hwf. unfold get_current_devices.
  destruct (negb (os_pci_init os =? 0)).
  { intros H. inversion H; subst. exact Hwf. }
  destruct (negb (os_pci_iter os)).
  { intros H. inversion H; subst. apply free_devices_wf, Hwf. }
  rewrite result_bind.
  destruct (result (has_driver_connected_outputs os "amdgpu" st)) as [a| |];
    try discriminate.
  rewrite result_bind.
  destruct (result (has_driver_connected_outputs os "radeon" _)) as [r| |];
    try discriminate.
  rewrite result_bind.
  destruct (result (has_driver_connected_outputs os "nouveau" _)) as [n| |];
    try discriminate.
  rewrite result_bind.
  destruct (result (has_driver_connected_outputs os "i915" _)) as [i| |];
    try discriminate.
  rewrite result_bind.
  destruct (result (get_current_devices_loop _ _ _ _ _ _ _ _))
    as [[ret0 g0]| |] eqn:Hl; try discriminate.
  apply get_current_devices_loop_wf in Hl; [|exact Hwf].
  cbn [fst snd]. destruct (negb (ret0 =? 0)); intros H; inversion H; subst.
  - apply free_devices_wf, Hl.
  - exact Hl.
Qed.

Lemma set_fake_outputs_wf k : forall g i g',
  gpus_wf g -> 0 <= i -> set_fake_outputs g i k = Ok g' -> gpus_wf g'.
Proof.
  induction k as [|k IH]; intros g i g' Hwf Hi; cbn [set_fake_outputs].
  - intros H. inversion H; subst. exact Hwf.
  - destruct (card g i) as [d|] eqn:Hd; [|discriminate].
    apply IH; [|lia]. destruct Hwf as (Hl & Hn & Hc). split; [|split].
    + cbn [cards]. now rewrite length_insert.
    + exact Hn.
    + cbn [nr_cards]. intros j Hj.
      assert (Z.of_nat (Z.to_nat i) = i) as Hii by lia.
      destruct (Z.eq_dec j i) as [->|Hne].
      * eexists. rewrite <- Hii at 2. apply card_insert_eq.
        -- rewrite Hl. unfold MAX_NR_CARDS in Hn. lia.
        -- lia.
      * rewrite (card_insert_ne _ _ (nr_cards g)) by lia.
        destruct g. now apply Hc.
Qed.

(** The current devices of a run are a well-formed inventory. *)
Lemma detect_devices_wf cfg os st g offloading :
  result (detect_devices cfg os st) = Ok (Some (g, offloading)) -> gpus_wf g.
Proof.
  unfold detect_devices. destruct (fake_lspci_file cfg) as [file|].
  - rewrite result_bind.
    destruct (result (read_data_from_file _ _ _ _)) as [[r g0]| |] eqn:Hr;
      try discriminate.
    apply read_data_from_file_wf in Hr; [|apply gpus_zero_wf].
    cbn [fst snd]. destruct (r =? 0); [discriminate|].
    rewrite result_bind, result_lift.
    destruct (set_fake_outputs g0 0 _) as [g1| |] eqn:Hs; try discriminate.
    intros H. inversion H; subst.
    eapply set_fake_outputs_wf; [exact Hr| |exact Hs]. lia.
  - rewrite result_bind.
    destruct (result (get_current_devices _ _ _)) as [[r g0]| |] eqn:Hr;
      try discriminate.
    apply get_current_devices_wf in Hr; [|apply gpus_zero_wf].
    cbn [fst snd]. destruct (negb (r =? 0)); [discriminate|].
    rewrite result_bind, result_lift.
    destruct (requires_offloading g0); try discriminate.
    intros H. inversion H; subst. exact Hr.
Qed.

Lemma only_in ks t e :
  only ks t = true -> In e t -> kind_in (kind_of e) ks = true.
Proof. unfold only. rewrite forallb_forall. intros H. apply H. Qed.




(** * Further properties *)

(** ** The boot card and the discrete card *)

Definition is_boot (d : device) : bool := negb (boot_vga d =? 0).

Lemma get_boot_vga_loop_find g k : forall i,
  (forall j, i <= j < i + Z.of_nat k -> is_Some (card g j)) ->
  get_boot_vga_loop g i k = Ok (List.find is_boot (cards_from g i k)).
Proof.
  induction k as [|k IH]; intros i Hc; cbn [get_boot_vga_loop cards_from];
    [reflexivity|].
  destruct (Hc i ltac:(lia)) as [d ->]. cbn [List.find]. unfold is_boot at 1.
  destruct (negb (boot_vga d =? 0)); [reflexivity|].
  apply IH. intros j Hj. apply Hc. lia.
Qed.

Lemma get_first_discrete_loop_find g k : forall i,
  (forall j, i <= j < i + Z.of_nat k -> is_Some (card g j)) ->
  get_first_discrete_loop g i k =
  Ok (List.find (fun d => negb (is_boot d)) (cards_from g i k)).
Proof.
  induction k as [|k IH]; intros i Hc;
    cbn [get_first_discrete_loop cards_from]; [reflexivity|].
  destruct (Hc i ltac:(lia)) as [d ->]. cbn [List.find]. unfold is_boot at 1.
  rewrite negb_involutive.
  destruct (boot_vga d =? 0); [reflexivity|].
  apply IH. intros j Hj. apply Hc. lia.
Qed.

Lemma wf_cards g :
  gpus_wf g ->
  forall j, 0 <= j < 0 + Z.of_nat (Z.to_nat (nr_cards g)) -> is_Some (card g j).
Proof.
  intros (_ & Hn & Hc) j Hj. rewrite Z2Nat.id in Hj by lia.
  destruct (Hc j ltac:(lia)) as [d Hd]. eauto.
Qed.

Lemma get_boot_vga_find g :
  gpus_wf g -> get_boot_vga g = Ok (List.find is_boot (devices g)).
Proof. intros H. apply get_boot_vga_loop_find, wf_cards, H. Qed.

(** [get_boot_vga] on a well-formed inventory dereferences no null
    pointer and returns the first device, in the order of the array,
    whose boot flag is not 0; it returns the null pointer exactly when
    no device has the flag. *)
Theorem get_boot_vga_first g :
  gpus_wf g ->
  get_boot_vga g = Ok (List.find is_boot (devices g)) /\
  (get_boot_vga g = Ok None <-> forall d, In d (devices g) -> boot_vga d = 0) /\
  (forall d, get_boot_vga g = Ok (Some d) ->
     boot_vga d <> 0 /\
     exists before after,
       devices g = before ++ d :: after /\
       forall b, In b before -> boot_vga b = 0).
Proof.
  intros Hwf. rewrite (get_boot_vga_find g Hwf).
  split; [reflexivity|]. split.
  - split.
    + intros H d Hd. inversion H as [Hf].
      pose proof (find_none _ _ Hf d Hd) as Hb. unfold is_boot in Hb.
      apply negb_false_iff, Z.eqb_eq in Hb. exact Hb.
    + intros H. f_equal. destruct (List.find is_boot (devices g)) as [d|] eqn:Hf;
        [|reflexivity].
      apply find_some in Hf as [Hin Hb]. unfold is_boot in Hb.
      rewrite (H d Hin) in Hb. discriminate.
  - intros d H. inversion H as [Hf]. clear H.
    induction (devices g) as [|x l IH]; [discriminate|].
    cbn [List.find] in Hf. destruct (is_boot x) eqn:Hx.
    + inversion Hf; subst. split.
      * unfold is_boot in Hx. apply negb_true_iff, Z.eqb_neq in Hx. exact Hx.
      * exists [], l. split; [reflexivity|]. intros b [].
    + destruct (IH Hf) as (Hd & before & after & -> & Hb). split; [exact Hd|].
      exists (x :: before), after. split; [reflexivity|].
      intros b [<-|Hin]; [|now apply Hb].
      unfold is_boot in Hx. now apply negb_false_iff, Z.eqb_eq in Hx.
Qed.

Lemma get_boot_vga_first_witness :
  get_boot_vga two_cards = Ok (Some intel_card).
Proof.
  destruct (get_boot_vga_first two_cards) as [H _].
  - apply gpus_wfb_wf. reflexivity.
  - rewrite H. reflexivity.
Defined.

(** [get_first_discrete] on a well-formed inventory returns the first
    device whose boot flag is 0, and the null pointer exactly when every
    device has the flag: the card it returns is never the one that
    [get_boot_vga] returns. *)
Theorem get_first_discrete_first g :
  gpus_wf g ->
  get_first_discrete g =
    Ok (List.find (fun d => negb (is_boot d)) (devices g)) /\
  (get_first_discrete g = Ok None <->
   forall d, In d (devices g) -> boot_vga d <> 0) /\
  (forall d b, get_first_discrete g = Ok (Some d) ->
     get_boot_vga g = Ok (Some b) ->
     boot_vga d = 0 /\ boot_vga b <> 0 /\ In d (devices g) /\ In b (devices g)).
Proof.
  intros Hwf. unfold get_first_discrete.
  rewrite (get_first_discrete_loop_find g _ 0 (wf_cards g Hwf)).
  fold (devices g). split; [reflexivity|]. split.
  - split.
    + intros H d Hd. inversion H as [Hf].
      pose proof (find_none _ _ Hf d Hd) as Hb. unfold is_boot in Hb.
      rewrite negb_involutive in Hb. now apply Z.eqb_neq in Hb.
    + intros H. f_equal.
      destruct (List.find _ (devices g)) as [d|] eqn:Hf; [|reflexivity].
      apply find_some in Hf as [Hin Hb]. unfold is_boot in Hb.
      rewrite negb_involutive in Hb. apply Z.eqb_eq in Hb.
      destruct (H d Hin Hb).
  - intros d b Hd Hb. rewrite (get_boot_vga_find g Hwf) in Hb.
    inversion Hd as [Hfd]. inversion Hb as [Hfb].
    apply find_some in Hfd as [Hind Hd0]. apply find_some in Hfb as [Hinb Hb0].
    unfold is_boot in Hd0, Hb0. rewrite negb_involutive in Hd0.
    apply Z.eqb_eq in Hd0. apply negb_true_iff, Z.eqb_neq in Hb0. auto.
Qed.

Lemma get_first_discrete_first_witness :
  get_first_discrete two_cards = Ok (Some nvidia_card).
Proof.
  destruct (get_first_discrete_first two_cards) as [H _].
  - apply gpus_wfb_wf. reflexivity.
  - rewrite H. reflexivity.
Defined.

(** [requires_offloading] on a well-formed inventory is true exactly
    when the first device with the boot flag is an Intel device whose
    outputs are known to be connected; unknown outputs (-1) and an
    inventory without boot device give false. *)
Theorem requires_offloading_spec g :
  gpus_wf g ->
  exists b, requires_offloading g = Ok b /\
    (b = true <->
     exists d, List.find is_boot (devices g) = Some d /\
               vendor_id d = INTEL /\ has_connected_outputs d = 1).
Proof.
  intros Hwf. unfold requires_offloading. rewrite (get_boot_vga_find g Hwf).
  destruct (List.find is_boot (devices g)) as [d|].
  - eexists. split; [reflexivity|].
    rewrite andb_true_iff, !Z.eqb_eq. split.
    + intros [H1 H2]. now exists d.
    + intros (d' & Hd & H1 & H2). inversion Hd; subst. auto.
  - exists false. split; [reflexivity|]. split; [discriminate|].
    intros (d & Hd & _). discriminate.
Qed.

Lemma requires_offloading_spec_witness :
  requires_offloading two_cards = Ok true.
Proof.
  destruct (requires_offloading_spec two_cards) as (b & Hb & Hiff).
  - apply gpus_wfb_wf. reflexivity.
  - rewrite Hb. f_equal. apply Hiff. exists intel_card. repeat split.
Defined.

(** ** Reading any file *)

Lemma store_card_keeps g p g' :
  store_card g p = Ok g' ->
  nr_cards g' = nr_cards g /\
  forall j, 0 <= j < nr_cards g -> card g' j = card g j.
Proof.
  unfold store_card.
  destruct ((0 <=? nr_cards g) && (nr_cards g <? MAX_NR_CARDS)); [|discriminate].
  intros H. inversion H; subst. clear H. split; [reflexivity|].
  intros j Hj. rewrite (card_insert_ne _ _ (nr_cards g)) by lia. now destruct g.
Qed.

Lemma get_vars_keeps os line g st status g' :
  result (get_vars os line g 7 st) = Ok (status, g') ->
  nr_cards g' = nr_cards g /\
  forall j, 0 <= j < nr_cards g -> card g' j = card g j.
Proof.
  unfold get_vars. rewrite result_bind, result_malloc.
  destruct (os_malloc os (nalloc st)) as [blk|].
  - destruct (sscanf _ _ _) as [[s vals]|]; [|discriminate].
    rewrite result_bind, result_lift.
    destruct (store_card g _) as [g1| |] eqn:Hs; try discriminate.
    intros H. inversion H; subst. eapply store_card_keeps, Hs.
  - intros H. inversion H; subst. auto.
Qed.

Lemma read_data_loop_keeps os lines : forall g st g',
  0 <= nr_cards g ->
  result (read_data_loop os lines g 7 st) = Ok g' ->
  nr_cards g <= nr_cards g' /\
  forall j, 0 <= j < nr_cards g -> card g' j = card g j.
Proof.
  induction lines as [|line rest IH]; intros g st g' Hn;
    cbn [read_data_loop].
  - intros H. inversion H; subst. split; [lia|auto].
  - destruct (_ <? _); [|intros H; inversion H; subst; split; [lia|auto]].
    destruct (_ <? _)%nat; [|now apply IH].
    rewrite result_bind.
    destruct (result (get_vars os line g 7 st)) as [[status g1]| |] eqn:Hg;
      try discriminate.
    destruct (get_vars_keeps _ _ _ _ _ _ Hg) as [Hnr Hk]. cbn [fst snd].
    intros H. apply IH in H.
    + destruct H as [Hle Hc]. split.
      * destruct (status =? 7); cbn [incr_cards nr_cards] in Hle; lia.
      * intros j Hj. rewrite Hc.
        -- destruct (status =? 7); [|now apply Hk].
           unfold incr_cards, card, card_ptr. cbn [cards].
           apply (Hk j Hj).
        -- destruct (status =? 7); cbn [incr_cards nr_cards]; lia.
    + destruct (status =? 7); cbn [incr_cards nr_cards]; lia.
Qed.

Lemma read_data_loop_files os lines : forall g st,
  files (final (read_data_loop os lines g 7 st)) = files st.
Proof.
  induction lines as [|line rest IH]; intros g st; cbn [read_data_loop];
    [reflexivity|].
  destruct (_ <? _); [|reflexivity]. destruct (_ <? _)%nat; [|apply IH].
  rewrite final_bind.
  assert (files (final (get_vars os line g 7 st)) = files st) as Hg.
  { unfold get_vars. rewrite final_bind, result_malloc.
    cbn [final malloc fst snd].
    destruct (os_malloc os (nalloc st)); [|reflexivity].
    destruct (sscanf _ _ _) as [[s vals]|]; [|reflexivity].
    rewrite final_bind, result_lift. destruct (store_card g _); reflexivity. }
  destruct (result (get_vars os line g 7 st)); [|exact Hg..].
  rewrite IH. exact Hg.
Qed.

(** [read_data_from_file] copes with any file.  Whatever the file
    holds, it returns 0, 1 or 2 without running into a null pointer or
    past the array: 1 when the file was there, 2 when it was absent and
    could be created, 0 when it was absent and could not be created, in
    which case nothing has changed.  The inventory that it leaves is
    well formed, holds the cards it held before at the same places, and
    no file other than [filename] is touched. *)
Theorem read_data_from_file_total os filename g st :
  gpus_wf g ->
  exists status g',
    result (read_data_from_file os filename g st) = Ok (status, g') /\
    events (read_data_from_file os filename g st) = [] /\
    gpus_wf g' /\ nr_cards g <= nr_cards g' /\
    (forall j, 0 <= j < nr_cards g -> card g' j = card g j) /\
    (status = 1 <-> is_Some (files st !! filename)) /\
    (status = 2 <-> files st !! filename = None /\ filename ∉ os_readonly os) /\
    (status = 0 <-> files st !! filename = None /\ filename ∈ os_readonly os) /\
    (status = 0 ->
     g' = g /\ final (read_data_from_file os filename g st) = st) /\
    (forall path, path <> filename ->
       files (final (read_data_from_file os filename g st)) !! path =
       files st !! path).
Proof.
  intros Hwf.
  assert (capped g) as Hcap by (destruct Hwf as (_ & Hn & _); exact Hn).
  destruct (read_data_from_file_capped os filename g st Hcap)
    as (status & g' & Hr & _).
  exists status, g'. split; [exact Hr|].
  split; [apply only_nil, eo_read_data_from_file|].
  split; [eapply read_data_from_file_wf; eassumption|].
  revert Hr. unfold read_data_from_file. rewrite bind_get. unfold fopen_r.
  destruct (files st !! filename) as [text|] eqn:Hf.
  - rewrite result_bind, final_bind.
    destruct (result (read_data_loop os _ g 7 st)) as [g1| |] eqn:Hl;
      try discriminate.
    intros H. inversion H; subst. clear H.
    destruct (read_data_loop_keeps _ _ _ _ _ (proj1 Hcap) Hl) as [Hle Hk].
    repeat split; try assumption; try (intros; eauto; fail);
      try (intros [? ?]; discriminate); try discriminate.
    intros path _. cbn [ret final fst snd].
    now rewrite read_data_loop_files.
  - rewrite result_bind, final_bind. unfold fopen_w.
    destruct (decide (filename ∈ os_readonly os)) as [Hro|Hro];
      cbn [result final fst snd].
    + intros H. inversion H; subst. clear H.
      repeat split; try lia; try assumption; try discriminate;
        try (intros [? ?]; discriminate); try (intros [? ?]; contradiction);
        auto.
    + rewrite result_bind, final_bind. cbn [result final fwrite fst snd].
      rewrite !bind_get. unfold fopen_r. cbn [files].
      rewrite !lookup_insert_eq.
      rewrite result_bind, final_bind.
      match goal with
      | |- context [read_data_loop os ?l g 7 ?s] =>
          destruct (result (read_data_loop os l g 7 s)) as [g1| |] eqn:Hl;
            try discriminate;
          pose proof (read_data_loop_files os l g s) as Hfs
      end.
      intros H. inversion H; subst. clear H.
      destruct (read_data_loop_keeps _ _ _ _ _ (proj1 Hcap) Hl) as [Hle Hk].
      repeat split; try assumption; try discriminate;
        try (intros [? ?]; contradiction); try (intros [? ?]; discriminate);
        try (intros [x Hx]; discriminate).
      intros path Hne. cbn [ret final fst snd]. rewrite Hfs. cbn [files].
      rewrite !lookup_insert_ne by congruence. reflexivity.
Qed.

Lemma read_data_from_file_total_witness :
  exists status g',
    result (read_data_from_file os_busy LAST_BOOT gpus_zero st_fresh) =
      Ok (status, g') /\ gpus_wf g'.
Proof.
  destruct (read_data_from_file_total os_busy LAST_BOOT gpus_zero st_fresh
              gpus_zero_wf) as (status & g' & Hr & _ & Hwf & _).
  exists status, g'. split; [exact Hr|exact Hwf].
Defined.

(** ** The next boot *)

(** The state file that one run writes is read by the next run as an
    unchanged system: for an inventory whose fields fit the widths of
    the record, [has_system_changed] on the inventory read back and the
    inventory written is false. *)
Theorem unchanged_after_round_trip os filename g st :
  gpus_wf g -> Forall persistable (devices g) ->
  filename ∉ os_readonly os -> (forall n, is_Some (os_malloc os n)) ->
  exists g' st',
    read_data_from_file os filename gpus_zero
      (final (write_data_to_file os filename g st)) = (Ok (1, g'), st', []) /\
    has_system_changed g' g = Ok false.
Proof.
  intros Hwf Hp Hro Hm.
  rewrite (write_data_to_file_run os filename g st Hwf Hro).
  cbn [final fst snd].
  destruct (devices_wf g Hwf) as [Hl Hdev]. pose proof Hwf as (_ & Hn & _).
  destruct (read_rendered os filename (devices g)
              (mkState (<[filename := render (devices g)]> (files st))
                       (nexec st) (nalloc st)))
    as (g' & st' & Hrun & _ & Hwf' & Hnr & Hsame).
  - cbn [files]. apply lookup_insert_eq.
  - exact Hp.
  - rewrite Hl. unfold MAX_NR_CARDS in Hn. lia.
  - intros n _. apply Hm.
  - exists g', st'. split; [exact Hrun|].
    destruct (has_system_changed_iff g' g Hwf' Hwf) as (b & Hb & Hiff).
    rewrite Hb. f_equal. destruct b; [|reflexivity]. exfalso.
    destruct (proj1 Hiff eq_refl) as [Hne|(i & p & c & Hi & Hpi & Hci & Hd)].
    + rewrite Hnr, Hl in Hne. lia.
    + apply Hd. destruct (devices_wf g' Hwf') as [_ Hdev'].
      assert (devices g' !! Z.to_nat i = Some p) as Hp'
        by (apply Hdev'; rewrite Z2Nat.id by lia; auto).
      assert (devices g !! Z.to_nat i = Some c) as Hc'.
      { apply Hdev. rewrite Z2Nat.id by lia. split; [|exact Hci].
        rewrite Hnr, Hl in Hi. lia. }
      eapply Forall2_lookup_lr; eassumption.
Qed.

Lemma unchanged_after_round_trip_witness :
  exists g' st',
    read_data_from_file os_busy LAST_BOOT gpus_zero
      (final (write_data_to_file os_busy LAST_BOOT two_cards st_fresh)) =
    (Ok (1, g'), st', []) /\
    has_system_changed g' two_cards = Ok false.
Proof.
  apply (unchanged_after_round_trip os_busy LAST_BOOT two_cards st_fresh).
  - apply gpus_wfb_wf. reflexivity.
  - apply forallb_persistable. reflexivity.
  - vm_compute. discriminate.
  - intros n. cbn. eauto.
Defined.

(** ** Files with more records than the inventory holds *)

(** Once the inventory is full the loop reads no further line. *)
Lemma read_data_loop_full os l1 l2 : forall g st g1 st1 t,
  read_data_loop os l1 g 7 st = (Ok g1, st1, t) ->
  MAX_NR_CARDS <= nr_cards g1 ->
  read_data_loop os (l1 ++ l2) g 7 st = (Ok g1, st1, t).
Proof.
  induction l1 as [|line rest IH]; intros g st g1 st1 t Hrun Hfull.
  - cbn [read_data_loop] in Hrun. inversion Hrun; subst. cbn [app].
    destruct l2 as [|x l2]; cbn [read_data_loop]; [reflexivity|].
    replace (nr_cards g1 <? MAX_NR_CARDS) with false
      by (symmetry; apply Z.ltb_ge; exact Hfull).
    reflexivity.
  - cbn [app read_data_loop] in *.
    destruct (nr_cards g <? MAX_NR_CARDS); [|exact Hrun].
    destruct (0 <? String.length line)%nat; [|now apply IH].
    apply bind_ok in Hrun. destruct Hrun as (r & s & t1 & t2 & Hg & Hrest & ->).
    rewrite (bind_run_ok _ _ _ _ _ _ Hg).
    rewrite (IH _ _ _ _ _ Hrest Hfull). reflexivity.
Qed.

(** Of a state file that holds more than ten records,
    [read_data_from_file] reads the first ten and leaves the others
    out. *)
Theorem read_data_from_file_truncates os filename ds st :
  files st !! filename = Some (render ds) ->
  Forall persistable ds ->
  (forall n, is_Some (os_malloc os n)) ->
  exists g' st',
    read_data_from_file os filename gpus_zero st = (Ok (1, g'), st', []) /\
    gpus_wf g' /\
    nr_cards g' = Z.of_nat (Nat.min 10 (length ds)) /\
    Forall2 same_id (devices g') (take 10 ds).
Proof.
  intros Hf Hp Hm. unfold read_data_from_file.
  rewrite bind_get. unfold fopen_r. rewrite Hf, file_lines_render.
  replace (map card_line ds)
    with (map card_line (take 10 ds) ++ map card_line (drop 10 ds))
    by (rewrite <- map_app, take_drop; reflexivity).
  assert (Forall persistable (take 10 ds)) as Hp' by (now apply Forall_take).
  assert (length (take 10 ds) = Nat.min 10 (length ds)) as Hlen'
    by apply length_take.
  destruct (read_data_loop_render os (take 10 ds) gpus_zero st Hp')
    as (g' & st' & Hrun & Hfs & Hnr & Hlen & _ & Hnew).
  - intros n _. apply Hm.
  - reflexivity.
  - cbn. lia.
  - cbn [nr_cards gpus_zero]. unfold MAX_NR_CARDS. lia.
  - cbn [nr_cards gpus_zero] in Hnr, Hnew. rewrite Z.add_0_l in Hnr.
    assert (Hwf : gpus_wf g').
    { split; [exact Hlen|]. split; [unfold MAX_NR_CARDS; lia|].
      intros i Hi.
      destruct (lookup_lt_is_Some_2 (take 10 ds) (Z.to_nat i)) as [d Hd]; [lia|].
      destruct (Hnew _ _ Hd) as (d' & Hc & _).
      rewrite Z.add_0_l, Z2Nat.id in Hc by lia. eauto. }
    assert (read_data_loop os
              (map card_line (take 10 ds) ++ map card_line (drop 10 ds))
              gpus_zero 7 st = (Ok g', st', [])) as Hall.
    { destruct (drop 10 ds) as [|x rest] eqn:Hdrop.
      - cbn [map]. now rewrite app_nil_r.
      - apply read_data_loop_full; [exact Hrun|].
        assert (10 < length ds)%nat.
        { destruct (Nat.le_gt_cases (length ds) 10) as [Hle|Hgt]; [|exact Hgt].
          rewrite drop_ge in Hdrop by exact Hle. discriminate. }
        unfold MAX_NR_CARDS. lia. }
    exists g', st'. rewrite (bind_run_ok _ _ _ _ _ _ Hall).
    cbn [ret result final events fst snd app].
    split; [reflexivity|]. split; [exact Hwf|]. split; [lia|].
    destruct (devices_wf g' Hwf) as [Hdl Hds].
    apply Forall2_same_length_lookup. split; [rewrite Hdl, Hnr; lia|].
    intros n x y Hx Hy. apply Hds in Hx as [_ Hx].
    destruct (Hnew _ _ Hy) as (d' & Hc & Hs). rewrite Z.add_0_l in Hc.
    congruence.
Qed.

Definition twelve_cards : list device :=
  map (fun b => mkDevice 0 NVIDIA 0x1140 0 b 0 0 (-1))
      [1; 2; 3; 4; 5; 6; 7; 8; 9; 10; 11; 12].

Lemma read_data_from_file_truncates_witness :
  exists g' st',
    read_data_from_file os_busy LAST_BOOT gpus_zero
      (mkState (<[LAST_BOOT := render twelve_cards]> ∅) 0 0) =
    (Ok (1, g'), st', []) /\
    gpus_wf g' /\ nr_cards g' = 10 /\
    Forall2 same_id (devices g') (take 10 twelve_cards).
Proof.
  apply (read_data_from_file_truncates os_busy LAST_BOOT twelve_cards).
  - cbn [files]. apply lookup_insert_eq.
  - apply forallb_persistable. reflexivity.
  - intros n. cbn. eauto.
Defined.

(** ** The markers of disabled cards *)

(** A directory without markers, or one that cannot be opened, leaves
    the inventory alone, whatever the function to call on a marker. *)
Theorem find_disabled_cards_ignores os dir g fcn st :
  (forall entries e,
     opendir os dir = Some entries -> In e entries ->
     starts_with e "u-d-c-gpu-" = false) ->
  find_disabled_cards os dir g fcn st = (Ok g, st, [EvFindDisabled dir g]).
Proof.
  intros H. unfold find_disabled_cards.
  unfold bind, emit. destruct (opendir os dir) as [entries|]; [|reflexivity].
  specialize (H entries).
  assert (find_disabled_loop entries dir g fcn st = (Ok g, st, [])) as ->;
    [|reflexivity].
  induction entries as [|e rest IH]; cbn [find_disabled_loop]; [reflexivity|].
  rewrite (H e eq_refl (or_introl eq_refl)). cbn [negb].
  apply IH. intros e' _ Hin. apply H; [reflexivity|now right].
Qed.

Lemma find_disabled_cards_ignores_witness :
  find_disabled_cards (os_optimus []) "/run" one_card
    (add_gpu_from_file (os_optimus [])) st_optimus =
  (Ok one_card, st_optimus, [EvFindDisabled "/run" one_card]).
Proof.
  apply find_disabled_cards_ignores.
  intros entries e Ho Hin. vm_compute in Ho. inversion Ho; subst.
  destruct Hin as [<-|[]]. reflexivity.
Defined.

(** The characters of a format that stand for themselves. *)
Definition plain_char (c : ascii) : bool :=
  negb (isspace c) && negb (Ascii.eqb c "%").

Fixpoint literal (s : string) : list directive :=
  match s with
  | "" => []
  | String c r => DChar c :: literal r
  end.

Lemma parse_format_plain s r :
  allb plain_char s = true ->
  parse_format (s +:+ r) = app (literal s) <$> parse_format r.
Proof.
  induction s as [|c s IH]; intros H.
  - rewrite append_nil_l. cbn [literal]. now destruct (parse_format r).
  - cbn [allb] in H. apply andb_true_iff in H as [Hc Hs].
    unfold plain_char in Hc. apply andb_true_iff in Hc as [H1 H2].
    apply negb_true_iff in H1, H2.
    rewrite append_cons. cbn [parse_format literal]. rewrite H1, H2, (IH Hs).
    now destruct (parse_format r).
Qed.

Lemma run_scan_literal s ds R acc :
  run_scan (literal s ++ ds) (s +:+ R) acc = run_scan ds R acc.
Proof.
  induction s as [|c s IH]; [reflexivity|].
  rewrite append_cons. cbn [literal app]. now rewrite run_scan_char.
Qed.

Lemma conversions_literal s ds : conversions (literal s ++ ds) = conversions ds.
Proof. induction s as [|c s IH]; [reflexivity|exact IH]. Qed.

(** The name of the marker of a disabled card:
    [u-d-c-gpu-0000:09:00.0-0x10de-0x1140]. *)
Definition marker_file (d : device) : string :=
  "u-d-c-gpu-" +:+ fmt_x 4 (domain d) +:+ ":" +:+ fmt_x 2 (bus d) +:+ ":" +:+
  fmt_x 2 (dev d) +:+ "." +:+ fmt_d (func d) +:+ "-0x" +:+
  fmt_x 4 (vendor_id d) +:+ "-0x" +:+ fmt_x 4 (device_id d).

Lemma marker_directives :
  parse_format ("/" +:+ marker_pattern) =
  Some (literal "/u-d-c-gpu-" ++
        [DHex 4; DChar ":"; DHex 2; DChar ":"; DHex 2; DChar "."; DDec 0;
         DChar "-"; DChar "0"; DChar "x"; DHex 4;
         DChar "-"; DChar "0"; DChar "x"; DHex 4]).
Proof. reflexivity. Qed.

Lemma sscanf_marker dir d :
  allb plain_char dir = true -> persistable d ->
  sscanf (dir +:+ "/" +:+ marker_file d) (dir +:+ "/" +:+ marker_pattern) 6 =
  Some (6, [domain d; bus d; dev d; to_int (func d); vendor_id d; device_id d]).
Proof.
  intros Hdir (Hv & Hi & Hdo & Hb & Hde & Hf & _).
  unfold sscanf. rewrite (parse_format_plain dir _ Hdir), marker_directives.
  cbn [fmap option_fmap option_map]. rewrite !conversions_literal.
  cbn [conversions Nat.leb]. rewrite run_scan_literal. unfold marker_file.
  destruct (fmt_x_fits 4 _ ltac:(lia) Hdo) as (L1 & A1 & V1).
  destruct (fmt_x_fits 2 _ ltac:(lia) Hb) as (L2 & A2 & V2).
  destruct (fmt_x_fits 2 _ ltac:(lia) Hde) as (L3 & A3 & V3).
  destruct (fmt_d_shape (func d)) as (D4 & E4 & N4 & A4 & _ & V4).
  destruct (fmt_x_fits 4 _ ltac:(lia) Hv) as (L5 & A5 & V5).
  destruct (fmt_x_fits 4 _ ltac:(lia) Hi) as (L6 & A6 & V6).
  rewrite E4, !append_assoc.
  rewrite <- (append_nil_r (fmt_x 4 (device_id d))).
  change ("/" +:+ "u-d-c-gpu-" +:+ ?x) with ("/u-d-c-gpu-" +:+ x).
  rewrite run_scan_literal.
  rewrite (run_scan_hex 4 _ _ _ _ L1 ltac:(lia) A1). app_simpl.
  rewrite run_scan_char.
  rewrite (run_scan_hex 2 _ _ _ _ L2 ltac:(lia) A2). app_simpl.
  rewrite run_scan_char.
  rewrite (run_scan_hex 2 _ _ _ _ L3 ltac:(lia) A3). app_simpl.
  rewrite run_scan_char.
  rewrite (run_scan_dec _ _ D4 "-" _ _ N4 A4 eq_refl).
  rewrite !run_scan_char.
  rewrite (run_scan_hex 4 _ _ _ _ L5 ltac:(lia) A5). app_simpl.
  rewrite !run_scan_char.
  rewrite (run_scan_hex 4 _ _ _ _ L6 ltac:(lia) A6).
  cbn [run_scan app scan_result length Nat.eqb andb].
  rewrite V1, V2, V3, V4, V5, V6.
  rewrite !strtoul_small by (eapply hex_fits_small; [|eassumption]; lia).
  rewrite !strtol_abs by (apply to_int_range).
  reflexivity.
Qed.

(** With no [%] in the name of the directory the format is one of the
    model. *)
Lemma sscanf_any_plain os dir input :
  allb plain_char dir = true ->
  sscanf_any os input (dir +:+ "/" +:+ marker_pattern) 6 =
  sscanf input (dir +:+ "/" +:+ marker_pattern) 6.
Proof.
  intros Hdir. unfold sscanf_any.
  now rewrite (parse_format_plain dir _ Hdir), marker_directives.
Qed.

(** A store of a card followed by the increment appends the card to the
    devices. *)
Lemma devices_append g d g1 :
  gpus_wf g -> nr_cards g < MAX_NR_CARDS ->
  store_card g (Some d) = Ok g1 ->
  devices (incr_cards g1) = devices g ++ [d].
Proof.
  intros Hwf Hn Hs. pose proof Hwf as (Hl & Hcap & Hc).
  pose proof (store_incr_wf g d g1 Hwf Hs) as Hwf'.
  destruct (devices_wf g Hwf) as [Hdl Hds].
  destruct (devices_wf _ Hwf') as [Hdl' Hds'].
  destruct (store_card_keeps _ _ _ Hs) as [Hnr Hk].
  assert (card (incr_cards g1) (nr_cards g) = Some d) as Hlast.
  { revert Hs. unfold store_card. rewrite in_range_true by lia.
    intros H. inversion H; subst. unfold incr_cards. cbn [cards nr_cards].
    pose proof (card_insert_eq (cards g) (nr_cards g + 1) d
                  (Z.to_nat (nr_cards g))) as Hx.
    rewrite Z2Nat.id in Hx by lia. apply Hx; [|exact Hn].
    rewrite Hl. unfold MAX_NR_CARDS in Hn. lia. }
  apply list_eq. intros n.
  destruct (Nat.lt_trichotomy n (Z.to_nat (nr_cards g))) as [Hlt|[->|Hgt]].
  - rewrite lookup_app_l by lia.
    destruct (lookup_lt_is_Some_2 (devices g) n ltac:(lia)) as [x Hx].
    rewrite Hx. apply Hds'. apply Hds in Hx as [Hx1 Hx2].
    split; [cbn [incr_cards nr_cards]; lia|].
    unfold incr_cards, card, card_ptr. cbn [cards].
    rewrite <- Hx2. apply (Hk _ Hx1).
  - rewrite lookup_app_r by lia. rewrite Hdl, Nat.sub_diag.
    cbn [lookup list_lookup]. apply Hds'. rewrite Z2Nat.id by lia.
    split; [cbn [incr_cards nr_cards]; lia|exact Hlast].
  - rewrite !lookup_ge_None_2; [reflexivity| |].
    + rewrite length_app, Hdl. cbn [length]. lia.
    + rewrite Hdl'. cbn [incr_cards nr_cards]. lia.
Qed.

(** [add_gpu_from_file] on the marker of a card, below the cap: the
    card is appended with the address and the ids that the name of the
    marker gives and with unknown outputs; its boot flag is whatever the
    fresh block of memory held, and the cards before it stay. *)
Theorem add_gpu_from_file_marker os dir d g st blk :
  allb plain_char dir = true ->
  (String.length (dir +:+ "/" +:+ marker_pattern) < PATH_MAX)%nat ->
  persistable d ->
  os_malloc os (nalloc st) = Some blk ->
  gpus_wf g -> nr_cards g < MAX_NR_CARDS ->
  exists g',
    result (add_gpu_from_file os (dir +:+ "/" +:+ marker_file d) dir g st) = Ok g' /\
    gpus_wf g' /\ nr_cards g' = nr_cards g + 1 /\
    devices g' =
      devices g ++
      [mkDevice (boot_vga blk) (vendor_id d) (device_id d) (domain d) (bus d)
                (dev d) (func d) (-1)].
Proof.
  intros Hdir Hlen Hp Hm Hwf Hn. unfold add_gpu_from_file.
  rewrite result_bind, result_malloc, Hm.
  replace (PATH_MAX <=? _)%nat with false
    by (symmetry; apply Nat.leb_gt; exact Hlen).
  rewrite (sscanf_any_plain os dir _ Hdir), (sscanf_marker dir d Hdir Hp).
  change ((6 =? EOF) || negb (6 =? 6)) with false. cbv iota.
  unfold stored. cbn [lookup list_lookup default]. unfold id.
  destruct Hp as (_ & _ & _ & _ & _ & Hf & _).
  rewrite (to_uint_to_int _ Hf).
  set (d' := mkDevice _ _ _ _ _ _ _ _).
  pose proof Hwf as (_ & Hcap & _).
  destruct (store_card_below g (Some d') ltac:(lia)) as (g1 & Hs & Hnr).
  rewrite result_bind, result_lift, Hs. cbn [ret result fst].
  exists (incr_cards g1).
  split; [reflexivity|]. split; [exact (store_incr_wf g d' g1 Hwf Hs)|].
  split; [cbn [incr_cards nr_cards]; lia|].
  exact (devices_append g d' g1 Hwf Hn Hs).
Qed.

Lemma add_gpu_from_file_marker_witness :
  exists g',
    result (add_gpu_from_file os_busy ("/run" +:+ "/" +:+ marker_file nvidia_card)
              "/run" one_card st_fresh) = Ok g' /\
    gpus_wf g' /\ nr_cards g' = nr_cards one_card + 1 /\
    devices g' =
      devices one_card ++
      [mkDevice (boot_vga zero_device) (vendor_id nvidia_card)
         (device_id nvidia_card) (domain nvidia_card) (bus nvidia_card)
         (dev nvidia_card) (func nvidia_card) (-1)].
Proof.
  apply (add_gpu_from_file_marker os_busy "/run" nvidia_card one_card st_fresh
           zero_device).
  - reflexivity.
  - vm_compute. lia.
  - apply persistableb_ok. reflexivity.
  - reflexivity.
  - apply gpus_wfb_wf. reflexivity.
  - vm_compute. reflexivity.
Defined.

(** ** The enumeration of the devices *)







(** ** Runs that stop early *)

Lemma detect_devices_without_pci cfg os st :
  fake_lspci_file cfg = None ->
  os_pci_init os <> 0 \/ os_pci_iter os = false ->
  detect_devices cfg os st = (Ok None, st, []).
Proof.
  intros Hfake Hpci. unfold detect_devices, get_current_devices. rewrite Hfake.
  destruct (os_pci_init os =? 0) eqn:Hi; cbn [negb].
  - destruct Hpci as [Hpci|Hpci]; [apply Z.eqb_eq in Hi; contradiction|].
    rewrite Hpci. cbn [negb]. rewrite bind_ret. cbn [fst].
    reflexivity.
  - rewrite bind_ret. cbn [fst].
    replace (negb (- os_pci_init os =? 0)) with true; [reflexivity|].
    symmetry. apply negb_true_iff, Z.eqb_neq. apply Z.eqb_neq in Hi. lia.
Qed.

(** When the devices of the bus cannot be enumerated ([pci_system_init]
    fails or gives no iterator), [main] does nothing: no file is
    written or removed and no command is run. *)
Theorem main_without_pci cfg os fuel st :
  fake_lspci_file cfg = None ->
  os_pci_init os <> 0 \/ os_pci_iter os = false ->
  events (main cfg os fuel st) = [] /\ final (main cfg os fuel st) = st.
Proof.
  intros Hfake Hpci. unfold main.
  destruct (ro_gather_facts cfg os st) as [Hf He].
  rewrite events_bind, final_bind, He, Hf.
  destruct (result (gather_facts cfg os st)) as [f| |]; [|auto..].
  rewrite run_bind, (detect_devices_without_pci cfg os st Hfake Hpci).
  split; reflexivity.
Qed.

Definition os_no_pci : OS :=
  mkOS ∅ ∅ ∅ (fun _ _ => (0, id)) (fun _ _ => None)
    (fun _ => Some zero_device) (fun _ => -1) (fun _ => None)
    1 true [intel_pci] (Some "5.4.0-42-generic") (fun _ => None) (fun _ _ _ => None).

Lemma main_without_pci_witness :
  events (main cfg_default os_no_pci 2 st_optimus) = [] /\
  final (main cfg_default os_no_pci 2 st_optimus) = st_optimus.
Proof.
  apply main_without_pci; [reflexivity|]. left. cbn. lia.
Defined.

Lemma write_data_to_file_readonly os filename g st :
  filename ∈ os_readonly os ->
  write_data_to_file os filename g st = (Ok false, st, [EvWriteData filename g]).
Proof.
  intros Hro. unfold write_data_to_file, bind, emit, fopen_w.
  destruct (decide (filename ∈ os_readonly os)); [reflexivity|contradiction].
Qed.

Lemma events_unlink os path st : events (unlink os path st) = [EvUnlink path].
Proof.
  unfold unlink. destruct (files st !! path); [destruct (decide _)|];
    reflexivity.
Qed.

(** ** The files that an early end of [main] leaves *)

(** The computation leaves every file as it was. *)
Definition keeps_files {A} (m : M A) : Prop :=
  forall st, files (final (m st)) = files st.

Lemma kf_ret {A} (a : A) : keeps_files (ret a).
Proof. intros st. reflexivity. Qed.

Lemma kf_lift {A} (r : res A) : keeps_files (lift r).
Proof. intros st. reflexivity. Qed.

Lemma kf_get : keeps_files get.
Proof. intros st. reflexivity. Qed.

Lemma kf_malloc os : keeps_files (malloc os).
Proof. intros st. reflexivity. Qed.

Lemma kf_bind {A B} (m : M A) (k : A -> M B) :
  keeps_files m -> (forall a, keeps_files (k a)) -> keeps_files (bind m k).
Proof.
  intros Hm Hk st. rewrite final_bind.
  destruct (result (m st)); [rewrite Hk|..]; apply Hm.
Qed.

Ltac kf :=
  repeat first
    [ apply kf_ret | apply kf_lift | apply kf_get | apply kf_malloc
    | apply kf_bind; [|intros ?]
    | match goal with
      | |- keeps_files (if ?b then _ else _) => destruct b
      | |- keeps_files (match ?x with _ => _ end) => destruct x
      end ].

Lemma kf_has_driver_connected_outputs os driver :
  keeps_files (has_driver_connected_outputs os driver).
Proof. unfold has_driver_connected_outputs. kf. Qed.

Lemma kf_get_current_devices_loop os infos a r n i : forall g,
  keeps_files (get_current_devices_loop os infos g a r n i).
Proof.
  induction infos as [|info rest IH]; intros g; cbn [get_current_devices_loop];
    [apply kf_ret|].
  destruct (is_display_controller info); [|apply IH].
  destruct (is_device_pci_passthrough os info); [apply IH|].
  destruct (_ <=? _); [apply kf_ret|].
  apply kf_bind; [apply kf_malloc|]. intros [blk|]; [|apply kf_ret].
  apply kf_bind; [apply kf_lift|]. intros g'. apply IH.
Qed.

Lemma kf_get_current_devices os g : keeps_files (get_current_devices os g).
Proof.
  unfold get_current_devices.
  destruct (negb (os_pci_init os =? 0)); [apply kf_ret|].
  destruct (negb (os_pci_iter os)); [apply kf_ret|].
  repeat (apply kf_bind;
          [first [apply kf_has_driver_connected_outputs
                 |apply kf_get_current_devices_loop]|intros ?]).
  destruct (negb _); apply kf_ret.
Qed.

(** [read_data_from_file] leaves the files as they were, or creates the
    file that was missing, with the line of zeros. *)
Lemma read_data_from_file_files os filename g st :
  let st' := final (read_data_from_file os filename g st) in
  files st' = files st \/
  files st !! filename = None /\
  files st' = <[filename := card_line zero_device]> (files st).
Proof.
  cbv zeta. unfold read_data_from_file. rewrite bind_get.
  destruct (fopen_r filename st) as [text|] eqn:Hopen.
  - left. rewrite final_bind.
    destruct (result (read_data_loop _ _ _ _ _)); cbn [ret final fst snd];
      apply read_data_loop_files.
  - unfold fopen_w. rewrite run_bind.
    destruct (decide (filename ∈ os_readonly os)); cbn [ret final fst snd];
      [now left|].
    right. split; [exact Hopen|].
    rewrite run_bind. cbn [fwrite final fst snd files]. rewrite bind_get.
    cbn [files]. rewrite lookup_insert_eq. cbn [default]. unfold id.
    rewrite append_nil_l, insert_insert_eq. unfold fopen_r. cbn [files].
    rewrite lookup_insert_eq. rewrite final_bind.
    destruct (result (read_data_loop _ _ _ _ _)); cbn [ret final fst snd];
      rewrite read_data_loop_files; reflexivity.
Qed.

Lemma detect_devices_files cfg os st :
  let st' := final (detect_devices cfg os st) in
  files st' = files st \/
  exists file,
    fake_lspci_file cfg = Some file /\ files st !! file = None /\
    files st' = <[file := card_line zero_device]> (files st).
Proof.
  cbv zeta. unfold detect_devices. destruct (fake_lspci_file cfg) as [file|].
  - rewrite final_bind.
    assert (forall r : Z * gpus,
              keeps_files (if fst r =? 0 then ret None
                           else g <- lift (set_fake_outputs (snd r) 0
                                             (Z.to_nat (nr_cards (snd r)))) ;;
                                ret (Some (g, fake_offloading cfg)))) as Hk
      by (intros r; kf).
    destruct (read_data_from_file_files os file gpus_zero st) as [H|[Hn H]].
    + left. destruct (result _) as [r| |]; [rewrite Hk|..]; exact H.
    + right. exists file. split; [reflexivity|]. split; [exact Hn|].
      destruct (result _) as [r| |]; [rewrite Hk|..]; exact H.
  - left. revert st.
    change (keeps_files
              (r <- get_current_devices os gpus_zero ;;
               if negb (fst r =? 0) then ret None
               else offloading <- lift (requires_offloading (snd r)) ;;
                    ret (Some (snd r, offloading)))).
    apply kf_bind; [apply kf_get_current_devices|]. intros r. kf.
Qed.

(** What may have happened to the file [p], which held [fs !! p], when
    [main] ends before its policy: nothing; or it is the offloading file
    and was removed; or it is the last-boot file, or the fake list of
    devices, it did not exist (or was the offloading file, removed in
    between) and was created with the line of zeros. *)
Definition early_change (cfg : config) (fs : gmap string string) (p : string)
    (v : option string) : Prop :=
  v = fs !! p \/
  (p = OFFLOADING_CONF /\ v = None) \/
  ((p = last_boot_file cfg \/ fake_lspci_file cfg = Some p) /\
   (fs !! p = None \/ p = OFFLOADING_CONF) /\
   v = Some (card_line zero_device)).

Definition early (cfg : config) (fs : gmap string string) (st : State) : Prop :=
  forall p, early_change cfg fs p (files st !! p).

Lemma early_keeps cfg fs st st' :
  files st' = files st -> early cfg fs st -> early cfg fs st'.
Proof. intros H He p. rewrite H. apply He. Qed.

Lemma early_create cfg fs st st' file :
  last_boot_file cfg = file \/ fake_lspci_file cfg = Some file ->
  files st !! file = None ->
  files st' = <[file := card_line zero_device]> (files st) ->
  early cfg fs st -> early cfg fs st'.
Proof.
  intros Hfile Hnone H He p. rewrite H.
  destruct (decide (p = file)) as [->|Hne].
  - rewrite lookup_insert_eq. right. right.
    split; [destruct Hfile as [<-|Hf]; auto|]. split; [|reflexivity].
    destruct (He file) as [Hp|[[Hp _]|(_ & _ & Hp)]]; [|now right|congruence].
    left. congruence.
  - rewrite lookup_insert_ne by congruence. apply He.
Qed.

Lemma early_unlink cfg os fs st :
  early cfg fs st -> early cfg fs (final (unlink os OFFLOADING_CONF st)).
Proof.
  intros He. unfold unlink.
  destruct (files st !! OFFLOADING_CONF); [|exact He].
  destruct (decide _); [exact He|]. cbn [final fst snd]. intros p. cbn [files].
  destruct (decide (p = OFFLOADING_CONF)) as [->|Hne].
  - rewrite lookup_delete_eq. right. left. auto.
  - rewrite lookup_delete_ne by congruence. apply He.
Qed.

Lemma early_read cfg os fs g st :
  early cfg fs st ->
  early cfg fs (final (read_data_from_file os (last_boot_file cfg) g st)).
Proof.
  intros He.
  destruct (read_data_from_file_files os (last_boot_file cfg) g st)
    as [H|[Hn H]].
  - exact (early_keeps _ _ _ _ H He).
  - eapply early_create; [left; reflexivity|exact Hn|exact H|exact He].
Qed.

Lemma early_detect cfg os st :
  early cfg (files st) (final (detect_devices cfg os st)).
Proof.
  assert (early cfg (files st) st) as He by (intros p; now left).
  destruct (detect_devices_files cfg os st) as [H|(file & Hf & Hn & H)].
  - exact (early_keeps _ _ _ _ H He).
  - eapply early_create; [right; exact Hf|exact Hn|exact H|exact He].
Qed.

Lemma early_bind cfg fs {A B} (m : M A) (k : A -> M B) st :
  early cfg fs (final (m st)) ->
  (forall a, result (m st) = Ok a -> early cfg fs (final (k a (final (m st))))) ->
  early cfg fs (final (bind m k st)).
Proof.
  intros Hm Hk. rewrite final_bind.
  destruct (result (m st)) as [a| |]; [now apply Hk|exact Hm..].
Qed.


(** The run of [main] up to the point where the state file is written:
    it has ended, or the rest of [main] runs from a state [st3]. *)
Lemma main_until_write cfg os fuel st (P : State -> Prop) :
  (forall s, early cfg (files st) s -> P s) ->
  (forall f cur off (r : Z * gpus) st3,
     result (detect_devices cfg os st) = Ok (Some (cur, off)) ->
     early cfg (files st) st3 ->
     P (final
          ((written <- write_data_to_file os (new_boot_file cfg) cur ;;
            if negb written then ret tt
            else
              has_changed <- lift (has_system_changed (snd r) cur) ;;
              boot <- lift (get_boot_vga cur) ;;
              match boot with
              | None => ret tt
              | Some boot_device =>
                  apply_policy cfg os fuel f off has_changed cur boot_device
              end) st3))) ->
  P (final (main cfg os fuel st)).
Proof.
  intros Hearly Hrest. unfold main. rewrite final_bind.
  destruct (ro_gather_facts cfg os st) as [Hf _]. rewrite Hf.
  assert (early cfg (files st) st) as He0 by (intros p; now left).
  destruct (result (gather_facts cfg os st)) as [f| |]; [|now apply Hearly..].
  rewrite final_bind. pose proof (early_detect cfg os st) as H1.
  destruct (result (detect_devices cfg os st)) as [[[cur off]|]| |] eqn:Hd;
    [|now apply Hearly..].
  set (st1 := final (detect_devices cfg os st)) in *.
  rewrite final_bind.
  set (u := if negb off && negb (dry_run cfg)
            then unlink os OFFLOADING_CONF;;; ret tt else ret tt).
  assert (early cfg (files st) (final (u st1))) as H2.
  { subst u. destruct (_ && _); [|exact H1].
    rewrite final_bind. pose proof (early_unlink cfg os _ _ H1) as Hu.
    destruct (result (unlink os OFFLOADING_CONF st1)); exact Hu. }
  destruct (result (u st1)) as [[]| |]; [|now apply Hearly..].
  set (st2 := final (u st1)) in *.
  rewrite final_bind. pose proof (early_read cfg os _ gpus_zero _ H2) as H3.
  destruct (result (read_data_from_file os (last_boot_file cfg) gpus_zero st2))
    as [r| |]; [|now apply Hearly..].
  destruct (fst r =? 0); [now apply Hearly|].
  now apply (Hrest f cur off r).
Qed.


(** When the new-boot file cannot be written, [main] stops there: all
    it has done is to remove the offloading file, where no offloading
    is required, and to attempt the write; no marker is looked for, no
    module is loaded or unloaded, no session is killed and no command is
    run.  Of the files, only the offloading file can be gone, and only
    the last-boot file and the fake list of devices can be new (they
    are created, with the line of zeros, when they are missing); no Xorg
    file, settings file or power control has changed. *)
Theorem main_stops_when_write_fails cfg os fuel st :
  new_boot_file cfg ∈ os_readonly os ->
  let run := main cfg os fuel st in
  Forall (fun e => e = EvUnlink OFFLOADING_CONF \/
                   exists g, e = EvWriteData (new_boot_file cfg) g)
         (events run) /\
  forall p, early_change cfg (files st) p (files (final run) !! p).
Proof.
  intros Hro. cbv zeta. split.
  2:{ apply (main_until_write cfg os fuel st (early cfg (files st)));
        [auto|].
      intros f cur off r st3 _ H3.
      rewrite run_bind, (write_data_to_file_readonly os _ cur st3 Hro).
      exact H3. }
  unfold main. rewrite events_bind.
  destruct (ro_gather_facts cfg os st) as [Hf He]. rewrite He, Hf. cbn [app].
  destruct (result (gather_facts cfg os st)) as [f| |]; [|constructor..].
  rewrite events_bind, (only_nil _ (eo_detect_devices cfg os st)). cbn [app].
  destruct (result (detect_devices cfg os st)) as [[[cur off]|]| |];
    [|constructor..].
  generalize (final (detect_devices cfg os st)). intros st1.
  rewrite events_bind. apply Forall_app. split.
  { destruct (_ && _); [|constructor].
    rewrite events_bind, events_unlink.
    apply Forall_app. split; [repeat constructor|].
    destruct (result _); constructor. }
  match goal with
  | |- context [result (?m st1)] =>
      generalize (final (m st1)); intros st2;
      destruct (result (m st1)) as [[]| |]; [|constructor..]
  end.
  rewrite events_bind, (only_nil _ (eo_read_data_from_file os _ _ st2)).
  cbn [app].
  generalize (final (read_data_from_file os (last_boot_file cfg) gpus_zero st2)).
  intros st3.
  destruct (result (read_data_from_file os (last_boot_file cfg) gpus_zero st2))
    as [r| |]; [|constructor..].
  destruct (fst r =? 0); [constructor|].
  rewrite run_bind, (write_data_to_file_readonly os _ cur st3 Hro).
  cbn [negb ret result final events fst snd app].
  constructor; [|constructor]. right. now exists cur.
Qed.

Definition cfg_new_boot : config :=
  mkConfig LAST_BOOT "/etc/new_gfx_boot" None None "/run"
    AMDGPU_PRO_PX "/etc/modprobe.d" "/usr/share/X11/xorg.conf.d"
    "/etc/prime-discrete" false false false false.

Definition os_readonly_etc : OS :=
  mkOS ∅ ∅ {["/etc/new_gfx_boot"]} (fun _ _ => (0, id))
    (fun _ _ => None) (fun _ => Some zero_device) (fun _ => -1)
    (fun _ => None) 0 true [intel_pci] None (fun _ => None)
    (fun _ _ _ => None).

Lemma main_stops_when_write_fails_witness :
  let run := main cfg_new_boot os_readonly_etc 2 st_optimus in
  Forall (fun e => e = EvUnlink OFFLOADING_CONF \/
                   exists g, e = EvWriteData "/etc/new_gfx_boot" g)
         (events run) /\
  forall p, early_change cfg_new_boot (files st_optimus) p
              (files (final run) !! p).
Proof.
  apply (main_stops_when_write_fails cfg_new_boot os_readonly_etc 2 st_optimus).
  cbn [new_boot_file cfg_new_boot os_readonly os_readonly_etc].
  apply elem_of_singleton. reflexivity.
Defined.


(** ** Dry runs *)

Section DryRun.

Variables (cfg : config) (os : OS).
Hypothesis Hdry : dry_run cfg = true.

Definition dry_kinds : list kind :=
  [KUnlink; KWrite; KFind; KUnload; KKill; KPower; KRemove].

Lemma eo_dry_act_upon module mode params :
  emits_only [] (act_upon_module_with_params cfg os module mode params).
Proof. unfold act_upon_module_with_params. rewrite Hdry. eo. Qed.

Lemma eo_dry_unload_nvidia : emits_only [KUnload] (unload_nvidia cfg os).
Proof.
  unfold unload_nvidia, unload_module.
  repeat (apply eo_bind; [|intros _]); try (eo_by eo_dry_act_upon). eo.
Qed.

Lemma eo_dry_kill : emits_only [KKill] (kill_main_display_session cfg os).
Proof. unfold kill_main_display_session. rewrite Hdry. eo. Qed.

Lemma eo_dry_ensure_nvidia_loaded : emits_only [] (ensure_nvidia_loaded cfg os).
Proof.
  unfold ensure_nvidia_loaded, load_module, load_module_with_params.
  apply eo_bind; [eo|]. intros st. apply eo_bind; [eo|]. intros [|].
  - eo.
  - apply eo_bind; [apply eo_dry_act_upon|eo].
Qed.

Lemma eo_dry_unload_again fuel d tries :
  emits_only dry_kinds (unload_again cfg os fuel d tries).
Proof.
  revert tries. induction fuel as [|fuel IH]; intros tries; cbn [unload_again].
  - eo.
  - apply eo_bind; [eo|]. intros st. apply eo_bind; [eo|]. intros [|].
    + apply eo_bind; [eo_by eo_dry_unload_nvidia|]. intros status.
      apply eo_bind; [eo|]. intros st'. apply eo_bind; [eo|]. intros still.
      destruct (negb status && still).
      * destruct (tries =? 0); [|eo].
        apply eo_bind; [eo_by eo_dry_kill|]. intros [|]; [apply IH|].
        apply eo_bind; [eo_by eo_enable_power|eo].
      * apply eo_bind; [eo_by eo_enable_power|eo].
    + apply eo_bind; [eo_by eo_enable_power|eo].
Qed.

Lemma eo_dry_enable_prime fuel path d :
  emits_only dry_kinds (enable_prime cfg os fuel path d).
Proof.
  unfold enable_prime. apply eo_bind; [eo|]. intros st.
  apply eo_bind.
  { destruct (negb _); [eo_by eo_create_prime_settings|eo]. }
  intros settings. destruct (negb settings); [eo|].
  apply eo_bind; [eo|]. intros st'. destruct (get_prime_action path st').
  - unfold prime_on, remove_offload_serverlayout.
    apply eo_bind; [eo_by eo_create_prime_outputclass|]. intros _.
    apply eo_bind; [eo_by eo_remove_xorg|]. intros _.
    apply eo_bind; [eo_by eo_disable_power|]. intros _.
    apply eo_bind; [eo_by eo_dry_ensure_nvidia_loaded|]. eo.
  - unfold prime_off, remove_prime_outputclass, remove_offload_serverlayout.
    apply eo_bind; [eo_by eo_remove_xorg|]. intros _.
    apply eo_bind; [eo_by eo_remove_xorg|]. intros _.
    apply eo_dry_unload_again.
  - unfold prime_ondemand, remove_prime_outputclass.
    apply eo_bind; [eo_by eo_create_offload_serverlayout|]. intros _.
    apply eo_bind; [eo_by eo_remove_xorg|]. intros _.
    apply eo_bind; [eo_by eo_enable_power|]. intros _.
    apply eo_bind; [eo_by eo_dry_ensure_nvidia_loaded|]. eo.
Qed.

Lemma eo_dry_try_enable_prime fuel d :
  emits_only dry_kinds (try_enable_prime cfg os fuel d).
Proof.
  unfold try_enable_prime. apply eo_bind; [apply eo_dry_enable_prime|].
  intros [|]; [|eo]. apply eo_bind; [eo_by eo_set_offloading|eo].
Qed.

Lemma eo_dry_run_amdgpu_pro_px action :
  emits_only [] (run_amdgpu_pro_px cfg os action).
Proof. unfold run_amdgpu_pro_px. rewrite Hdry. eo. Qed.

Lemma eo_dry_apply_policy fuel f offloading has_changed cur boot :
  emits_only dry_kinds
    (apply_policy cfg os fuel f offloading has_changed cur boot).
Proof.
  unfold apply_policy. destruct (nr_cards cur =? 1).
  - destruct (vendor_id boot =? INTEL).
    + destruct (offloading && nvidia_unloaded f); [|eo].
      apply eo_bind.
      { intros st. rewrite events_find_disabled_cards. reflexivity. }
      intros g. apply eo_bind; [eo|].
      intros [d|]; [apply eo_dry_try_enable_prime|eo].
    + destruct (vendor_id boot =? AMD).
      * destruct (_ && _); [|eo].
        apply eo_bind; [eo_by eo_dry_run_amdgpu_pro_px|eo].
      * destruct (vendor_id boot =? NVIDIA); [|eo].
        apply eo_bind; [eo_by eo_remove_xorg|eo].
  - destruct (1 <? nr_cards cur); [|eo].
    apply eo_bind; [eo|]. intros [d|]; [|eo].
    destruct (vendor_id boot =? INTEL); [|eo].
    destruct (_ && _).
    + apply eo_bind; [eo_by eo_dry_run_amdgpu_pro_px|eo].
    + destruct (_ && _); [apply eo_dry_try_enable_prime|eo].
Qed.

Lemma eo_dry_main fuel : emits_only [KWrite; KFind; KUnload; KKill; KPower; KRemove; KUnlink] (main cfg os fuel).
Proof.
  unfold main. apply eo_bind.
  { intros st. destruct (ro_gather_facts cfg os st) as [_ ->]. reflexivity. }
  intros f. apply eo_bind; [eo_by eo_detect_devices|].
  intros [[cur off]|]; [|eo].
  apply eo_bind.
  { rewrite Hdry, andb_false_r. eo. }
  intros _. apply eo_bind; [eo_by eo_read_data_from_file|]. intros r.
  destruct (fst r =? 0); [eo|].
  apply eo_bind.
  { intros st. rewrite events_write_data_to_file. reflexivity. }
  intros [|]; cbn [negb]; [|eo].
  apply eo_bind; [eo|]. intros ch. apply eo_bind; [eo|].
  intros [boot|]; [|eo]. eo_by eo_dry_apply_policy.
Qed.

End DryRun.

(** In a dry run [main] never calls [system]: no module is loaded or
    unloaded by [modprobe] or [rmmod], no process is killed and the
    helper of amdgpu-pro is not called. *)
Theorem dry_run_runs_no_command cfg os fuel st command :
  dry_run cfg = true ->
  ~ In (EvSystem command) (events (main cfg os fuel st)).
Proof.
  intros Hdry Hin.
  apply (only_in _ _ _ (eo_dry_main cfg os Hdry fuel st)) in Hin.
  discriminate.
Qed.

Definition cfg_dry : config :=
  mkConfig LAST_BOOT LAST_BOOT None None "/run" AMDGPU_PRO_PX
    "/etc/modprobe.d" "/usr/share/X11/xorg.conf.d" "/etc/prime-discrete"
    true false false false.

Lemma dry_run_runs_no_command_witness :
  ~ In (EvSystem "/sbin/modprobe nvidia")
       (events (main cfg_dry (os_optimus [marker "01"]) 2 st_optimus)).
Proof.
  apply dry_run_runs_no_command. reflexivity.
Defined.

(** ** Removing a generated Xorg file *)

(** [remove_xorg_d_custom_file] returns 0 exactly when the file was
    there and could be removed, and then the file is gone and no other
    file has changed; otherwise it returns a negative number, [-ENOENT]
    when there was no file, and nothing has changed. *)
Theorem remove_xorg_d_custom_file_spec cfg os name st :
  let path := xorg_d_file cfg name in
  let run := remove_xorg_d_custom_file cfg os name st in
  exists r,
    result run = Ok r /\ r <= 0 /\
    (r = 0 <-> is_Some (files st !! path) /\ path ∉ os_readonly os) /\
    (r = 0 -> files (final run) = delete path (files st) /\
              files (final run) !! path = None) /\
    (r <> 0 -> final run = st) /\
    (files st !! path = None -> r = - ENOENT).
Proof.
  cbv zeta. unfold remove_xorg_d_custom_file.
  rewrite run_bind. cbn [emit result final events fst snd].
  rewrite bind_get. unfold stat_size.
  destruct (files st !! xorg_d_file cfg name) as [text|] eqn:Hf;
    cbn [fmap option_fmap option_map].
  - rewrite run_bind. unfold unlink. rewrite Hf.
    destruct (decide (xorg_d_file cfg name ∈ os_readonly os)) as [Hro|Hro];
      cbn [result final events fst snd].
    + change (-1 =? 0) with false. cbn [ret result final fst snd].
      exists (- EACCES). split; [reflexivity|]. split; [unfold EACCES; lia|].
      split; [split; [discriminate|intros [_ H]; contradiction]|].
      split; [discriminate|]. split; [reflexivity|discriminate].
    + change (0 =? 0) with true. cbn [ret result final fst snd files].
      exists 0. split; [reflexivity|]. split; [lia|].
      split; [split; [intros _; split; [eauto|exact Hro]|reflexivity]|].
      split; [intros _; split; [reflexivity|apply lookup_delete_eq]|].
      split; [contradiction|discriminate].
  - cbn [ret result final fst snd]. exists (- ENOENT).
    split; [reflexivity|]. split; [unfold ENOENT; lia|].
    split; [split; [discriminate|intros [[x Hx] _]; discriminate]|].
    split; [discriminate|]. split; reflexivity.
Qed.

(** ** Killing the display session *)

(** Outside of a dry run, [kill_main_display_session] runs one command
    at most, [kill -KILL] on a positive process id: the one found for
    Xwayland or, when none was found, the one found for Xorg.  Without
    such an id it runs nothing, changes nothing and returns false. *)
Theorem kill_main_display_session_spec cfg os st :
  dry_run cfg = false ->
  let run := kill_main_display_session cfg os st in
  let wayland := get_gdm_session_pid os "Xwayland" st in
  let xorg := get_gdm_session_pid os "Xorg" st in
  let pid := if wayland <=? 0 then xorg else wayland in
  (pid <= 0 ->
   result run = Ok false /\ final run = st /\ events run = [EvKillSession]) /\
  (0 < pid ->
   let command := snprintf 100 ("kill -KILL " +:+ fmt_ld pid) in
   events run = [EvKillSession; EvSystem command] /\
   result run = Ok (fst (os_system os (nexec st) command) =? 0)).
Proof.
  intros Hdry. cbv zeta. unfold kill_main_display_session.
  rewrite run_bind. cbn [emit result final events fst snd].
  rewrite Hdry, bind_get.
  set (pid := if get_gdm_session_pid os "Xwayland" st <=? 0
              then get_gdm_session_pid os "Xorg" st
              else get_gdm_session_pid os "Xwayland" st).
  split; intros Hpid.
  - replace (pid <=? 0) with true by (symmetry; apply Z.leb_le; exact Hpid).
    repeat split.
  - replace (pid <=? 0) with false by (symmetry; apply Z.leb_gt; exact Hpid).
    rewrite run_bind. unfold system.
    cbn [ret result final events fst snd app]. split; reflexivity.
Qed.

Lemma kill_main_display_session_spec_witness :
  result (kill_main_display_session cfg_default os_headless st_busy) = Ok false /\
  final (kill_main_display_session cfg_default os_headless st_busy) = st_busy /\
  events (kill_main_display_session cfg_default os_headless st_busy) =
    [EvKillSession].
Proof.
  destruct (kill_main_display_session_spec cfg_default os_headless st_busy
              eq_refl) as [H _].
  apply H. vm_compute. discriminate.
Defined.

(** ** The owner of a process *)

Lemma substring_all s : forall n,
  (String.length s <= n)%nat -> String.substring 0 n s = s.
Proof.
  induction s as [|c r IH]; intros [|n] H; cbn in *; try reflexivity; try lia.
  f_equal. apply IH. lia.
Qed.

Lemma snprintf_short size s :
  (String.length s < size)%nat -> snprintf size s = s.
Proof. intros H. unfold snprintf. apply substring_all. lia. Qed.

Lemma fmt_ld_length v : (String.length (fmt_ld v) <= 21)%nat.
Proof.
  unfold fmt_ld. destruct (v <? 0).
  - rewrite length_append. pose proof (digits_of_length 10 20 (- v)).
    change (String.length "-") with 1%nat. lia.
  - pose proof (digits_of_length 10 20 v). lia.
Qed.

(** The path of the status file of a process. *)
Definition proc_status (pid : string) : string :=
  snprintf PATH_MAX ("/proc/" +:+ pid +:+ "/status").

(** The number that the status file of the process gives for its user:
    the one that [strtol] reads after [Uid:] on the last line that
    begins with it. *)
Definition status_uid (st : State) (pid : string) (uid : Z) : Prop :=
  exists text pre rest post,
    files st !! proc_status pid = Some text /\
    getlines text = pre ++ ("Uid:" +:+ rest) :: post /\
    (forall l, In l post -> ~ begins_with l "Uid:") /\
    uid = strtol10 rest.

(** [user] is what the line holds before its first colon. *)
Definition first_field (line user : string) : Prop :=
  (forall rest1 rest2, user <> rest1 +:+ ":" +:+ rest2) /\
  (line = user \/ exists rest, line = user +:+ ":" +:+ rest).

(** The name that the password file gives for the number: the first
    field of the first line in which the digits of the number occur,
    in whatever field and as a part of a longer number too. *)
Definition passwd_name (st : State) (uid : Z) (user : string) : Prop :=
  exists text pre line post,
    files st !! "/etc/passwd" = Some text /\
    getlines text = pre ++ line :: post /\
    (forall l, In l pre -> ~ icontains l (fmt_ld uid)) /\
    icontains line (fmt_ld uid) /\
    first_field line user.

(** The process is one of the display manager, as far as the program
    can tell. *)
Definition gdm_process (st : State) (pid : string) : Prop :=
  exists uid, 0 <= uid /\ status_uid st pid uid /\ passwd_name st uid "gdm".

Definition uid_line (line : string) : bool :=
  bool_decide (is_Some (istrstr line "Uid:")) && String.prefix "Uid:" line.

Lemma uid_line_spec line : uid_line line = true <-> begins_with line "Uid:".
Proof.
  unfold uid_line, begins_with. rewrite andb_true_iff, bool_decide_eq_true.
  rewrite istrstr_spec, prefix_spec. split; [tauto|].
  intros [rest ->]. split; [|now exists rest].
  exists "", "Uid:", rest. auto.
Qed.

Lemma get_uid_loop_none lines : forall u0,
  (forall l, In l lines -> ~ begins_with l "Uid:") ->
  get_uid_loop lines u0 = u0.
Proof.
  induction lines as [|l lines IH]; intros u0 H; cbn [get_uid_loop];
    [reflexivity|].
  fold (uid_line l). destruct (uid_line l) eqn:Hl.
  - apply uid_line_spec in Hl. destruct (H l (or_introl eq_refl) Hl).
  - apply IH. intros x Hx. apply H. now right.
Qed.

Lemma get_uid_loop_uid rest lines u0 :
  get_uid_loop (("Uid:" +:+ rest) :: lines) u0 =
  get_uid_loop lines (strtol10 rest).
Proof.
  cbn [get_uid_loop]. fold (uid_line ("Uid:" +:+ rest)).
  replace (uid_line ("Uid:" +:+ rest)) with true
    by (symmetry; apply uid_line_spec; now exists rest).
  do 2 f_equal. rewrite length_append.
  change ("Uid:" +:+ rest) with (String "U" (String "i" (String "d" (String ":" rest)))).
  cbn [String.substring String.length Nat.add].
  apply substring_all. lia.
Qed.

Lemma get_uid_loop_app l1 : forall l2 u0,
  get_uid_loop (l1 ++ l2) u0 = get_uid_loop l2 (get_uid_loop l1 u0).
Proof.
  induction l1 as [|l l1 IH]; intros l2 u0; cbn [app get_uid_loop];
    [reflexivity|].
  destruct (_ && _); apply IH.
Qed.

(** The loop gives the number of the last line that begins with [Uid:],
    and what it started from when there is none. *)
Lemma get_uid_loop_last lines : forall u0,
  (exists pre rest post,
     lines = pre ++ ("Uid:" +:+ rest) :: post /\
     (forall l, In l post -> ~ begins_with l "Uid:") /\
     get_uid_loop lines u0 = strtol10 rest) \/
  ((forall l, In l lines -> ~ begins_with l "Uid:") /\
   get_uid_loop lines u0 = u0).
Proof.
  induction lines as [|l lines IH]; intros u0.
  - right. split; [intros l []|reflexivity].
  - destruct (uid_line l) eqn:Hl.
    + apply uid_line_spec in Hl as [rest ->]. left.
      rewrite get_uid_loop_uid.
      destruct (IH (strtol10 rest)) as [(pre & r & post & -> & Hp & Hr)|[Hn Hr]].
      * exists (("Uid:" +:+ rest) :: pre), r, post. auto.
      * exists [], rest, lines. auto.
    + assert (~ begins_with l "Uid:") as Hnl
        by (intros H; apply uid_line_spec in H; congruence).
      cbn [get_uid_loop]. fold (uid_line l). rewrite Hl.
      destruct (IH u0) as [(pre & r & post & -> & Hp & Hr)|[Hn Hr]].
      * left. exists (l :: pre), r, post. auto.
      * right. split; [|exact Hr]. intros x [<-|Hx]; auto.
Qed.

Lemma get_uid_of_pid_spec pid st uid :
  status_uid st pid uid -> get_uid_of_pid pid st = uid.
Proof.
  intros (text & pre & rest & post & Hf & Hl & Hp & ->).
  unfold get_uid_of_pid, fopen_r. fold (proc_status pid). rewrite Hf, Hl.
  rewrite get_uid_loop_app, get_uid_loop_uid. now apply get_uid_loop_none.
Qed.

Lemma get_uid_of_pid_found pid st :
  0 <= get_uid_of_pid pid st -> status_uid st pid (get_uid_of_pid pid st).
Proof.
  unfold get_uid_of_pid, fopen_r, status_uid. fold (proc_status pid).
  destruct (files st !! proc_status pid) as [text|]; [|lia].
  destruct (get_uid_loop_last (getlines text) (-1))
    as [(pre & rest & post & Hl & Hp & Hr)|[_ Hr]]; rewrite Hr; [|lia].
  intros _. now exists text, pre, rest, post.
Qed.

Lemma first_field_spec line :
  first_field line (take_until (Ascii.eqb ":") line) /\
  forall user, first_field line user -> user = take_until (Ascii.eqb ":") line.
Proof.
  assert (forall user,
            (forall r1 r2, user <> r1 +:+ ":" +:+ r2) ->
            forall rest, take_until (Ascii.eqb ":") (user +:+ rest) =
                         user +:+ take_until (Ascii.eqb ":") rest) as Hno.
  { induction user as [|c user IH]; intros H rest; [reflexivity|].
    rewrite !append_cons. cbn [take_until].
    destruct (Ascii.eqb_spec ":" c) as [<-|Hc].
    - destruct (H "" user). reflexivity.
    - f_equal. apply IH. intros r1 r2 ->.
      apply (H (String c r1) r2). now rewrite append_cons. }
  split.
  - induction line as [|c r [IH1 IH2]].
    + split; [|now left]. intros [|] r2 H; discriminate.
    + cbn [take_until]. destruct (Ascii.eqb_spec ":" c) as [<-|Hc].
      * split; [intros [|] r2 H; discriminate|]. right. now exists r.
      * split.
        -- intros [|c1 r1] r2 H; rewrite ?append_cons in H; inversion H.
           ++ congruence.
           ++ now apply (IH1 r1 r2).
        -- destruct IH2 as [IH2|[rest IH2]]; [left|right; exists rest];
             rewrite append_cons || idtac; now f_equal.
  - intros user [Hu [->|[rest ->]]].
    + rewrite <- (append_nil_r user) at 2. rewrite (Hno _ Hu).
      cbn [take_until]. now rewrite append_nil_r.
    + rewrite (Hno _ Hu). rewrite append_cons. cbn [take_until].
      rewrite Ascii.eqb_refl. now rewrite append_nil_r.
Qed.

Lemma get_user_loop_spec lines pat user :
  get_user_loop lines pat = Some user <->
  exists pre line post,
    lines = pre ++ line :: post /\
    (forall l, In l pre -> ~ icontains l pat) /\
    icontains line pat /\ first_field line user.
Proof.
  induction lines as [|l lines IH]; cbn [get_user_loop].
  - split; [discriminate|]. intros (pre & line & post & H & _).
    destruct pre; discriminate.
  - destruct (bool_decide (is_Some (istrstr l pat))) eqn:Hb.
    + apply bool_decide_eq_true, istrstr_spec in Hb.
      assert (fst (strsep l ":") = take_until (Ascii.eqb ":") l) as ->
        by (unfold strsep; now destruct (drop_until _ _)).
      split.
      * intros H. inversion H. exists [], l, lines.
        split; [reflexivity|]. split; [intros ? []|]. split; [exact Hb|].
        apply first_field_spec.
      * intros (pre & line & post & Hl & Hpre & Hc & Hf).
        destruct pre as [|x pre]; cbn [app] in Hl; inversion Hl; subst.
        -- f_equal. symmetry. now apply first_field_spec.
        -- destruct (Hpre x (or_introl eq_refl) Hb).
    + apply bool_decide_eq_false in Hb. rewrite istrstr_spec in Hb.
      rewrite IH. split.
      * intros (pre & line & post & -> & Hpre & Hc & Hf).
        exists (l :: pre), line, post. split; [reflexivity|].
        split; [|auto]. intros x [<-|Hx]; [exact Hb|now apply Hpre].
      * intros (pre & line & post & Hl & Hpre & Hc & Hf).
        destruct pre as [|x pre]; cbn [app] in Hl; inversion Hl; subst.
        -- contradiction.
        -- exists pre, line, post. split; [reflexivity|]. split; [|auto].
           intros y Hy. apply Hpre. now right.
Qed.

Lemma get_user_from_uid_spec uid st user :
  get_user_from_uid uid st = Some user <-> passwd_name st uid user.
Proof.
  unfold get_user_from_uid, passwd_name, fopen_r.
  rewrite (snprintf_short PATH_MAX (fmt_ld uid))
    by (pose proof (fmt_ld_length uid); unfold PATH_MAX; lia).
  destruct (files st !! "/etc/passwd") as [text|].
  - rewrite get_user_loop_spec. split.
    + intros (pre & line & post & H). exists text, pre, line, post. tauto.
    + intros (text' & pre & line & post & Ht & H). inversion Ht; subst.
      now exists pre, line, post.
  - split; [discriminate|]. intros (text & pre & line & post & Ht & _).
    discriminate.
Qed.

Lemma gdm_process_spec st token :
  gdm_process st token <->
  0 <= get_uid_of_pid token st /\
  get_user_from_uid (get_uid_of_pid token st) st = Some "gdm".
Proof.
  split.
  - intros (uid & Hu & Hs & Hp). rewrite (get_uid_of_pid_spec _ _ _ Hs).
    split; [exact Hu|]. now apply get_user_from_uid_spec.
  - intros [Hu Hg]. exists (get_uid_of_pid token st). split; [exact Hu|].
    split; [now apply get_uid_of_pid_found|now apply get_user_from_uid_spec].
Qed.

(** [find_pid_main_session] gives the first process id of the list
    (the ids are separated by one space) that it takes for a process of
    the display manager, and -1 when it takes none for one.  It takes a
    process for one when the last [Uid:] line of [/proc/<pid>/status]
    gives a number that is not negative and the first line of
    [/etc/passwd] in which the digits of this number occur, in whatever
    field and inside a longer number too, has [gdm] as its first
    field: the user of the process need not be [gdm]. *)
Theorem find_pid_main_session_spec pid_str st :
  let pid := find_pid_main_session pid_str st in
  let tokens := strsep_all pid_str " " in
  (pid = -1 /\ forall token, In token tokens -> ~ gdm_process st token) \/
  exists pre token post,
    tokens = pre ++ token :: post /\
    (forall t, In t pre -> ~ gdm_process st t) /\
    gdm_process st token /\ pid = strtol10 token.
Proof.
  cbv zeta. unfold find_pid_main_session.
  induction (strsep_all pid_str " ") as [|token rest IH]; cbn [find_pid_loop].
  - left. split; [reflexivity|]. intros token [].
  - assert (~ gdm_process st token ->
            (find_pid_loop rest st = -1 /\
             forall t, In t (token :: rest) -> ~ gdm_process st t) \/
            exists pre t post,
              token :: rest = pre ++ t :: post /\
              (forall x, In x pre -> ~ gdm_process st x) /\
              gdm_process st t /\ find_pid_loop rest st = strtol10 t) as Hskip.
    { intros Hn. destruct IH as [[Hp Hr]|(pre & t & post & -> & Hpre & Ht & Hp)].
      - left. split; [exact Hp|]. intros t [<-|Hin]; auto.
      - right. exists (token :: pre), t, post. split; [reflexivity|].
        split; [|auto]. intros x [<-|Hx]; auto. }
    rewrite gdm_process_spec in Hskip.
    destruct (0 <=? get_uid_of_pid token st) eqn:Hu.
    + apply Z.leb_le in Hu.
      destruct (get_user_from_uid (get_uid_of_pid token st) st) as [user|] eqn:Hg.
      * destruct (String.eqb_spec user "gdm") as [->|Hne].
        -- right. exists [], token, rest. split; [reflexivity|].
           split; [intros x []|]. split; [|reflexivity].
           apply gdm_process_spec. auto.
        -- apply Hskip. intros [_ H]. congruence.
      * apply Hskip. intros [_ H]. discriminate.
    + apply Z.leb_gt in Hu. apply Hskip. intros [H _]. lia.
Qed.

(** A process of the user [man], whose number is 12, on a machine where
    the number of [gdm] is 120. *)
Definition st_man : State :=
  mkState
    (<["/proc/1234/status" :=
         "Name:" +:+ tab +:+ "Xorg" +:+ nl +:+
         "Uid:" +:+ tab +:+ "12" +:+ tab +:+ "12" +:+ nl]>
    (<["/etc/passwd" :=
         "root:x:0:0:root:/root:/bin/bash" +:+ nl +:+
         "gdm:x:120:125:Gnome Display Manager:/var/lib/gdm3:/bin/false" +:+ nl +:+
         "man:x:12:12:man:/var/cache/man:/usr/sbin/nologin" +:+ nl]> ∅))
    0 0.

Lemma find_pid_main_session_spec_witness :
  find_pid_main_session "1234" st_man = 1234 /\
  gdm_process st_man "1234" /\ status_uid st_man "1234" 12.
Proof.
  destruct (find_pid_main_session_spec "1234" st_man)
    as [[Hp _]|(pre & token & post & Ht & _ & Hg & Hp)].
  - vm_compute in Hp. discriminate.
  - split; [reflexivity|].
    destruct pre as [|x [|y pre]]; inversion Ht; subst.
    split; [exact Hg|].
    apply (get_uid_of_pid_found "1234" st_man). vm_compute. discriminate.
Defined.

Lemma remove_xorg_d_custom_file_spec_witness :
  result (remove_xorg_d_custom_file cfg_default os_busy prime_conf st_fresh) =
  Ok (- ENOENT).
Proof.
  destruct (remove_xorg_d_custom_file_spec cfg_default os_busy prime_conf
              st_fresh) as (r & Hr & _ & _ & _ & _ & Hn).
  rewrite Hr, Hn; reflexivity.
Defined.

(** ** The whole run *)

(** A run of [main] kills the display session once at most and calls
    [unload_nvidia] twice at most. *)
Theorem main_reclaims_once cfg os fuel st :
  (count is_kill (events (main cfg os fuel st)) <= 1)%nat /\
  (count is_unload (events (main cfg os fuel st)) <= 2)%nat.
Proof.
  assert (forall p n,
            (forall e, p e = true ->
               kind_in (kind_of e)
                 [KSystem; KUnlink; KWrite; KFind; KPower; KRemove] = false) ->
            (forall path d, emits_at_most p n (enable_prime cfg os fuel path d)) ->
            emits_at_most p n (main cfg os fuel)) as Hmain.
  { intros p n Hp Hen.
    assert (forall A (m : M A) ks,
              emits_only ks m ->
              incl_kinds ks [KSystem; KUnlink; KWrite; KFind; KPower; KRemove]
                = true ->
              emits_at_most p 0 m) as Hq.
    { intros A m ks Hm Hi. eapply eo_eam; [|exact Hp].
      eapply eo_weaken; eassumption. }
    assert (forall d, emits_at_most p n (try_enable_prime cfg os fuel d)) as Htry.
    { intros d. unfold try_enable_prime. rewrite <- (Nat.add_0_r n).
      apply eam_bind; [apply Hen|]. intros [|]; [|eam].
      apply eam_bind0; [apply (Hq _ _ _ (eo_set_offloading cfg os) eq_refl)|eam]. }
    unfold main. apply eam_bind0.
    { intros s. destruct (ro_gather_facts cfg os s) as [_ ->]. cbn. lia. }
    intros f. apply eam_bind0;
      [apply (Hq _ _ _ (eo_detect_devices cfg os) eq_refl)|].
    intros [[cur off]|]; [|eam].
    apply eam_bind0.
    { destruct (_ && _); [|eam].
      apply (Hq _ _ [KUnlink]); [apply eo_bind; eo|reflexivity]. }
    intros _. apply eam_bind0;
      [apply (Hq _ _ _ (eo_read_data_from_file os _ _) eq_refl)|].
    intros r. destruct (fst r =? 0); [eam|].
    apply eam_bind0.
    { apply (Hq _ _ [KWrite]); [|reflexivity].
      intros s. rewrite events_write_data_to_file. reflexivity. }
    intros [|]; cbn [negb]; [|eam].
    apply eam_bind0; [eam|]. intros ch. apply eam_bind0; [eam|].
    intros [boot|]; [|eam]. unfold apply_policy.
    destruct (nr_cards cur =? 1).
    - destruct (vendor_id boot =? INTEL).
      + destruct (off && nvidia_unloaded f); [|eam].
        apply eam_bind0.
        { apply (Hq _ _ [KFind]); [|reflexivity].
          intros s. rewrite events_find_disabled_cards. reflexivity. }
        intros g. apply eam_bind0; [eam|]. intros [d|]; [apply Htry|eam].
      + destruct (vendor_id boot =? AMD).
        * destruct (_ && _); [|eam].
          apply eam_bind0; [|eam].
          apply (Hq _ _ [KSystem]); [|reflexivity].
          unfold run_amdgpu_pro_px. destruct (dry_run cfg); eo.
        * destruct (vendor_id boot =? NVIDIA); [|eam].
          apply eam_bind0; [|eam].
          apply (Hq _ _ _ (eo_remove_xorg cfg os _) eq_refl).
    - destruct (1 <? nr_cards cur); [|eam].
      apply eam_bind0; [eam|]. intros [d|]; [|eam].
      destruct (vendor_id boot =? INTEL); [|eam].
      destruct (_ && _).
      + apply eam_bind0; [|eam].
        apply (Hq _ _ [KSystem]); [|reflexivity].
        unfold run_amdgpu_pro_px. destruct (dry_run cfg); eo.
      + destruct (_ && _); [apply Htry|eam]. }
  split; apply Hmain.
  - intros []; cbn; congruence.
  - intros path d. apply (enable_prime_bounds cfg os fuel path d).
  - intros []; cbn; congruence.
  - intros path d. apply (enable_prime_bounds cfg os fuel path d).
Qed.

(** ** The modes [on] and [on-demand] *)

Lemma enable_prime_branch cfg os fuel path d st :
  exists_not_empty path st = true ->
  enable_prime cfg os fuel path d st =
  match get_prime_action path st with
  | ON => prime_on cfg os d st
  | ONDEMAND => prime_ondemand cfg os d st
  | OFF => prime_off cfg os fuel d st
  end.
Proof.
  intros He. unfold enable_prime. rewrite bind_get, He. cbn [negb].
  rewrite bind_ret. cbn [negb]. rewrite bind_get.
  now destruct (get_prime_action path st).
Qed.

Lemma create_prime_outputclass_run cfg os st :
  exists b st',
    create_prime_outputclass cfg os st = (Ok b, st', []) /\
    forall p, p <> xorg_d_file cfg prime_conf -> files st' !! p = files st !! p.
Proof.
  unfold create_prime_outputclass. rewrite bind_get.
  destruct (get_output os _ None None st); [|eexists _, _; split; reflexivity].
  unfold bind, fopen_w. destruct (decide _);
    eexists _, _; (split; [reflexivity|]); [reflexivity|].
  intros p Hp. cbn [fwrite fst snd files].
  now rewrite !lookup_insert_ne by congruence.
Qed.

Lemma create_offload_serverlayout_run cfg os st :
  exists b st',
    create_offload_serverlayout cfg os st = (Ok b, st', []) /\
    forall p, p <> xorg_d_file cfg offload_conf -> files st' !! p = files st !! p.
Proof.
  unfold create_offload_serverlayout, bind, fopen_w.
  destruct (decide _); eexists _, _; (split; [reflexivity|]); [reflexivity|].
  intros p Hp. cbn [fwrite fst snd files].
  now rewrite !lookup_insert_ne by congruence.
Qed.

Lemma manage_power_run os d enabled st :
  exists b st',
    manage_power_management os d enabled st = (Ok b, st', [EvPower d enabled]) /\
    forall p, p <> power_control_path d -> files st' !! p = files st !! p.
Proof.
  unfold manage_power_management, bind, emit, fopen_w.
  destruct (decide _); eexists _, _; (split; [reflexivity|]); [reflexivity|].
  intros p Hp. cbn [fwrite fst snd files].
  now rewrite !lookup_insert_ne by congruence.
Qed.

Lemma remove_xorg_frame cfg os name st p :
  p <> xorg_d_file cfg name ->
  files (final (remove_xorg_d_custom_file cfg os name st)) !! p = files st !! p.
Proof.
  intros Hp. unfold remove_xorg_d_custom_file.
  rewrite run_bind. cbn [emit result final events fst snd]. rewrite bind_get.
  destruct (stat_size _ _); [|reflexivity].
  rewrite final_bind. unfold unlink.
  destruct (files st !! xorg_d_file cfg name); [|reflexivity].
  destruct (decide _); cbn [result final fst snd]; [reflexivity|].
  change (0 =? 0) with true. cbn [ret final fst snd files].
  now rewrite lookup_delete_ne by congruence.
Qed.

Lemma ensure_nvidia_loaded_run cfg os st :
  result (ensure_nvidia_loaded cfg os st) =
    match is_module_loaded cfg "nvidia" st with
    | Ok _ => Ok tt
    | Fault => Fault
    | OutOfFuel => OutOfFuel
    end /\
  (events (ensure_nvidia_loaded cfg os st) = [] \/
   dry_run cfg = false /\ is_module_loaded cfg "nvidia" st = Ok false /\
   events (ensure_nvidia_loaded cfg os st) = [EvSystem "/sbin/modprobe nvidia"]).
Proof.
  unfold ensure_nvidia_loaded. rewrite bind_get.
  destruct (is_module_loaded cfg "nvidia" st) as [[|]| |] eqn:Hl.
  - rewrite bind_lift_ok. cbn. auto.
  - rewrite bind_lift_ok. cbn [negb].
    unfold load_module, load_module_with_params, act_upon_module_with_params.
    destruct (dry_run cfg).
    + rewrite bind_ret. cbn. auto.
    + split; [reflexivity|]. right.
      split; [reflexivity|]. split; reflexivity.
  - cbn. auto.
  - destruct (is_module_loaded_finishes cfg "nvidia" st Hl).
Qed.

(** The common shape of the two branches. *)
Lemma prime_branch_run cfg os d st (create : M bool) (cpath name : string)
    (enabled : bool) :
  (forall s, exists b s',
     create s = (Ok b, s', []) /\
     forall p, p <> cpath -> files s' !! p = files s !! p) ->
  modules_path cfg <> cpath ->
  modules_path cfg <> xorg_d_file cfg name ->
  modules_path cfg <> power_control_path d ->
  let run :=
    (create ;;; remove_xorg_d_custom_file cfg os name ;;;
     (manage_power_management os d enabled ;;; ret tt) ;;;
     ensure_nvidia_loaded cfg os ;;; ret true) st in
  result run =
    match is_module_loaded cfg "nvidia" st with
    | Ok _ => Ok true
    | Fault => Fault
    | OutOfFuel => OutOfFuel
    end /\
  exists u l,
    events run = EvRemoveXorg name :: u ++ EvPower d enabled :: l /\
    only [KUnlink] u = true /\
    (l = [] \/ dry_run cfg = false /\ l = [EvSystem "/sbin/modprobe nvidia"]).
Proof.
  intros Hcreate Hc Hx Hp. cbv zeta.
  destruct (Hcreate st) as (b0 & s0 & H0 & F0).
  rewrite (bind_run_ok _ _ _ _ _ _ H0).
  destruct (remove_xorg_run cfg os name s0) as (r1 & s1 & u & H1 & Hu & _).
  pose proof (remove_xorg_frame cfg os name s0 _ Hx) as F1.
  rewrite H1 in F1. cbn [final fst snd] in F1.
  rewrite (bind_run_ok _ _ _ _ _ _ H1).
  destruct (manage_power_run os d enabled s1) as (b2 & s2 & H2 & F2).
  rewrite (bind_run_ok _ _ _ _ _ _ (bind_run_ok _ (fun _ => ret tt) _ _ _ _ H2)).
  cbn [ret result final events fst snd app].
  destruct (ensure_nvidia_loaded_run cfg os s2) as [Hr He].
  assert (is_module_loaded cfg "nvidia" s2 = is_module_loaded cfg "nvidia" st)
    as Hsame.
  { apply is_module_loaded_ext. now rewrite (F2 _ Hp), F1, (F0 _ Hc). }
  rewrite Hsame in Hr, He.
  rewrite result_bind, events_bind, Hr.
  split.
  - now destruct (is_module_loaded cfg "nvidia" st).
  - exists u. destruct (is_module_loaded cfg "nvidia" st) as [b| |];
      cbn [ret events snd]; rewrite ?app_nil_r;
      (destruct He as [-> |(Hd & _ & ->)];
       [exists []|exists [EvSystem "/sbin/modprobe nvidia"]]);
      rewrite <- ?app_assoc; cbn [app]; auto.
Qed.

(** The lines of the list of the loaded modules. *)
Definition module_lines (cfg : config) (st : State) : list string :=
  match files st !! modules_path cfg with
  | Some text => file_lines 4096 text
  | None => []
  end.

(** The list has a line of spaces and tabs only, and no line before it
    has [module] as its first token: [is_module_loaded] reaches the line
    and gives the null pointer of [strtok] to [strcmp]. *)
Definition null_token_first (module : string) (lines : list string) : Prop :=
  exists pre line post,
    lines = pre ++ line :: post /\ only_blanks line /\
    forall l, In l pre -> strtok_blank l <> Some module.

Lemma is_module_loaded_loop_fault module lines :
  is_module_loaded_loop lines module = Fault <-> null_token_first module lines.
Proof.
  induction lines as [|l lines IH]; cbn [is_module_loaded_loop].
  - split; [discriminate|]. intros (pre & line & post & H & _).
    destruct pre; discriminate.
  - destruct (strtok_blank l) as [tok|] eqn:Ht.
    + assert (~ only_blanks l) as Hnb
        by (intros H; apply no_token in H; congruence).
      destruct (String.eqb_spec tok module) as [->|Hne].
      * split; [discriminate|]. intros (pre & line & post & Hl & Hb & Hp).
        destruct pre as [|x pre]; cbn [app] in Hl; inversion Hl; subst.
        -- contradiction.
        -- destruct (Hp x (or_introl eq_refl) Ht).
      * rewrite IH. split.
        -- intros (pre & line & post & -> & Hb & Hp).
           exists (l :: pre), line, post. split; [reflexivity|].
           split; [exact Hb|]. intros x [<-|Hx]; [congruence|now apply Hp].
        -- intros (pre & line & post & Hl & Hb & Hp).
           destruct pre as [|x pre]; cbn [app] in Hl; inversion Hl; subst.
           ++ contradiction.
           ++ exists pre, line, post. split; [reflexivity|].
              split; [exact Hb|]. intros y Hy. apply Hp. now right.
    + split; [intros _|reflexivity]. exists [], l, lines.
      split; [reflexivity|]. split; [now apply no_token|]. intros x [].
Qed.

Lemma is_module_loaded_fault cfg module st :
  is_module_loaded cfg module st = Fault <->
  null_token_first module (module_lines cfg st).
Proof.
  unfold is_module_loaded, module_lines, fopen_r. fold (modules_path cfg).
  destruct (files st !! modules_path cfg) as [text|].
  - apply is_module_loaded_loop_fault.
  - split; [discriminate|]. intros (pre & line & post & H & _).
    destruct pre; discriminate.
Qed.

(** What a branch returns, in terms of the list of modules. *)
Lemma prime_branch_result cfg st (r : res bool) :
  r = match is_module_loaded cfg "nvidia" st with
      | Ok _ => Ok true
      | Fault => Fault
      | OutOfFuel => OutOfFuel
      end ->
  (r = Ok true <-> ~ null_token_first "nvidia" (module_lines cfg st)) /\
  (r = Fault <-> null_token_first "nvidia" (module_lines cfg st)).
Proof.
  intros ->. rewrite <- is_module_loaded_fault.
  destruct (is_module_loaded cfg "nvidia" st) as [b| |] eqn:Hl.
  - split; split; try discriminate; auto.
  - split; split; try discriminate; auto. intros H. now destruct H.
  - destruct (is_module_loaded_finishes cfg "nvidia" st Hl).
Qed.

(** In the mode [on] [enable_prime] removes the ServerLayout file, sets
    the power control of the device to [on] and then loads the nvidia
    module when it is not loaded (not in a dry run); it unloads nothing
    and kills nothing.  It returns true, also when the OutputClass file
    could not be written, unless the list of the loaded modules has a
    line of spaces and tabs only that no line with the first token
    [nvidia] precedes: then the null token of that line is given to
    [strcmp].  (The list of the modules is none of the three files
    that the branch writes or removes.) *)
Theorem enable_prime_on cfg os fuel path d st :
  exists_not_empty path st = true ->
  get_prime_action path st = ON ->
  modules_path cfg <> xorg_d_file cfg prime_conf ->
  modules_path cfg <> xorg_d_file cfg offload_conf ->
  modules_path cfg <> power_control_path d ->
  let run := enable_prime cfg os fuel path d st in
  (result run = Ok true <-> ~ null_token_first "nvidia" (module_lines cfg st)) /\
  (result run = Fault <-> null_token_first "nvidia" (module_lines cfg st)) /\
  exists u l,
    events run = EvRemoveXorg offload_conf :: u ++ EvPower d false :: l /\
    only [KUnlink] u = true /\
    (l = [] \/ dry_run cfg = false /\ l = [EvSystem "/sbin/modprobe nvidia"]).
Proof.
  intros He Hm H1 H2 H3. cbv zeta.
  rewrite (enable_prime_branch _ _ _ _ _ _ He), Hm.
  destruct (prime_branch_run cfg os d st (create_prime_outputclass cfg os)
              (xorg_d_file cfg prime_conf) offload_conf false
              (create_prime_outputclass_run cfg os) H1 H2 H3) as [Hr Hev].
  destruct (prime_branch_result cfg st _ Hr) as [Hok Hfault]. auto.
Qed.

(** In the mode [on-demand] it removes the OutputClass file, sets the
    power control to [auto] and loads the module in the same way; it
    returns true, also when the ServerLayout file could not be written,
    with the same exception. *)
Theorem enable_prime_ondemand cfg os fuel path d st :
  exists_not_empty path st = true ->
  get_prime_action path st = ONDEMAND ->
  modules_path cfg <> xorg_d_file cfg prime_conf ->
  modules_path cfg <> xorg_d_file cfg offload_conf ->
  modules_path cfg <> power_control_path d ->
  let run := enable_prime cfg os fuel path d st in
  (result run = Ok true <-> ~ null_token_first "nvidia" (module_lines cfg st)) /\
  (result run = Fault <-> null_token_first "nvidia" (module_lines cfg st)) /\
  exists u l,
    events run = EvRemoveXorg prime_conf :: u ++ EvPower d true :: l /\
    only [KUnlink] u = true /\
    (l = [] \/ dry_run cfg = false /\ l = [EvSystem "/sbin/modprobe nvidia"]).
Proof.
  intros He Hm H1 H2 H3. cbv zeta.
  rewrite (enable_prime_branch _ _ _ _ _ _ He), Hm.
  destruct (prime_branch_run cfg os d st (create_offload_serverlayout cfg os)
              (xorg_d_file cfg offload_conf) prime_conf true
              (create_offload_serverlayout_run cfg os) H2 H1 H3) as [Hr Hev].
  destruct (prime_branch_result cfg st _ Hr) as [Hok Hfault]. auto.
Qed.

Lemma busy_modules_have_tokens settings :
  ~ null_token_first "nvidia"
      (module_lines cfg_default (mkState (busy_files settings) 0 0)).
Proof.
  intros (pre & line & post & Hl & Hb & _).
  change (module_lines cfg_default (mkState (busy_files settings) 0 0))
    with (file_lines 4096
            ("nvidia 35000000 40 nvidia_modeset, Live 0xffffffffc0000000" +:+ nl))
    in Hl.
  vm_compute in Hl.
  destruct pre as [|x [|y pre]]; inversion Hl; subst.
  apply no_token in Hb. vm_compute in Hb. discriminate.
Qed.

Lemma enable_prime_on_witness :
  result (enable_prime cfg_default os_busy 2 "/etc/prime-discrete"
            nvidia_card (mkState (busy_files "on") 0 0)) = Ok true.
Proof.
  apply (enable_prime_on cfg_default os_busy 2 "/etc/prime-discrete"
           nvidia_card (mkState (busy_files "on") 0 0));
    try reflexivity; try (vm_compute; discriminate).
  apply busy_modules_have_tokens.
Defined.

Lemma enable_prime_ondemand_witness :
  result (enable_prime cfg_default os_busy 2 "/etc/prime-discrete"
            nvidia_card (mkState (busy_files "on-demand") 0 0)) = Ok true.
Proof.
  apply (enable_prime_ondemand cfg_default os_busy 2 "/etc/prime-discrete"
           nvidia_card (mkState (busy_files "on-demand") 0 0));
    try reflexivity; try (vm_compute; discriminate).
  apply busy_modules_have_tokens.
Defined.

(** In the mode [off], when the nvidia module is not loaded, there is
    nothing to reclaim: [enable_prime] removes the two Xorg files, sets
    the power control of the device to [auto] and returns true, without
    an unload, a kill or any command. *)
Theorem enable_prime_off_not_loaded cfg os fuel path d st :
  exists_not_empty path st = true ->
  get_prime_action path st = OFF ->
  (1 <= fuel)%nat ->
  is_module_loaded cfg "nvidia" (after_removals cfg os st) = Ok false ->
  let run := enable_prime cfg os fuel path d st in
  result run = Ok true /\
  exists t1 t2,
    events run =
      EvRemoveXorg prime_conf :: t1 ++ EvRemoveXorg offload_conf :: t2 ++
      [EvPower d true] /\
    only [KUnlink] t1 = true /\ only [KUnlink] t2 = true.
Proof.
  intros He Hm Hf Hl. cbv zeta. rewrite (enable_prime_off _ _ _ _ _ _ He Hm).
  destruct (prime_off_run cfg os fuel d st) as (t1 & t2 & H1 & H2 & -> & _).
  destruct fuel as [|fuel]; [lia|]. cbn [unload_again].
  rewrite bind_get, Hl, bind_lift_ok.
  destruct (enable_power_run os d (after_removals cfg os st)) as (s & Hs).
  rewrite (bind_run_ok _ _ _ _ _ _ Hs).
  cbn [ret result final events fst snd app].
  split; [reflexivity|]. exists t1, t2. auto.
Qed.

Lemma enable_prime_off_not_loaded_witness :
  result (enable_prime cfg_default os_busy 2 "/etc/prime-discrete" nvidia_card
            (mkState (<["/etc/prime-discrete" := "off" +:+ nl]> ∅) 0 0)) =
  Ok true.
Proof.
  apply (enable_prime_off_not_loaded cfg_default os_busy 2
           "/etc/prime-discrete" nvidia_card
           (mkState (<["/etc/prime-discrete" := "off" +:+ nl]> ∅) 0 0));
    try reflexivity. lia.
Defined.

(** ** Strings *)

(** [starts_with] is true exactly when the string is the prefix followed
    by something; the comparison is sensitive to the case, and every
    string starts with the empty prefix. *)
Theorem starts_with_spec (str pre : string) :
  (starts_with str pre = true <-> exists suf, str = pre +:+ suf) /\
  starts_with str "" = true /\
  starts_with str str = true.
Proof.
  assert (forall s p, starts_with s p = true <-> exists suf, s = p +:+ suf) as H.
  { intros s p. unfold starts_with.
    destruct (String.length s <? String.length p)%nat eqn:Hl.
    - apply Nat.ltb_lt in Hl. split; [discriminate|].
      intros [suf ->]. rewrite length_append in Hl. lia.
    - apply prefix_spec. }
  split; [apply H|]. split; apply H.
  - now exists str.
  - exists "". now rewrite append_nil_r.
Qed.

(** [s] starts with [p], the case of the letters apart. *)
Definition ihas_prefix (s p : string) : Prop :=
  exists mid suf, s = mid +:+ suf /\ upper mid = upper p.

Lemma istrstr_here_first x s c p :
  istrstr_here (String x s) (String c p) = true ->
  Ascii.eqb (toupper x) (toupper c) = true.
Proof.
  cbn [istrstr_here]. destruct (Ascii.eqb (toupper x) (toupper c));
    [reflexivity|discriminate].
Qed.

Lemma istrstr_scan_first c p : forall s r,
  istrstr_scan s c (String c p) = Some r ->
  exists pre,
    s = pre +:+ r /\ ihas_prefix r (String c p) /\
    forall pre1 pre2, pre = pre1 +:+ pre2 -> pre2 <> "" ->
                      ~ ihas_prefix (pre2 +:+ r) (String c p).
Proof.
  induction s as [|x s IH]; intros r; cbn [istrstr_scan]; [discriminate|].
  destruct (Ascii.eqb (toupper x) (toupper c) &&
            istrstr_here (String x s) (String c p)) eqn:Hh.
  - intros H. inversion H; subst. exists "". split; [reflexivity|].
    split.
    + apply andb_true_iff in Hh as [_ Hh]. now apply istrstr_here_spec.
    + intros pre1 pre2 Hp Hne. destruct pre1, pre2; try discriminate.
      contradiction.
  - intros H. destruct (IH r H) as (pre & -> & Hr & Hmin).
    exists (String x pre). split; [reflexivity|]. split; [exact Hr|].
    intros pre1 pre2 Hp Hne Hpre. destruct pre1 as [|y pre1].
    + rewrite append_nil_l in Hp. subst pre2. rewrite append_cons in Hpre.
      apply istrstr_here_spec in Hpre.
      rewrite Hpre, (istrstr_here_first _ _ _ _ Hpre) in Hh. discriminate.
    + rewrite append_cons in Hp. inversion Hp; subst.
      exact (Hmin pre1 pre2 eq_refl Hne Hpre).
Qed.

(** [istrstr] returns the part of [str1] that starts at the first place
    where [str2] occurs, the case of the letters apart, and the null
    pointer when there is no such place; with an empty [str2] it returns
    [str1]. *)
Theorem istrstr_first_occurrence (str1 str2 : string) :
  match istrstr str1 str2 with
  | Some r =>
      exists pre,
        str1 = pre +:+ r /\ ihas_prefix r str2 /\
        forall pre1 pre2, pre = pre1 +:+ pre2 -> pre2 <> "" ->
                          ~ ihas_prefix (pre2 +:+ r) str2
  | None => ~ icontains str1 str2
  end.
Proof.
  destruct (istrstr str1 str2) as [r|] eqn:Hi.
  - destruct str2 as [|c p]; cbn [istrstr] in Hi.
    + inversion Hi; subst. exists "". split; [reflexivity|]. split.
      * exists "", r. auto.
      * intros pre1 pre2 Hp Hne. destruct pre1, pre2; try discriminate.
        contradiction.
    + now apply istrstr_scan_first.
  - intros Hc. apply istrstr_spec in Hc. rewrite Hi in Hc.
    destruct Hc as [x Hx]. discriminate.
Qed.

(** ** Modules and kernel parameters *)

(** [is_module_loaded] is false without the list of modules, and
    otherwise true exactly when the first word of a line of the list is
    the name of the module, as it is written: a line without a word
    makes [strcmp] read a null pointer. *)
Theorem is_module_loaded_spec cfg module st :
  (files st !! modules_path cfg = None ->
   is_module_loaded cfg module st = Ok false) /\
  (forall b, is_module_loaded cfg module st = Ok b ->
     (b = true <->
      exists text line,
        files st !! modules_path cfg = Some text /\
        In line (file_lines 4096 text) /\ strtok_blank line = Some module)) /\
  (forall text,
     files st !! modules_path cfg = Some text ->
     (forall line, In line (file_lines 4096 text) ->
                   is_Some (strtok_blank line)) ->
     exists b, is_module_loaded cfg module st = Ok b).
Proof.
  unfold is_module_loaded, fopen_r. fold (modules_path cfg).
  destruct (files st !! modules_path cfg) as [text|].
  - split; [discriminate|].
    assert (forall lines b, is_module_loaded_loop lines module = Ok b ->
              (b = true <-> exists line, In line lines /\
                                         strtok_blank line = Some module)) as Hloop.
    { induction lines as [|l lines IH]; intros b; cbn [is_module_loaded_loop].
      - intros H. inversion H. split; [discriminate|]. intros (l & [] & _).
      - destruct (strtok_blank l) as [tok|] eqn:Ht; [|discriminate].
        destruct (String.eqb_spec tok module) as [->|Hne].
        + intros H. inversion H. split; [intros _|reflexivity].
          exists l. split; [now left|exact Ht].
        + intros H. rewrite (IH b H). split.
          * intros (l' & Hin & Hl). exists l'. split; [now right|exact Hl].
          * intros (l' & [<-|Hin] & Hl); [congruence|now exists l']. }
    split.
    + intros b H. rewrite (Hloop _ _ H). split.
      * intros (l & Hin & Hl). now exists text, l.
      * intros (text' & l & Ht & Hin & Hl). inversion Ht; subst. now exists l.
    + intros text' Ht Htok. inversion Ht; subst text'. clear Ht.
      induction (file_lines 4096 text) as [|l lines IH];
        cbn [is_module_loaded_loop]; [now exists false|].
      destruct (Htok l (or_introl eq_refl)) as [tok ->].
      destruct (String.eqb tok module); [now exists true|].
      apply IH. intros line Hin. apply Htok. now right.
  - split; [reflexivity|]. split.
    + intros b H. inversion H. split; [discriminate|].
      intros (text & l & Ht & _). discriminate.
    + intros text Ht. discriminate.
Qed.

Lemma is_module_loaded_spec_witness :
  is_module_loaded cfg_default "nvidia" st_fresh = Ok false.
Proof.
  apply (is_module_loaded_spec cfg_default "nvidia" st_fresh). reflexivity.
Defined.

(** [has_cmdline_option] is true exactly when a line of the kernel
    command line contains the option, the case of the letters apart and
    also as a part of a longer word; without [/proc/cmdline] it is
    false. *)
Theorem has_cmdline_option_spec option st :
  has_cmdline_option option st = true <->
  exists text line,
    files st !! "/proc/cmdline" = Some text /\
    In line (getlines text) /\ icontains line option.
Proof.
  unfold has_cmdline_option, find_string_in_file, fopen_r.
  destruct (files st !! "/proc/cmdline") as [text|].
  - assert (forall lines, find_string_loop lines option = true <->
              exists line, In line lines /\ icontains line option) as Hloop.
    { induction lines as [|l lines IH]; cbn [find_string_loop].
      - split; [discriminate|]. intros (l & [] & _).
      - destruct (bool_decide (is_Some (istrstr l option))) eqn:Hb.
        + apply bool_decide_eq_true, istrstr_spec in Hb.
          split; [intros _|reflexivity]. exists l. split; [now left|exact Hb].
        + apply bool_decide_eq_false in Hb. rewrite IH. split.
          * intros (l' & Hin & Hl). exists l'. split; [now right|exact Hl].
          * intros (l' & [<-|Hin] & Hl); [|now exists l'].
            apply istrstr_spec in Hl. contradiction. }
    rewrite Hloop. split.
    + intros (l & Hin & Hl). now exists text, l.
    + intros (text' & l & Ht & Hin & Hl). inversion Ht; subst. now exists l.
  - split; [discriminate|]. intros (text & l & Ht & _). discriminate.
Qed.

Definition st_disabled : State :=
  mkState (<["/proc/cmdline" := "quiet NoGpuManager splash" +:+ nl]> ∅) 0 0.

Lemma has_cmdline_option_spec_witness : is_disabled_in_cmdline st_disabled = true.
Proof.
  apply has_cmdline_option_spec.
  exists ("quiet NoGpuManager splash" +:+ nl), ("quiet NoGpuManager splash" +:+ nl).
  split; [reflexivity|]. split; [vm_compute; left; reflexivity|].
  exists "quiet ", "NoGpuManager", (" splash" +:+ nl). split; reflexivity.
Defined.

(** ** Devices passed through to a guest *)

(** The link to the driver of a device in sysfs. *)
Definition sysfs_driver_path (info : pci_device) : string :=
  "/sys/bus/pci/devices/" +:+ fmt_x 4 (pci_domain info) +:+ ":" +:+
  fmt_x 2 (pci_bus info) +:+ ":" +:+ fmt_x 2 (pci_dev info) +:+ "." +:+
  fmt_d (pci_func info) +:+ "/driver".

Lemma sysfs_driver_path_fits info :
  (String.length (sysfs_driver_path info) < 1024)%nat.
Proof.
  unfold sysfs_driver_path. rewrite !length_append.
  destruct (fmt_x_shape 4 (pci_domain info)) as [H1 _].
  destruct (fmt_x_shape 2 (pci_bus info)) as [H2 _].
  destruct (fmt_x_shape 2 (pci_dev info)) as [H3 _].
  destruct (fmt_d_shape (pci_func info)) as (D & -> & _ & _ & H4 & _).
  rewrite length_append.
  assert (String.length (if (to_int (pci_func info) <? 0)%Z then "-" else "")
          <= 1)%nat
    by (destruct (_ <? 0)%Z; cbn; lia).
  change (String.length "/sys/bus/pci/devices/") with 21%nat.
  change (String.length ":") with 1%nat. change (String.length ".") with 1%nat.
  change (String.length "/driver") with 7%nat. lia.
Qed.

Lemma has_slash_app a b : has_slash (a +:+ b) = has_slash a || has_slash b.
Proof.
  induction a as [|c a IH]; app_simpl; cbn [has_slash]; [reflexivity|].
  now rewrite IH, orb_assoc.
Qed.

Lemma after_last_slash_plain s : has_slash s = false -> after_last_slash s = s.
Proof.
  destruct s as [|c r]; cbn [has_slash after_last_slash]; [reflexivity|].
  intros H. apply orb_false_iff in H as [Hc Hr]. now rewrite Hr, Hc.
Qed.

Lemma after_last_slash_app dir name :
  has_slash name = false -> after_last_slash (dir +:+ "/" +:+ name) = name.
Proof.
  intros Hn. induction dir as [|c dir IH].
  - rewrite append_nil_l. app_simpl. cbn [after_last_slash].
    now rewrite Hn, Ascii.eqb_refl.
  - rewrite append_cons. cbn [after_last_slash].
    rewrite has_slash_app. app_simpl. cbn [has_slash].
    rewrite Ascii.eqb_refl, orb_true_r. exact IH.
Qed.

Lemma after_last_slash_split s :
  has_slash (after_last_slash s) = false /\
  (s = after_last_slash s \/ exists dir, s = dir +:+ "/" +:+ after_last_slash s).
Proof.
  induction s as [|c r IH]; cbn [after_last_slash]; [auto|].
  destruct (has_slash r) eqn:Hr.
  - destruct IH as [Hn [He|[dir He]]]; split; try exact Hn; right.
    + rewrite <- He in Hn. congruence.
    + exists (String c dir). rewrite append_cons. now rewrite <- He.
  - destruct (Ascii.eqb_spec c "/") as [->|Hc].
    + split; [exact Hr|]. right. exists "". reflexivity.
    + split; [|now left]. cbn [has_slash]. rewrite Hr.
      now destruct (Ascii.eqb_spec c "/").
Qed.

(** [is_device_pci_passthrough] is true exactly when the device has a
    driver link in sysfs whose target, cut to 1023 characters, has
    [pci-stub] or [pciback] as its last component; the path of the link
    always fits the buffer. *)
Theorem is_device_pci_passthrough_spec os info :
  is_device_pci_passthrough os info = true <->
  exists target name,
    os_links os !! sysfs_driver_path info = Some target /\
    (name = "pci-stub" \/ name = "pciback") /\
    (snprintf 1024 target = name \/
     exists dir, snprintf 1024 target = dir +:+ "/" +:+ name).
Proof.
  unfold is_device_pci_passthrough. fold (sysfs_driver_path info).
  replace (1024 <=? String.length (sysfs_driver_path info))%nat with false
    by (symmetry; apply Nat.leb_gt, sysfs_driver_path_fits).
  destruct (os_links os !! sysfs_driver_path info) as [target|].
  - destruct (after_last_slash_split (snprintf 1024 target)) as [Hn Hs].
    rewrite orb_true_iff, !String.eqb_eq. split.
    + intros Hname. exists target, (after_last_slash (snprintf 1024 target)).
      split; [reflexivity|]. split; [exact Hname|].
      destruct Hs as [Hs|Hs]; [left; now rewrite <- Hs|right; exact Hs].
    + intros (target' & name & Ht & Hname & Hshape). inversion Ht; subst target'.
      assert (has_slash name = false) as Hplain
        by (destruct Hname as [-> | ->]; reflexivity).
      assert (after_last_slash (snprintf 1024 target) = name) as ->.
      { destruct Hshape as [-> |[dir ->]].
        - now apply after_last_slash_plain.
        - now apply after_last_slash_app. }
      exact Hname.
  - split; [discriminate|]. intros (target & name & Ht & _). discriminate.
Qed.

Definition os_passthrough : OS :=
  mkOS ∅
    (<["/sys/bus/pci/devices/0000:01:00.0/driver" :=
         "../../../../bus/pci/drivers/pci-stub"]> ∅)
    ∅ (fun _ _ => (0, id)) (fun _ _ => None) (fun _ => Some zero_device)
    (fun _ => -1) (fun _ => None) 0 true [] None (fun _ => None)
    (fun _ _ _ => None).

Lemma is_device_pci_passthrough_spec_witness :
  is_device_pci_passthrough os_passthrough
    (mkPci 0 1 0 0 NVIDIA 0x1140 0x030000 0) = true.
Proof.
  apply is_device_pci_passthrough_spec.
  exists "../../../../bus/pci/drivers/pci-stub", "pci-stub".
  split; [reflexivity|]. split; [now left|]. right.
  exists "../../../../bus/pci/drivers". reflexivity.
Defined.

(** ** A fake inventory *)

(** The device with unknown outputs. *)
Definition unknown_outputs (d : device) : device :=
  mkDevice (boot_vga d) (vendor_id d) (device_id d) (domain d) (bus d)
    (dev d) (func d) (-1).

Lemma set_fake_outputs_spec k : forall g i g',
  0 <= i -> length (cards g) = 10%nat -> i + Z.of_nat k <= MAX_NR_CARDS ->
  set_fake_outputs g i k = Ok g' ->
  nr_cards g' = nr_cards g /\
  (forall j, i <= j < i + Z.of_nat k ->
             card g' j = unknown_outputs <$> card g j) /\
  (forall j, 0 <= j < i -> card g' j = card g j).
Proof.
  induction k as [|k IH]; intros g i g' Hi Hl Hk; cbn [set_fake_outputs].
  - intros H. inversion H; subst. split; [reflexivity|]. split; [|auto].
    intros j Hj. lia.
  - destruct (card g i) as [d0|] eqn:Hd; [|discriminate].
    fold (unknown_outputs d0).
    intros H. apply IH in H; [|lia|cbn [cards]; now rewrite length_insert|lia].
    cbn [nr_cards] in H. destruct H as (Hnr & Hnew & Hold).
    split; [exact Hnr|]. split.
    + intros j Hj. destruct (Z.eq_dec j i) as [->|Hne].
      * rewrite Hold by lia. rewrite Hd.
        pose proof (card_insert_eq (cards g) (nr_cards g) (unknown_outputs d0)
                      (Z.to_nat i)) as Hx.
        rewrite Z2Nat.id in Hx by lia. apply Hx.
        -- rewrite Hl. unfold MAX_NR_CARDS in Hk. lia.
        -- lia.
      * rewrite Hnew by lia.
        rewrite (card_insert_ne _ _ (nr_cards g)) by lia. now destruct g.
    + intros j Hj. rewrite Hold by lia.
      rewrite (card_insert_ne _ _ (nr_cards g)) by lia. now destruct g.
Qed.

Lemma set_fake_outputs_devices g g' :
  gpus_wf g -> gpus_wf g' ->
  set_fake_outputs g 0 (Z.to_nat (nr_cards g)) = Ok g' ->
  devices g' = map unknown_outputs (devices g).
Proof.
  intros Hwf Hwf' Hs. pose proof Hwf as (Hl & Hn & _).
  destruct (set_fake_outputs_spec (Z.to_nat (nr_cards g)) g 0 g')
    as (Hnr & Hnew & _); [lia|exact Hl|lia|exact Hs|].
  destruct (devices_wf g Hwf) as [Hdl Hds].
  destruct (devices_wf g' Hwf') as [Hdl' Hds'].
  apply list_eq. intros n. rewrite list_lookup_fmap.
  destruct (Nat.lt_ge_cases n (Z.to_nat (nr_cards g))) as [Hlt|Hge].
  - destruct (lookup_lt_is_Some_2 (devices g) n ltac:(lia)) as [x Hx].
    rewrite Hx. cbn [fmap option_fmap option_map]. apply Hds'.
    apply Hds in Hx as [Hx1 Hx2]. split; [lia|].
    rewrite Hnew by lia. now rewrite Hx2.
  - rewrite !lookup_ge_None_2 by lia. reflexivity.
Qed.

Lemma same_id_unknown d d' :
  same_id d d' -> unknown_outputs d = unknown_outputs d'.
Proof.
  intros (H1 & H2 & H3 & H4 & H5 & H6 & H7). unfold unknown_outputs.
  now rewrite H1, H2, H3, H4, H5, H6, H7.
Qed.

(** With a fake list of devices ([--fake-lspci]) the current devices
    are the ones that [read_data_from_file] reads from that file, in the
    same order and with the same boot flag, ids and address, all with
    unknown outputs; offloading is what [--fake-requires-offloading]
    says.  When the file holds the lines of ten devices at most, the
    current devices are these devices with unknown outputs. *)
Theorem detect_devices_fake cfg os st file g offloading :
  fake_lspci_file cfg = Some file ->
  result (detect_devices cfg os st) = Ok (Some (g, offloading)) ->
  offloading = fake_offloading cfg /\
  gpus_wf g /\
  (exists status g0,
     result (read_data_from_file os file gpus_zero st) = Ok (status, g0) /\
     status <> 0 /\
     devices g = map unknown_outputs (devices g0)) /\
  (forall ds,
     files st !! file = Some (render ds) ->
     Forall persistable ds -> (length ds <= 10)%nat ->
     (forall n, (nalloc st <= n < nalloc st + length ds)%nat ->
                is_Some (os_malloc os n)) ->
     devices g = map unknown_outputs ds).
Proof.
  intros Hfake Hr. pose proof (detect_devices_wf _ _ _ _ _ Hr) as Hwf.
  revert Hr. unfold detect_devices. rewrite Hfake, result_bind.
  destruct (result (read_data_from_file os file gpus_zero st))
    as [[status g0]| |] eqn:Hread; try discriminate.
  cbn [fst snd]. destruct (status =? 0) eqn:Hs; [discriminate|].
  rewrite result_bind, result_lift.
  destruct (set_fake_outputs g0 0 _) as [g1| |] eqn:Hset; try discriminate.
  intros H. inversion H; subst. clear H.
  pose proof (read_data_from_file_wf _ _ _ _ _ _ gpus_zero_wf Hread) as Hwf0.
  pose proof (set_fake_outputs_devices g0 g Hwf0 Hwf Hset) as Hdev.
  split; [reflexivity|]. split; [exact Hwf|]. split.
  - exists status, g0. split; [reflexivity|].
    split; [now apply Z.eqb_neq in Hs|exact Hdev].
  - intros ds Hf Hp Hlen Hm.
    destruct (read_rendered os file ds st Hf Hp Hlen Hm)
      as (g' & st' & Hrun & _ & _ & _ & Hsame).
    rewrite Hrun in Hread. inversion Hread; subst g'. rewrite Hdev.
    clear - Hsame. induction Hsame as [|x y l l' Hxy _ IH]; [reflexivity|].
    cbn [map]. now rewrite (same_id_unknown _ _ Hxy), IH.
Qed.

Definition cfg_fake : config :=
  mkConfig LAST_BOOT LAST_BOOT (Some "/tmp/fake_lspci") None "/run"
    AMDGPU_PRO_PX "/etc/modprobe.d" "/usr/share/X11/xorg.conf.d"
    "/etc/prime-discrete" true true false false.

Definition st_fake : State :=
  mkState (<["/tmp/fake_lspci" := render [intel_card; nvidia_card]]> ∅) 0 0.

Lemma detect_devices_fake_witness :
  exists g,
    result (detect_devices cfg_fake os_busy st_fake) = Ok (Some (g, true)) /\
    devices g = map unknown_outputs [intel_card; nvidia_card].
Proof.
  destruct (result (detect_devices cfg_fake os_busy st_fake))
    as [[[g off]|]| |] eqn:Hr; try (vm_compute in Hr; discriminate).
  destruct (detect_devices_fake cfg_fake os_busy st_fake "/tmp/fake_lspci"
              g off eq_refl Hr) as (-> & _ & _ & Hds).
  exists g. split; [reflexivity|].
  apply Hds.
  - reflexivity.
  - apply forallb_persistable. reflexivity.
  - cbn. lia.
  - intros n _. eexists. reflexivity.
Defined.

(** ** Markers within the cap *)

Lemma sscanf_marker_format dir filename :
  allb plain_char dir = true ->
  is_Some (sscanf filename (dir +:+ "/" +:+ marker_pattern) 6).
Proof.
  intros Hdir. unfold sscanf.
  rewrite (parse_format_plain dir _ Hdir), marker_directives.
  cbn [fmap option_fmap option_map]. rewrite !conversions_literal.
  cbn [conversions Nat.leb]. eauto.
Qed.

Lemma add_gpu_from_file_safe os filename dir g st :
  allb plain_char dir = true ->
  (String.length (dir +:+ "/" +:+ marker_pattern) < PATH_MAX)%nat ->
  gpus_wf g -> nr_cards g < MAX_NR_CARDS ->
  exists g',
    result (add_gpu_from_file os filename dir g st) = Ok g' /\
    gpus_wf g' /\ nr_cards g <= nr_cards g' <= nr_cards g + 1 /\
    exists added, devices g' = devices g ++ added.
Proof.
  intros Hdir Hlen Hwf Hn. unfold add_gpu_from_file.
  rewrite result_bind, result_malloc.
  destruct (os_malloc os (nalloc st)) as [blk|].
  2:{ exists g. split; [reflexivity|]. split; [exact Hwf|]. split; [lia|].
      exists []. now rewrite app_nil_r. }
  replace (PATH_MAX <=? _)%nat with false
    by (symmetry; apply Nat.leb_gt; exact Hlen).
  rewrite (sscanf_any_plain os dir _ Hdir).
  destruct (sscanf_marker_format dir filename Hdir) as [[status vals] ->].
  destruct ((status =? EOF) || negb (status =? 6)).
  - exists g. split; [reflexivity|]. split; [exact Hwf|]. split; [lia|].
    exists []. now rewrite app_nil_r.
  - set (d := mkDevice _ _ _ _ _ _ _ _).
    pose proof Hwf as (_ & Hcap & _).
    destruct (store_card_below g (Some d) ltac:(lia)) as (g1 & Hs & Hnr).
    rewrite result_bind, result_lift, Hs. cbn [ret result fst].
    exists (incr_cards g1). split; [reflexivity|].
    split; [exact (store_incr_wf g d g1 Hwf Hs)|].
    split; [cbn [incr_cards nr_cards]; lia|].
    exists [d]. exact (devices_append g d g1 Hwf Hn Hs).
Qed.

(** The entries of a directory that [find_disabled_cards] hands to
    [add_gpu_from_file]. *)
Definition is_marker (dir d_name : string) : bool :=
  starts_with d_name "u-d-c-gpu-" &&
  negb (PATH_MAX <? String.length dir + String.length d_name + 2)%nat.

(** When the inventory has room for every marker of the directory,
    [find_disabled_cards] stays within the array: it returns a
    well-formed inventory that holds the cards it held, followed by one
    card at most for each marker.  The name of the directory is part of
    the format given to [sscanf]: it holds no [%] and no white space. *)
Theorem find_disabled_cards_within_cap os dir g st :
  allb plain_char dir = true ->
  (String.length (dir +:+ "/" +:+ marker_pattern) < PATH_MAX)%nat ->
  gpus_wf g ->
  nr_cards g +
    Z.of_nat (length (List.filter (is_marker dir) (default [] (opendir os dir))))
    <= MAX_NR_CARDS ->
  exists g' added,
    result (find_disabled_cards os dir g (add_gpu_from_file os) st) = Ok g' /\
    gpus_wf g' /\ devices g' = devices g ++ added /\
    (length added <=
     length (List.filter (is_marker dir) (default [] (opendir os dir))))%nat.
Proof.
  intros Hdir Hlen Hwf Hroom. unfold find_disabled_cards.
  rewrite result_bind. cbn [emit result final fst snd].
  destruct (opendir os dir) as [entries|]; cbn [default] in *; unfold id in *.
  2:{ exists g, []. rewrite app_nil_r. cbn. auto. }
  revert g st Hwf Hroom.
  induction entries as [|e rest IH]; intros g st Hwf Hroom;
    cbn [find_disabled_loop List.filter] in *.
  - exists g, []. rewrite app_nil_r. cbn. auto.
  - unfold is_marker at 1 in Hroom. unfold is_marker at 1.
    destruct (starts_with e "u-d-c-gpu-"); cbn [negb andb] in *;
      [|now apply IH].
    destruct (PATH_MAX <? _)%nat; cbn [negb] in *; [now apply IH|].
    cbn [length] in Hroom.
    destruct (add_gpu_from_file_safe os (dir +:+ "/" +:+ e) dir g st Hdir Hlen
                Hwf ltac:(lia)) as (g1 & Hr & Hwf1 & Hn1 & a1 & Hd1).
    rewrite result_bind, Hr.
    assert (length a1 <= 1)%nat as Ha1.
    { destruct (devices_wf g Hwf) as [Hl _].
      destruct (devices_wf g1 Hwf1) as [Hl1 _].
      rewrite Hd1, length_app in Hl1. destruct Hwf as (_ & Hc & _). lia. }
    destruct (IH g1 (final (add_gpu_from_file os (dir +:+ "/" +:+ e) dir g st))
                Hwf1 ltac:(lia)) as (g' & a2 & Hr' & Hwf' & Hd' & Ha2).
    exists g', (a1 ++ a2). split; [exact Hr'|]. split; [exact Hwf'|].
    split; [now rewrite Hd', Hd1, app_assoc|].
    rewrite length_app. cbn [length]. lia.
Qed.

Lemma find_disabled_cards_within_cap_witness :
  exists g' added,
    result (find_disabled_cards (os_optimus nine_markers) "/run" one_card
              (add_gpu_from_file (os_optimus nine_markers)) st_optimus) = Ok g' /\
    gpus_wf g' /\ devices g' = devices one_card ++ added /\
    (length added <= 9)%nat.
Proof.
  apply (find_disabled_cards_within_cap (os_optimus nine_markers) "/run"
           one_card st_optimus).
  - reflexivity.
  - vm_compute. lia.
  - apply gpus_wfb_wf. reflexivity.
  - vm_compute. discriminate.
Defined.

(** ** Where PRIME is set up *)

Definition other_kinds : list kind := [KSystem; KRemove; KUnlink; KWrite].

Lemma apply_policy_other cfg os fuel f offloading has_changed cur boot :
  (vendor_id boot =? INTEL) && offloading = false ->
  emits_only other_kinds
    (apply_policy cfg os fuel f offloading has_changed cur boot).
Proof.
  intros Hno. unfold apply_policy. destruct (nr_cards cur =? 1).
  - destruct (vendor_id boot =? INTEL); cbn [andb] in Hno.
    + subst offloading. cbn [andb]. eo.
    + destruct (vendor_id boot =? AMD).
      * destruct (_ && _); [|eo].
        apply eo_bind; [|eo]. unfold run_amdgpu_pro_px.
        destruct (dry_run cfg); eo.
      * destruct (vendor_id boot =? NVIDIA); [|eo].
        apply eo_bind; [eo_by eo_remove_xorg|eo].
  - destruct (1 <? nr_cards cur); [|eo].
    apply eo_bind; [eo|]. intros [d|]; [|eo].
    destruct (vendor_id boot =? INTEL); cbn [andb] in Hno; [|eo].
    subst offloading. destruct (_ && _).
    + apply eo_bind; [|eo]. unfold run_amdgpu_pro_px.
      destruct (dry_run cfg); eo.
    + cbn [andb]. eo.
Qed.

Lemma main_on_other_machines cfg os fuel st :
  only other_kinds (events (main cfg os fuel st)) = true \/
  exists cur boot,
    result (detect_devices cfg os st) = Ok (Some (cur, true)) /\
    get_boot_vga cur = Ok (Some boot) /\ vendor_id boot = INTEL.
Proof.
  unfold main. rewrite events_bind.
  destruct (ro_gather_facts cfg os st) as [Hf He]. rewrite He, Hf. cbn [app].
  destruct (result (gather_facts cfg os st)) as [f| |]; [|left; reflexivity..].
  rewrite events_bind, (only_nil _ (eo_detect_devices cfg os st)). cbn [app].
  destruct (result (detect_devices cfg os st)) as [[[cur off]|]| |] eqn:Hd;
    [|left; reflexivity..].
  generalize (final (detect_devices cfg os st)). intros st1.
  rewrite events_bind.
  match goal with
  | |- context [events (?m st1)] =>
      assert (only other_kinds (events (m st1)) = true) as Hu;
        [|generalize dependent (events (m st1)); intros t1 Hu;
          generalize (final (m st1)); intros st2;
          destruct (result (m st1)) as [[]| |]]
  end.
  { destruct (_ && _); [|reflexivity].
    assert (emits_only other_kinds (unlink os OFFLOADING_CONF ;;; ret tt)) as H
      by (apply eo_bind; eo).
    apply H. }
  2,3: left; rewrite app_nil_r; exact Hu.
  rewrite events_bind, (only_nil _ (eo_read_data_from_file os _ _ st2)).
  cbn [app].
  generalize (final (read_data_from_file os (last_boot_file cfg) gpus_zero st2)).
  intros st3.
  destruct (result (read_data_from_file os (last_boot_file cfg) gpus_zero st2))
    as [r| |]; [|left; rewrite app_nil_r; exact Hu..].
  destruct (fst r =? 0); [left; rewrite app_nil_r; exact Hu|].
  rewrite events_bind, events_write_data_to_file.
  generalize (final (write_data_to_file os (new_boot_file cfg) cur st3)).
  intros st4.
  destruct (result (write_data_to_file os (new_boot_file cfg) cur st3))
    as [[|]| |]; cbn [negb];
    try (left; rewrite only_app, Hu; reflexivity).
  rewrite events_bind. cbn [lift events result final fst snd app].
  destruct (has_system_changed (snd r) cur) as [ch| |];
    try (left; rewrite only_app, Hu; reflexivity).
  rewrite events_bind. cbn [lift events result final fst snd app].
  destruct (get_boot_vga cur) as [[boot|]| |] eqn:Hb;
    try (left; rewrite only_app, Hu; reflexivity).
  destruct ((vendor_id boot =? INTEL) && off) eqn:Hno.
  - right. apply andb_true_iff in Hno as [Hv ->]. apply Z.eqb_eq in Hv.
    exists cur, boot. auto.
  - left. rewrite only_app, Hu. cbn [andb only forallb].
    apply (apply_policy_other cfg os fuel f off ch cur boot Hno).
Qed.

(** [main] writes to the power control of a device, unloads the nvidia
    modules, kills the display session or looks for the markers of
    disabled cards only on a machine that requires offloading and whose
    boot display is an Intel device. *)
Theorem prime_only_with_intel_boot cfg os fuel st e :
  In e (events (main cfg os fuel st)) ->
  kind_in (kind_of e) [KPower; KUnload; KKill; KFind] = true ->
  exists cur boot,
    result (detect_devices cfg os st) = Ok (Some (cur, true)) /\
    get_boot_vga cur = Ok (Some boot) /\ vendor_id boot = INTEL.
Proof.
  intros Hin Hk. destruct (main_on_other_machines cfg os fuel st) as [H|H];
    [|exact H].
  apply (only_in _ _ _ H) in Hin. destruct e; discriminate.
Qed.

Lemma prime_only_with_intel_boot_witness :
  exists cur boot,
    result (detect_devices cfg_default (os_optimus [marker "01"]) st_optimus) =
      Ok (Some (cur, true)) /\
    get_boot_vga cur = Ok (Some boot) /\ vendor_id boot = INTEL.
Proof.
  apply (prime_only_with_intel_boot cfg_default (os_optimus [marker "01"]) 2
           st_optimus (EvFindDisabled "/run" optimus_current)).
  - vm_compute. right. left. reflexivity.
  - reflexivity.
Defined.




(** ** Comparing inventories *)

Lemma differs_sym p c : differs p c = differs c p.
Proof.
  unfold differs.
  rewrite (Z.eqb_sym (boot_vga p)), (Z.eqb_sym (vendor_id p)),
    (Z.eqb_sym (device_id p)), (Z.eqb_sym (domain p)), (Z.eqb_sym (bus p)),
    (Z.eqb_sym (dev p)), (Z.eqb_sym (func p)).
  reflexivity.
Qed.

Lemma has_system_changed_loop_sym prev current k : forall i,
  has_system_changed_loop prev current i k =
  has_system_changed_loop current prev i k.
Proof.
  induction k as [|k IH]; intros i; cbn [has_system_changed_loop];
    [reflexivity|].
  destruct (card prev i) as [p|], (card current i) as [c|]; try reflexivity.
  rewrite (differs_sym p c). destruct (differs c p); [reflexivity|apply IH].
Qed.

(** The comparison does not depend on which inventory is the old one,
    and an inventory has not changed with respect to itself, nor with
    respect to one that differs from it in the outputs only. *)
Theorem has_system_changed_sym prev current :
  gpus_wf prev -> gpus_wf current ->
  has_system_changed prev current = has_system_changed current prev /\
  has_system_changed prev prev = Ok false /\
  (nr_cards prev = nr_cards current ->
   Forall2 same_id (devices prev) (devices current) ->
   has_system_changed prev current = Ok false).
Proof.
  intros Hp Hc. split; [|split].
  - unfold has_system_changed. rewrite (Z.eqb_sym (nr_cards current)).
    destruct (nr_cards prev =? nr_cards current) eqn:He; cbn [negb];
      [|reflexivity].
    apply Z.eqb_eq in He. rewrite He. apply has_system_changed_loop_sym.
  - destruct (has_system_changed_iff prev prev Hp Hp) as (b & Hb & Hiff).
    rewrite Hb. f_equal. destruct b; [|reflexivity]. exfalso.
    destruct (proj1 Hiff eq_refl) as [Hne|(i & p & c & Hi & Hpi & Hci & Hd)];
      [contradiction|].
    apply Hd. rewrite Hpi in Hci. inversion Hci; subst.
    unfold same_id. auto 10.
  - intros Hn Hsame.
    destruct (has_system_changed_iff prev current Hp Hc) as (b & Hb & Hiff).
    rewrite Hb. f_equal. destruct b; [|reflexivity]. exfalso.
    destruct (proj1 Hiff eq_refl) as [Hne|(i & p & c & Hi & Hpi & Hci & Hd)];
      [contradiction|].
    apply Hd. destruct (devices_wf prev Hp) as [_ Hdp].
    destruct (devices_wf current Hc) as [_ Hdc].
    assert (devices prev !! Z.to_nat i = Some p) as Hp'
      by (apply Hdp; rewrite Z2Nat.id by lia; auto).
    assert (devices current !! Z.to_nat i = Some c) as Hc'
      by (apply Hdc; rewrite Z2Nat.id by lia; split; [lia|exact Hci]).
    eapply Forall2_lookup_lr; eassumption.
Qed.

Lemma has_system_changed_sym_witness :
  has_system_changed one_card two_cards = has_system_changed two_cards one_card.
Proof.
  apply (has_system_changed_sym one_card two_cards);
    apply gpus_wfb_wf; reflexivity.
Defined.

(** ** The OutputClass file *)

Lemma strip_newline_line body :
  allb not_lf body = true -> strip_newline (body +:+ nl) = body.
Proof.
  induction body as [|c body IH]; intros Ha; [reflexivity|].
  cbn [allb] in Ha. apply andb_true_iff in Ha as [Hc Ha].
  rewrite append_cons. cbn [strip_newline].
  destruct (body +:+ nl) eqn:He; [destruct body; discriminate|].
  now rewrite IH.
Qed.

Definition multiarch_command : string :=
  "/usr/bin/dpkg-architecture -qDEB_HOST_MULTIARCH".

(** [create_prime_outputclass] writes the OutputClass section with the
    module path [/<arch>/nvidia/xorg], where [<arch>] is the first line
    that [dpkg-architecture] prints, without its newline, and touches no
    other file; when the command cannot be run or prints nothing, it
    returns false and writes nothing. *)
Theorem create_prime_outputclass_spec cfg os st :
  let path := xorg_d_file cfg prime_conf in
  let run := create_prime_outputclass cfg os st in
  (forall arch rest,
     popen os multiarch_command st = Some ((arch +:+ nl) +:+ rest) ->
     allb not_lf arch = true -> (String.length arch < 1034)%nat ->
     path ∉ os_readonly os ->
     result run = Ok true /\
     files (final run) !! path = Some (outputclass_text arch) /\
     forall p, p <> path -> files (final run) !! p = files st !! p) /\
  (popen os multiarch_command st = None \/
   popen os multiarch_command st = Some "" ->
   result run = Ok false /\ final run = st).
Proof.
  cbv zeta. unfold create_prime_outputclass. rewrite bind_get.
  change (snprintf 100 "/usr/bin/dpkg-architecture -qDEB_HOST_MULTIARCH")
    with multiarch_command.
  unfold get_output. split.
  - intros arch rest Hp Ha Hl Hro. rewrite Hp.
    assert (exists more, file_lines 1035 ((arch +:+ nl) +:+ rest) =
                         (arch +:+ nl) :: more) as [more ->].
    { unfold file_lines.
      destruct (String.length ((arch +:+ nl) +:+ rest)) as [|n] eqn:Hn.
      - rewrite !length_append in Hn. cbn [String.length nl] in Hn. lia.
      - cbn [fgets_all]. unfold fgets.
        destruct ((arch +:+ nl) +:+ rest) eqn:He;
          [destruct arch; discriminate|].
        rewrite <- He. change (1035 - 1)%nat with 1034%nat.
        rewrite (fgets_take_line 1034 arch rest Ha Hl). eauto. }
    cbn [get_output_loop fmap option_fmap option_map].
    rewrite (strip_newline_line arch Ha).
    unfold bind, fopen_w, fwrite, ret.
    destruct (decide (xorg_d_file cfg prime_conf ∈ os_readonly os));
      [contradiction|].
    cbn [result final fst snd files nexec nalloc].
    split; [reflexivity|]. split.
    + rewrite !lookup_insert_eq. reflexivity.
    + intros p Hne. rewrite !lookup_insert_ne by congruence. reflexivity.
  - intros [-> | ->]; split; reflexivity.
Qed.

Lemma create_prime_outputclass_spec_witness :
  files (final (create_prime_outputclass cfg_default (os_optimus []) st_optimus))
    !! xorg_d_file cfg_default prime_conf =
  Some (outputclass_text "x86_64-linux-gnu").
Proof.
  destruct (create_prime_outputclass_spec cfg_default (os_optimus [])
              st_optimus) as [H _].
  apply (H "x86_64-linux-gnu" ""); try reflexivity.
  - vm_compute. lia.
  - vm_compute. discriminate.
Defined.
